(** * SYNTHIA-Cityscapes dataset driver: a shallow embedding

    The development follows [xview/datasets/synthia_cityscapes.py]:
    the label table, the class [SynthiaCityscapes] with its constructor,
    [_preprocessing] and [_get_data].  Arrays are nested lists, the
    configuration dictionaries and the file system are finite maps keyed by
    strings, exceptions are values of a small error monad, and every random
    draw is an explicit argument. *)

From Stdlib Require Import ZArith QArith Qround Lia Bool Ascii.
From stdpp Require Import base option list strings gmap fin_maps pretty.

Local Open Scope Z_scope.
#[local] Set Warnings "-register-all".

(** ** Exceptions and the error monad *)

Inductive exn : Type :=
  | IOError (errno : Z) (strerror : string) (filename : string)
  | FileNotFoundError (filename : string)
  | KeyError (key : string)
  | TypeError
  | IndexError
  | ValueError
  | ZeroDivisionError
  | CvError
  | NameError (name : string).

Inductive res (A : Type) : Type :=
  | Ok (a : A)
  | Raise (e : exn).
Arguments Ok {A} a.
Arguments Raise {A} e.

#[export] Instance res_ret : MRet res := fun A a => Ok a.
#[export] Instance res_bind : MBind res := fun A B k m =>
  match m with
  | Ok a => k a
  | Raise e => Raise e
  end.

Definition is_ok {A : Type} (m : res A) : bool :=
  match m with Ok _ => true | Raise _ => false end.

(** ** Label information and the class remapping *)

Module Labels.

(** [LABELINFO]: code, name, colour. *)
Definition LABELINFO : list (Z * (string * list Z)) :=
  [ (0, ("void", [0; 0; 0]));
    (1, ("sky", [128; 128; 128]));
    (2, ("building", [128; 0; 0]));
    (3, ("road", [128; 64; 128]));
    (4, ("sidewalk", [0; 0; 192]));
    (5, ("fence", [64; 64; 128]));
    (6, ("vegetation", [128; 128; 0]));
    (7, ("pole", [192; 192; 128]));
    (8, ("car", [64; 0; 128]));
    (9, ("traffic sign", [192; 128; 128]));
    (10, ("pedestrian", [64; 64; 0]));
    (11, ("bicycle", [0; 128; 192]));
    (12, ("lanemarking", [0; 192; 0])) ].

Definition num_classes : nat := length LABELINFO.

(** [labels[labels == a] = b] on one element. *)
Definition assign_where (a b : Z) (x : Z) : Z :=
  if x =? a then b else x.

(** [labels[labels == a] = b] on a two-dimensional array. *)
Definition mask_assign (a b : Z) (labels : list (list Z)) : list (list Z) :=
  map (map (assign_where a b)) labels.

(** The eleven assignments of [_get_data], in the order of the source. *)
Definition remap_steps : list (Z * Z) :=
  [ (12, 11); (13, 12); (14, 0); (15, 7); (16, 0); (17, 11);
    (18, 8); (19, 8); (20, 0); (21, 0); (22, 12) ].

Definition remap_labels (labels : list (list Z)) : list (list Z) :=
  fold_left (fun acc st => mask_assign (fst st) (snd st) acc) remap_steps labels.

(** What the sequence of assignments does to one code. *)
Definition remap_code (x : Z) : Z :=
  fold_left (fun acc st => assign_where (fst st) (snd st) acc) remap_steps x.

Definition canonical (x : Z) : Prop := 0 <= x <= 12.

End Labels.

(** ** Arrays

    A two-dimensional numpy array is a list of rows.  Trailing axes live in
    the element type, so the slices, flips and resizes below act on the two
    leading axes whatever the element is, as [a[r0:r1, c0:c1, ...]] does. *)

Module NdArray.

Section Generic.
Context {A : Type}.

Definition height (a : list (list A)) : Z := Z.of_nat (length a).

Definition width (a : list (list A)) : Z :=
  match a with
  | [] => 0
  | r :: _ => Z.of_nat (length r)
  end.

Definition has_shape (h w : Z) (a : list (list A)) : Prop :=
  Z.of_nat (length a) = h /\ Forall (fun r => Z.of_nat (length r) = w) a.

(** Python's normalisation of one bound of [l[lo:hi]] on length [n]. *)
Definition norm_index (i n : Z) : Z :=
  if i <? 0 then Z.max 0 (i + n) else Z.min i n.

Definition py_slice {B : Type} (lo hi : Z) (l : list B) : list B :=
  let n := Z.of_nat (length l) in
  let lo' := norm_index lo n in
  let hi' := norm_index hi n in
  firstn (Z.to_nat (hi' - lo')) (skipn (Z.to_nat lo') l).

(** [a[r0:r1, c0:c1, ...]] *)
Definition slice2 (r0 r1 c0 c1 : Z) (a : list (list A)) : list (list A) :=
  map (py_slice c0 c1) (py_slice r0 r1 a).

(** [np.flip(a, axis=0)] and [np.flip(a, axis=1)] *)
Definition flip0 (a : list (list A)) : list (list A) := rev a.
Definition flip1 (a : list (list A)) : list (list A) := map (fun r => rev r) a.

(** The array of [h] rows and [w] columns whose element [(y, x)] is [f y x]. *)
Definition build (h w : Z) (f : Z -> Z -> A) : list (list A) :=
  map (fun y => map (fun x => f (Z.of_nat y) (Z.of_nat x)) (seq 0 (Z.to_nat w)))
      (seq 0 (Z.to_nat h)).

Definition get `{Inhabited A} (a : list (list A)) (y x : Z) : A :=
  nth (Z.to_nat x) (nth (Z.to_nat y) a []) inhabitant.
End Generic.

End NdArray.

(** ** Random draws

    The calls to [random] and [np.random] are functions of the raw value
    the generator hands out, which is an argument of the model. *)

Module Rand.

(** [random.uniform(a, b)] is [a + (b - a) * random()]; [u] is the value of
    [random()], a number of the interval from 0 (included) to 1 (excluded). *)
Definition uniform (a b u : Q) : Q := (a + (b - a) * u)%Q.

(** [random.randint(a, b)]: an empty range raises [ValueError]. *)
Definition randint (a b : Z) (n : Z) : res Z :=
  if b <? a then Raise ValueError else Ok (a + n mod (b - a + 1)).

(** One value per call site of [_get_data]. *)
Record draws : Type := Draws {
  u_scale : Q;       (* random.uniform, line 140 *)
  n_row : Z;         (* random.randint, line 149 *)
  n_col : Z;         (* random.randint, line 150 *)
  c_hflip : bool;    (* np.random.choice([0, 1]), line 154 *)
  c_vflip : bool;    (* np.random.choice([0, 1]), line 158 *)
  u_gamma : Q        (* random.uniform, line 163 *)
}.

Definition unit_interval (u : Q) : Prop := (0 <= u)%Q /\ (u < 1)%Q.

End Rand.

(** ** OpenCV *)

(** A pixel of [cv2.imread(filename)]: always three channels. *)
Record bgr : Type := BGR { blue : Z; green : Z; red : Z }.

#[export] Instance bgr_inhabited : Inhabited bgr := populate (BGR 0 0 0).

Definition channels (p : bgr) : list Z := [blue p; green p; red p].

(** The two floating-point kernels whose values the development leaves
    open: the bilinear sample of [cv2.resize] at an output position, and the
    gamma table [((i / 255.0) ** (1/k)) * 255] cast to [uint8]. *)
Class FloatKernels : Type := {
  linear_sample : Q -> list (list bgr) -> Z -> Z -> bgr;
  gamma_lut : Q -> Z -> Z
}.

Module Cv2.
Import NdArray.

(** [cvRound]: to the nearest integer, ties to the even one. *)
Definition cv_round (q : Q) : Z :=
  let f := Qfloor q in
  match Qcompare (q - inject_Z f) (1 # 2) with
  | Lt => f
  | Gt => f + 1
  | Eq => if Z.even f then f else f + 1
  end.

(** Output extent of [cv2.resize(src, None, fx=k, fy=k)] along an axis of
    [n] pixels. *)
Definition scaled (k : Q) (n : Z) : Z := cv_round (k * inject_Z n).

(** Source index read by nearest-neighbour interpolation for output
    index [i] along an axis of [n] pixels. *)
Definition nearest_src (k : Q) (n i : Z) : Z :=
  Z.min (Qfloor (inject_Z i / k)) (n - 1).

Section Resize.
Context {A : Type}.

Definition resize_with (sample : Z -> Z -> A) (k : Q) (src : list (list A))
  : res (list (list A)) :=
  let h := height src in
  let w := width src in
  if (h <=? 0) || (w <=? 0) then Raise CvError
  else
    let h' := scaled k h in
    let w' := scaled k w in
    if (h' <=? 0) || (w' <=? 0) then Raise CvError
    else Ok (build h' w' sample).

(** [cv2.resize(src, None, fx=k, fy=k, interpolation=cv2.INTER_NEAREST)] *)
Definition resize_nearest `{Inhabited A} (k : Q) (src : list (list A))
  : res (list (list A)) :=
  resize_with
    (fun y x => get src (nearest_src k (height src) y) (nearest_src k (width src) x))
    k src.
End Resize.

(** [cv2.resize(src, None, fx=k, fy=k)] on the colour image. *)
Definition resize_linear `{FloatKernels} (k : Q) (src : list (list bgr))
  : res (list (list bgr)) :=
  resize_with (linear_sample k src) k src.

End Cv2.

(** ** Configuration values *)

Inductive pyval : Type :=
  | VBool (b : bool)
  | VInt (z : Z)
  | VList (l : list Q).

Inductive cfgval : Type :=
  | CDict (d : gmap string pyval)
  | CVal (v : pyval).

Module Py.

Definition truthy (v : pyval) : bool :=
  match v with
  | VBool b => b
  | VInt z => negb (z =? 0)
  | VList l => negb (bool_decide (l = []))
  end.

(** A value used as an integer ([bool] is a subclass of [int]). *)
Definition as_int (v : pyval) : res Z :=
  match v with
  | VBool b => Ok (if b then 1 else 0)
  | VInt z => Ok z
  | VList _ => Raise TypeError
  end.

(** [v[i]] *)
Definition item (v : pyval) (i : nat) : res Q :=
  match v with
  | VList l =>
      match l !! i with
      | Some q => Ok q
      | None => Raise IndexError
      end
  | _ => Raise TypeError
  end.

(** [d[key]] on a dictionary. *)
Definition getitem {V : Type} (d : gmap string V) (key : string) : res V :=
  match d !! key with
  | Some v => Ok v
  | None => Raise (KeyError key)
  end.

(** [c[key]] on a configuration entry. *)
Definition subscript (c : cfgval) (key : string) : res pyval :=
  match c with
  | CDict d => getitem d key
  | CVal _ => Raise TypeError
  end.

(** [max(a, b)]: the first of the largest. *)
Definition max (a b : Q) : Q := if Qlt_le_dec a b then b else a.

(** [dict.update]: the entries of [other] replace those of [d]. *)
Definition update {V : Type} (d other : gmap string V) : gmap string V :=
  other ∪ d.

End Py.

(** ** Paths and the file system *)

Module Path.

Definition slash : ascii := "/"%char.

Definition starts_with_slash (s : string) : bool :=
  match s with
  | String c _ => Ascii.eqb c slash
  | EmptyString => false
  end.

Fixpoint ends_with_slash (s : string) : bool :=
  match s with
  | EmptyString => false
  | String c EmptyString => Ascii.eqb c slash
  | String _ rest => ends_with_slash rest
  end.

(** One round of the loop of [posixpath.join]. *)
Definition join2 (p b : string) : string :=
  if starts_with_slash b then b
  else if bool_decide (p = "") || ends_with_slash p then p +:+ b
  else p +:+ "/" +:+ b.

(** [path.join(a, *ps)] *)
Definition join (a : string) (ps : list string) : string :=
  fold_left join2 ps a.

(** [s.split(sep)[0]]: the part of [s] before the first [sep]. *)
Fixpoint before_first (sep : ascii) (s : string) : string :=
  match s with
  | EmptyString => EmptyString
  | String c rest =>
      if Ascii.eqb c sep then EmptyString else String c (before_first sep rest)
  end.

Fixpoint has_char (c : ascii) (s : string) : bool :=
  match s with
  | EmptyString => false
  | String c' rest => Ascii.eqb c' c || has_char c rest
  end.

(** [Some rest] when [s] is [pre] followed by [rest]. *)
Fixpoint strip_prefix (pre s : string) : option string :=
  match pre, s with
  | EmptyString, _ => Some s
  | String a pre', String b s' =>
      if Ascii.eqb a b then strip_prefix pre' s' else None
  | String _ _, EmptyString => None
  end.

(** The entry name of [p] inside the directory [dir], when [p] lies
    directly in it. *)
Definition child_of (dir p : string) : option string :=
  match strip_prefix (dir +:+ "/") p with
  | Some name =>
      if bool_decide (name = "") || has_char slash name then None else Some name
  | None => None
  end.

(** The proper ancestors of [p]: its prefixes that stop before a slash. *)
Fixpoint ancestors_from (seen rest : string) : list string :=
  match rest with
  | EmptyString => []
  | String c rest' =>
      let tail := ancestors_from (seen +:+ String c EmptyString) rest' in
      if Ascii.eqb c slash && negb (bool_decide (seen = "")) then seen :: tail
      else tail
  end.

Definition ancestors (p : string) : list string := ancestors_from "" p.

(** [path.dirname] *)
Definition dirname (p : string) : string :=
  match last (ancestors p) with
  | Some d => d
  | None => if starts_with_slash p then "/" else ""
  end.

End Path.

(** Parsed JSON documents. *)
Inductive json : Type :=
  | JNull
  | JBool (b : bool)
  | JNum (z : Z)
  | JStr (s : string)
  | JList (l : list json)
  | JObj (fields : list (string * json)).

Inductive node : Type :=
  | Dir
  | FileJson (j : json)              (* a JSON document *)
  | FileImage (a : list (list Z))    (* a single-channel image *)
  | FileNpy (a : list (list Z)).     (* an array written by [np.save] *)

Module Fs.
Import Path.

Definition exists_ (fs : gmap string node) (p : string) : bool :=
  bool_decide (is_Some (fs !! p)).

(** [os.listdir] *)
Definition listdir (fs : gmap string node) (dir : string) : res (list string) :=
  match fs !! dir with
  | None => Raise (FileNotFoundError dir)
  | Some Dir => Ok (omap (fun kv => child_of dir (fst kv)) (map_to_list fs))
  | Some _ => Raise (IOError 20 "Not a directory" dir)
  end.

Definition below (dir p : string) : bool :=
  bool_decide (p = dir) || bool_decide (is_Some (strip_prefix (dir +:+ "/") p)).

(** [shutil.rmtree] *)
Definition rmtree (fs : gmap string node) (dir : string) : gmap string node :=
  filter (fun kv => below dir (fst kv) = false) fs.

(** [os.makedirs]: the leaf must not exist. *)
Definition makedirs (fs : gmap string node) (dir : string) : res (gmap string node) :=
  if exists_ fs dir then Raise (IOError 17 "File exists" dir)
  else Ok (<[dir := Dir]> (fold_right
             (fun d acc => if exists_ acc d then acc else <[d := Dir]> acc)
             fs (ancestors dir))).

(** Writing a whole file: the parent directory has to be there. *)
Definition write (fs : gmap string node) (p : string) (content : node)
  : res (gmap string node) :=
  let parent := dirname p in
  if bool_decide (parent = "") || bool_decide (parent = "/") then Ok (<[p := content]> fs)
  else
    match fs !! parent with
    | Some Dir => Ok (<[p := content]> fs)
    | _ => Raise (FileNotFoundError p)
    end.

(** [np.save(file, arr)]: the extension [.npy] is appended when missing. *)
Definition np_save (fs : gmap string node) (p : string) (a : list (list Z))
  : res (gmap string node) :=
  let p' := if bool_decide (is_Some (strip_prefix "ypn." (String.rev p)))
            then p else p +:+ ".npy" in
  write fs p' (FileNpy a).

(** [json.load(open(p, 'r'))] *)
Definition json_load (fs : gmap string node) (p : string) : res json :=
  match fs !! p with
  | None => Raise (FileNotFoundError p)
  | Some Dir => Raise (IOError 21 "Is a directory" p)
  | Some (FileJson j) => Ok j
  | Some _ => Raise ValueError
  end.

End Fs.

(** ** The driver *)

(** A sample descriptor, [{'image_name': filename}]. *)
Record descriptor : Type := Descriptor { image_name : json }.

(** Modelled from the spec: [DataBaseclass.__init__] of
    [xview/datasets/data_baseclass.py], which the constructor calls and whose
    source is not part of the files at hand.  The spec gives the base no state
    beyond the split and the settings passed to it, so the model keeps the
    five arguments as they come. *)
Record DataBaseclass : Type := DataBaseclass__init__ {
  trainset : list descriptor;
  testset : list descriptor;
  batchsize : Z;
  modalities : list string;
  labelinfo : list (Z * (string * list Z))
}.

Record SynthiaCityscapes : Type := Driver {
  config : gmap string cfgval;
  basepath : string;
  base : DataBaseclass
}.

(** What a call leaves behind: the lines printed and the value or exception. *)
Record outcome (A : Type) : Type := Outcome {
  stdout : list string;
  result : res A
}.
Arguments Outcome {A} stdout result.
Arguments stdout {A} o.
Arguments result {A} o.

Module Json.

(** [j[key]] *)
Definition getitem (j : json) (key : string) : res json :=
  match j with
  | JObj fields =>
      match list_find (fun kv => fst kv = key) fields with
      | Some (_, (_, v)) => Ok v
      | None => Raise (KeyError key)
      end
  | _ => Raise TypeError
  end.

Fixpoint chars (s : string) : list json :=
  match s with
  | EmptyString => []
  | String c rest => JStr (String c EmptyString) :: chars rest
  end.

(** The values a [for] loop over [j] goes through. *)
Definition iterate (j : json) : res (list json) :=
  match j with
  | JList l => Ok l
  | JStr s => Ok (chars s)
  | JObj fields => Ok (map (fun kv => JStr (fst kv)) fields)
  | _ => Raise TypeError
  end.

End Json.

Definition default_augmentation : gmap string pyval :=
  <["crop" := VInt 480]>
  (<["scale" := VList [7 # 10; 15 # 10]%Q]>
  (<["vflip" := VBool true]>
  (<["hflip" := VBool false]>
  (<["gamma" := VList [3 # 10; 2 # 1]%Q]> ∅)))).

Definition default_config : gmap string cfgval :=
  {[ "augmentation" := CDict default_augmentation ]}.

Definition root_missing_message : string :=
  "ERROR: Path to SYNTHIA dataset does not exist.".

(** [SynthiaCityscapes.__init__] *)
Definition __init__ (fs : gmap string node) (base_path : string)
    (force_preprocessing : bool) (batchsize : Z)
    (data_config : gmap string cfgval) : outcome SynthiaCityscapes :=
  let config := Py.update default_config data_config in
  if negb (Fs.exists_ fs base_path) then
    Outcome [root_missing_message] (Raise (IOError 1 root_missing_message base_path))
  else
    let basepath := Path.join base_path ["RAND_CITYSCAPES"] in
    Outcome []
      (split ← Fs.json_load fs (Path.join basepath ["train_test_split.json"]);
       tr ← Json.getitem split "trainset";
       tr ← Json.iterate tr;
       let trainset := map Descriptor tr in
       te ← Json.getitem split "testset";
       te ← Json.iterate te;
       let testset := map Descriptor te in
       Ok (Driver config basepath
             (DataBaseclass__init__ trainset testset batchsize
                ["rgb"; "depth"; "labels"] Labels.LABELINFO))).

(** Modelled from the spec: [one_channel_image_reader] of
    [xview/datasets/synthia.py], imported by the driver and not part of the
    files at hand.  The spec has it turn a single-channel label image into a
    numeric array, here the stored image itself. *)
Definition one_channel_image_reader (fs : gmap string node) (p : string)
  : res (list (list Z)) :=
  match fs !! p with
  | None => Raise (FileNotFoundError p)
  | Some (FileImage a) => Ok a
  | Some _ => Raise ValueError
  end.

(** [sklearn.model_selection.train_test_split(l, test_size=0.2)]: the test
    part takes the first [ceil(0.2 * n)] indices of the permutation [perm]
    drawn by the generator, the train part the remaining ones. *)
Definition train_test_split {A : Type} (l : list A) (perm : list nat)
  : res (list A * list A) :=
  let n := length l in
  if bool_decide (n = 0%nat) then Raise ValueError
  else
    let n_test := Z.to_nat ((Z.of_nat n + 4) / 5) in
    Ok (omap (fun i => l !! i) (drop n_test perm),
        omap (fun i => l !! i) (take n_test perm)).

Section Preprocessing.
Import Path Fs.

(** The attribute [self.base_path] read by [_preprocessing]; the
    constructor assigns [self.basepath] only, so the value is an argument. *)
Variable base_path : string.

Fixpoint convert_files (fs : gmap string node) (inpath outpath : string)
    (filenames : list string) : res (gmap string node) :=
  match filenames with
  | [] => Ok fs
  | filename :: rest =>
      array ← one_channel_image_reader fs (join inpath [filename]);
      fs ← np_save fs (join outpath [before_first "."%char filename]) array;
      convert_files fs inpath outpath rest
  end.

(** The body of the loop over the directions, and the loop with its
    [break]. *)
Definition convert_direction (fs : gmap string node) (rootpath direction : string)
  : res (gmap string node) :=
  let inpath := join rootpath ["LABELS"; "Stereo_Right/Omni_" +:+ direction] in
  let outpath := join rootpath ["LABELS_NPY"; "Stereo_Right/Omni_" +:+ direction] in
  let fs := if exists_ fs outpath then rmtree fs outpath else fs in
  fs ← makedirs fs outpath;
  filenames ← listdir fs inpath;
  convert_files fs inpath outpath filenames.

Fixpoint convert_directions (fs : gmap string node) (rootpath sequence : string)
    (directions : list string) : res (gmap string node) :=
  match directions with
  | [] => Ok fs
  | direction :: rest =>
      fs ← convert_direction fs rootpath direction;
      if bool_decide (sequence = "RAND_CITYSCAPES") then Ok fs
      else convert_directions fs rootpath sequence rest
  end.

Definition split_document (trainset testset : list string) : json :=
  JObj [("trainset", JList (map JStr trainset));
        ("testset", JList (map JStr testset))].

(** [SynthiaCityscapes._preprocessing]; the result is the file system the
    call leaves when it returns. *)
Definition _preprocessing (fs : gmap string node) (sequence : string)
    (perm : list nat) : outcome (gmap string node) :=
  let rootpath := join base_path [sequence; "GT"] in
  match convert_directions fs rootpath sequence ["F"; "B"; "L"; "R"] with
  | Raise e => Outcome [] (Raise e)
  | Ok fs =>
      if exists_ fs (join base_path [sequence; "train_test_split.json"])
      then Outcome [] (Ok fs)
      else
        Outcome ["INFO: Creating Train-Test-Split"]
          (names ← listdir fs (join rootpath ["LABELS/Stereo_Right/Omni_F"]);
           let filenames := map (before_first "."%char) names in
           '(trainset, testset) ← train_test_split filenames perm;
           write fs (join base_path [sequence; "/train_test_split.json"])
                 (FileJson (split_document trainset testset)))
  end.

End Preprocessing.

(** ** Loading one sample *)

(** The three arrays read at the start of [_get_data]: the colour image of
    [cv2.imread(rgb_filename)], the 16-bit image of
    [cv2.imread(depth_filename, 2)] and the array of [np.load]. *)
Record sample : Type := Sample {
  s_rgb : list (list bgr);
  s_depth : list (list Z);
  s_labels : list (list Z)
}.

(** [blob['labels']] has two axes, or three once it is one-hot. *)
Inductive label_array : Type :=
  | Labels2 (a : list (list Z))
  | Labels3 (a : list (list (list Z))).

Record blob : Type := Blob {
  rgb : list (list bgr);
  depth : list (list (list Z));
  labels : label_array
}.

(** The one-hot step, lines 169 and 170.  The comparison reads the global
    [one_hot_lookup] before it indexes the labels.  The module binds the
    names of its imports ([np], [listdir], [path], [makedirs], [tqdm],
    [cv2], [shutil], [json], [random], [train_test_split], [DataBaseclass],
    [SYNTHIA_BASEPATH], [one_channel_image_reader]), [LABELINFO] and the
    class; it neither defines nor imports [one_hot_lookup], and no builtin
    has that name, so the read raises [NameError]. *)
Module OneHot.

(** The value of the global [one_hot_lookup] at line 169. *)
Definition one_hot_lookup : res (list Z) :=
  Raise (NameError "one_hot_lookup").

(** [(table == v).astype(int)] for one label [v]. *)
Definition encode (table : list Z) (v : Z) : list Z :=
  map (fun c => if c =? v then 1 else 0) table.

(** [np.array(table == labels[:, :, None]).astype(int)] *)
Definition one_hot (table : list Z) (labels : list (list Z))
  : list (list (list Z)) :=
  map (map (encode table)) labels.

End OneHot.

Section GetData.
Import NdArray Cv2 Rand Py.
Context `{FloatKernels}.

(** The three modalities while they are augmented, all with two leading
    axes. *)
Definition arrays : Type :=
  (list (list bgr) * list (list Z) * list (list Z))%type.

(** The keys read at the head of the training branch, in that order. *)
Definition augmentation_keys : list string :=
  ["scale"; "crop"; "hflip"; "vflip"; "gamma"].

(** [self.config['augmentation'][key]] *)
Definition aug_entry (self : SynthiaCityscapes) (key : string) : res pyval :=
  aug ← getitem (config self) "augmentation";
  subscript aug key.

(** [crop / float(min(h, w))] *)
Definition min_scale (crop : pyval) (h w : Z) : res Q :=
  c ← as_int crop;
  if Z.min h w =? 0 then Raise ZeroDivisionError
  else Ok (inject_Z c / inject_Z (Z.min h w))%Q.

(** The factor [k] of line 140. *)
Definition scale_factor (scale crop : pyval) (h w : Z) (u : Q) : res Q :=
  m ← min_scale crop h w;
  lo ← item scale 0;
  hi ← item scale 1;
  Ok (uniform (Py.max m lo) hi u).

Definition scale_stage (scale crop : pyval) (d : draws) (a : arrays) : res arrays :=
  let '(rgb, depth, labels) := a in
  if truthy scale && truthy crop then
    k ← scale_factor scale crop (height rgb) (width rgb) (u_scale d);
    rgb ← resize_linear k rgb;
    depth ← resize_nearest k depth;
    labels ← resize_nearest k labels;
    Ok (rgb, depth, labels)
  else Ok a.

Definition crop_stage (crop : pyval) (d : draws) (a : arrays) : res arrays :=
  let '(rgb, depth, labels) := a in
  if truthy crop then
    c ← as_int crop;
    h_c ← randint 0 (height rgb - c) (n_row d);
    w_c ← randint 0 (width rgb - c) (n_col d);
    Ok (slice2 h_c (h_c + c) w_c (w_c + c) rgb,
        slice2 h_c (h_c + c) w_c (w_c + c) depth,
        slice2 h_c (h_c + c) w_c (w_c + c) labels)
  else Ok a.

Definition hflip_stage (hflip : pyval) (d : draws) (a : arrays) : arrays :=
  let '(rgb, depth, labels) := a in
  if truthy hflip && c_hflip d then (flip0 rgb, flip0 depth, flip0 labels) else a.

Definition vflip_stage (vflip : pyval) (d : draws) (a : arrays) : arrays :=
  let '(rgb, depth, labels) := a in
  if truthy vflip && c_vflip d then (flip1 rgb, flip1 depth, flip1 labels) else a.

(** [lut[blob['rgb']]] on one pixel. *)
Definition apply_lut (lut : Z -> Z) (p : bgr) : bgr :=
  BGR (lut (blue p)) (lut (green p)) (lut (red p)).

Definition gamma_stage (gamma : pyval) (d : draws) (a : arrays) : res arrays :=
  let '(rgb, depth, labels) := a in
  if truthy gamma then
    lo ← item gamma 0;
    hi ← item gamma 1;
    let k := uniform lo hi (u_gamma d) in
    if Qeq_bool k 0 then Raise ZeroDivisionError
    else Ok (map (map (apply_lut (gamma_lut k))) rgb, depth, labels)
  else Ok a.

(** The block under [if training_format:] up to the one-hot step. *)
Definition augment (self : SynthiaCityscapes) (d : draws) (a : arrays) : res arrays :=
  scale ← aug_entry self "scale";
  crop ← aug_entry self "crop";
  hflip ← aug_entry self "hflip";
  vflip ← aug_entry self "vflip";
  gamma ← aug_entry self "gamma";
  a ← scale_stage scale crop d a;
  a ← crop_stage crop d a;
  let a := hflip_stage hflip d a in
  let a := vflip_stage vflip d a in
  gamma_stage gamma d a.

(** [np.expand_dims(blob['depth'], 3)]: the channel axis the file omits,
    added as the last one. *)
Definition expand_dims (a : list (list Z)) : list (list (list Z)) :=
  map (map (fun v => [v])) a.

(** [d - (d % 16)] *)
Definition floor16 (d : Z) : Z := d - d mod 16.

(** [a[:h_c, :w_c, ...]] *)
Definition leading {A : Type} (h_c w_c : Z) (a : list (list A)) : list (list A) :=
  slice2 0 h_c 0 w_c a.

Definition leading_labels (h_c w_c : Z) (l : label_array) : label_array :=
  match l with
  | Labels2 a => Labels2 (leading h_c w_c a)
  | Labels3 a => Labels3 (leading h_c w_c a)
  end.

(** The last block: force the image dimension to be a multiple of 16. *)
Definition force_multiple_of_16 (b : blob) : blob :=
  let h := height (rgb b) in
  let w := width (rgb b) in
  let h_c := floor16 h in
  let w_c := floor16 w in
  if negb (h_c =? h) || negb (w_c =? w) then
    Blob (leading h_c w_c (rgb b)) (leading h_c w_c (depth b))
         (leading_labels h_c w_c (labels b))
  else b.

(** [SynthiaCityscapes._get_data], from the loaded arrays on. *)
Definition _get_data (self : SynthiaCityscapes) (s : sample)
    (training_format : bool) (d : draws) : res blob :=
  let labels := Labels.remap_labels (s_labels s) in
  '(rgb, depth, labels) ←
    (if training_format then
       '(rgb, depth, labels) ← augment self d (s_rgb s, s_depth s, labels);
       table ← OneHot.one_hot_lookup;
       Ok (rgb, depth, Labels3 (OneHot.one_hot table labels))
     else Ok (s_rgb s, s_depth s, Labels2 labels));
  Ok (force_multiple_of_16 (Blob rgb (expand_dims depth) labels)).

End GetData.

(** ** Shapes and positions

    The vocabulary of the statements below: the shape of a blob, the length
    of a slice, and the crop window and flips of one call as a single
    operation on an array of any element type. *)

Module Shape.
Import NdArray.

(** Length of [l[lo:hi]] for a list of [n] elements. *)
Definition slice_len (lo hi n : Z) : Z :=
  Z.max 0 (norm_index hi n - norm_index lo n).

(** The three modalities have [h] rows and [w] columns each. *)
Definition aligned (h w : Z) (a : list (list bgr) * list (list Z) * list (list Z))
  : Prop :=
  has_shape h w (fst (fst a)) /\ has_shape h w (snd (fst a)) /\ has_shape h w (snd a).

Definition sample_shape (h w : Z) (s : sample) : Prop :=
  aligned h w (s_rgb s, s_depth s, s_labels s).

(** Every element of a two-axis array of vectors has [c] entries. *)
Definition depth_of {A : Type} (c : Z) (a : list (list (list A))) : Prop :=
  Forall (Forall (fun v => Z.of_nat (length v) = c)) a.

(** The two leading axes of [blob['labels']]. *)
Definition labels_shape (h w : Z) (l : label_array) : Prop :=
  match l with
  | Labels2 a => has_shape h w a
  | Labels3 a => has_shape h w a
  end.

(** [rgb] is [(h, w, 3)], [depth] is [(h, w, 1)] and [labels] is [(h, w)]
    or [(h, w, num_classes)]. *)
Definition blob_shape (h w : Z) (b : blob) : Prop :=
  has_shape h w (rgb b) /\
  depth_of 3 (map (map channels) (rgb b)) /\
  has_shape h w (depth b) /\ depth_of 1 (depth b) /\
  match labels b with
  | Labels2 a => has_shape h w a
  | Labels3 a => has_shape h w a /\ depth_of (Z.of_nat Labels.num_classes) a
  end.

(** The crop window [(h_c, w_c, crop)] when there is one, then the flip of
    the rows, then the flip of the columns. *)
Definition place {A : Type} (window : option (Z * Z * Z)) (rows cols : bool)
    (a : list (list A)) : list (list A) :=
  let a := match window with
           | Some (h_c, w_c, c) => slice2 h_c (h_c + c) w_c (w_c + c) a
           | None => a
           end in
  let a := if rows then flip0 a else a in
  if cols then flip1 a else a.

(** Rows and columns [place] leaves of an array of [h] rows and [w]
    columns. *)
Definition window_rows (window : option (Z * Z * Z)) (h : Z) : Z :=
  match window with
  | Some (h_c, _, c) => slice_len h_c (h_c + c) h
  | None => h
  end.

Definition window_cols (window : option (Z * Z * Z)) (w : Z) : Z :=
  match window with
  | Some (_, w_c, c) => slice_len w_c (w_c + c) w
  | None => w
  end.


(** The gamma table applied to the colour image, when there is one. *)
Definition tone (lut : option (Z -> Z)) (a : list (list bgr)) : list (list bgr) :=
  match lut with
  | Some f => map (map (apply_lut f)) a
  | None => a
  end.


(** The window drawn by the crop stage on a colour image [a]. *)
Definition crop_window (crop : pyval) (d : Rand.draws) (a : list (list bgr))
  : res (option (Z * Z * Z)) :=
  if Py.truthy crop then
    c ← Py.as_int crop;
    h_c ← Rand.randint 0 (height a - c) (Rand.n_row d);
    w_c ← Rand.randint 0 (width a - c) (Rand.n_col d);
    Ok (Some (h_c, w_c, c))
  else Ok None.

(** The table drawn by the gamma stage. *)
Definition gamma_table `{FloatKernels} (gamma : pyval) (d : Rand.draws)
  : res (option (Z -> Z)) :=
  if Py.truthy gamma then
    lo ← Py.item gamma 0;
    hi ← Py.item gamma 1;
    let k := Rand.uniform lo hi (Rand.u_gamma d) in
    if Qeq_bool k 0 then Raise ZeroDivisionError else Ok (Some (gamma_lut k))
  else Ok None.

(** The gamma stage is off, or its range gives a non-zero exponent. *)
Definition gamma_ready (gamma : pyval) (d : Rand.draws) : Prop :=
  Py.truthy gamma = false \/
  exists lo hi rest,
    gamma = VList (lo :: hi :: rest) /\
    ~ (Rand.uniform lo hi (Rand.u_gamma d) == 0)%Q.

(** A configuration with a crop of [c] pixels and a scale range whose upper
    end reaches the factor an image of [h] by [w] pixels needs. *)
Definition training_ready (self : SynthiaCityscapes) (h w : Z) (d : Rand.draws)
    (c : Z) : Prop :=
  exists (aug : gmap string pyval) lo hi rest hflip vflip gamma,
    config self !! "augmentation" = Some (CDict aug) /\
    aug !! "scale" = Some (VList (lo :: hi :: rest)) /\
    aug !! "crop" = Some (VInt c) /\
    aug !! "hflip" = Some hflip /\
    aug !! "vflip" = Some vflip /\
    aug !! "gamma" = Some gamma /\
    0 < c /\ 0 < h /\ 0 < w /\
    (Py.max (inject_Z c / inject_Z (Z.min h w)) lo <= hi)%Q /\
    Rand.unit_interval (Rand.u_scale d) /\
    gamma_ready gamma d.

End Shape.

(** ** Concrete data for running the model *)

Module Demo.
Import NdArray Cv2.

(** Kernels to run the model with: the colour resize samples the nearest
    pixel and the gamma table is the identity.  Only shapes and positions
    are read off the results computed with them. *)
#[export] Instance kernels : FloatKernels := {|
  linear_sample := fun k src y x =>
    get src (nearest_src k (height src) y) (nearest_src k (width src) x);
  gamma_lut := fun _ i => i
|}.

(** An image whose pixel [(y, x)] carries its own position, and a label
    array running through the raw codes. *)
Definition image (h w : Z) : list (list bgr) := build h w (fun y x => BGR y x 0).
Definition plane (h w : Z) : list (list Z) := build h w (fun y x => (y * w + x) mod 23).
Definition frame (h w : Z) : sample := Sample (image h w) (plane h w) (plane h w).

Definition driver_with (cfg : gmap string cfgval) : SynthiaCityscapes :=
  Driver cfg "/data/RAND_CITYSCAPES"
    (DataBaseclass__init__ [] [] 1 ["rgb"; "depth"; "labels"] Labels.LABELINFO).

Definition augmentation (crop scale vflip hflip gamma : pyval) : gmap string cfgval :=
  {[ "augmentation" :=
       CDict (<["crop" := crop]> (<["scale" := scale]> (<["vflip" := vflip]>
             (<["hflip" := hflip]> (<["gamma" := gamma]> ∅))))) ]}.

(** A driver that scales by a factor between 1 and 2, crops 16 pixels and
    may flip both ways, and the draws of one call. *)
Definition training_driver : SynthiaCityscapes :=
  driver_with (augmentation (VInt 16) (VList [1; 2]%Q) (VBool true) (VBool true)
                            (VBool false)).
Definition dice : Rand.draws := Rand.Draws (1 # 2) 3 5 true true (1 # 2).

(** The default driver, and the draws of a call whose [random()] values
    are one half. *)
Definition default_driver : SynthiaCityscapes := driver_with default_config.
Definition halves : Rand.draws := Rand.Draws (1 # 2) 0 0 false false (1 # 2).

(** The permutation handed to [train_test_split] in the examples. *)
Definition shuffle : list nat := [3; 1; 0; 4; 2]%nat.

(** A caller's configuration whose augmentation entry names the crop only. *)
Definition crop_only : gmap string pyval := {[ "crop" := VInt 480 ]}.
Definition crop_only_config : gmap string cfgval :=
  {[ "augmentation" := CDict crop_only ]}.

Definition split_file : json :=
  JObj [("trainset", JList [JStr "a"; JStr "b"]); ("testset", JList [JStr "c"])].

(** A dataset root with a persisted split. *)
Definition disk : gmap string node :=
  <["/data" := Dir]>
  (<["/data/RAND_CITYSCAPES" := Dir]>
  (<["/data/RAND_CITYSCAPES/train_test_split.json" := FileJson split_file]> ∅)).

(** A dataset root with five label images and no split yet. *)
Definition omni_f : string := "/data/RAND_CITYSCAPES/GT/LABELS/Stereo_Right/Omni_F".
Definition raw_disk : gmap string node :=
  <["/data" := Dir]>
  (<["/data/RAND_CITYSCAPES" := Dir]>
  (<["/data/RAND_CITYSCAPES/GT" := Dir]>
  (<["/data/RAND_CITYSCAPES/GT/LABELS" := Dir]>
  (<["/data/RAND_CITYSCAPES/GT/LABELS/Stereo_Right" := Dir]>
  (<[omni_f := Dir]>
  (<[omni_f +:+ "/0000000.png" := FileImage [[3; 13]]]>
  (<[omni_f +:+ "/0000001.png" := FileImage [[3; 22]]]>
  (<[omni_f +:+ "/0000002.png" := FileImage [[1; 2]]]>
  (<[omni_f +:+ "/0000003.png" := FileImage [[4; 4]]]>
  (<[omni_f +:+ "/0000004.png" := FileImage [[6; 8]]]> ∅)))))))))).

(** The file system [_preprocessing] leaves behind on [raw_disk]. *)
Definition preprocessed : gmap string node :=
  match result (_preprocessing "/data" raw_disk "RAND_CITYSCAPES" shuffle) with
  | Ok fs => fs
  | Raise _ => ∅
  end.

End Demo.

(** ** The files of one sample

    The three paths [_get_data] builds before it reads them. *)

Module SampleFiles.

(** [path.join(self.basepath,
      '{}/Stereo_Right/Omni_F/{}.{}'.format(pref, image_name, filetype))] *)
Definition modality_filename (basepath pref image_name filetype : string) : string :=
  Path.join basepath
    [pref +:+ "/Stereo_Right/Omni_F/" +:+ image_name +:+ "." +:+ filetype].

Definition rgb_filename (basepath image_name : string) : string :=
  modality_filename basepath "RGB" image_name "png".
Definition depth_filename (basepath image_name : string) : string :=
  modality_filename basepath "Depth" image_name "png".
Definition groundtruth_filename (basepath image_name : string) : string :=
  modality_filename basepath "GT/LABELS_NPY" image_name "npy".

End SampleFiles.

(** ** The evaluation scripts

    [experiments/bayes_fusion.py] builds the parameters it hands to the
    dataset from the evaluation configuration. *)

Module BayesFusion.

(** The augmentation entry of [split_test_data]: every key set to [False]. *)
Definition augmentation_off_keys : list string :=
  ["crop"; "scale"; "vflip"; "hflip"; "gamma"; "rotate"; "shear"; "contrast";
   "brightness"].

Definition augmentation_off : gmap string pyval :=
  list_to_map (map (fun key => (key, VBool false)) augmentation_off_keys).

(** [dataset_params] of [split_test_data]: the configuration without its
    [dataset] key, the [augmentation] entry replaced. *)
Definition dataset_params (data_config : gmap string cfgval) : gmap string cfgval :=
  <["augmentation" := CDict augmentation_off]> (delete "dataset" data_config).

End BayesFusion.

(** ** The training and evaluation scripts

    [experiments/training.py] and [experiments/evaluation.py].  The network,
    the experiment records and their artifacts belong to code outside these
    files; they are arguments of the model.  A call leaves the state it
    reached, also when it raises. *)

(** The exceptions of the scripts: those of the driver and two more. *)
Inductive exc : Type :=
  | Builtin (e : exn)
  | AttributeError (attribute : string)
  | StopIteration.

Module Os.
Import Path.

(** [os.mkdir]: the path must be new and its parent a directory. *)
Definition mkdir (fs : gmap string node) (p : string) : res (gmap string node) :=
  if Fs.exists_ fs p then Raise (IOError 17 "File exists" p)
  else
    let parent := dirname p in
    if bool_decide (parent = "") || bool_decide (parent = "/") then Ok (<[p := Dir]> fs)
    else
      match fs !! parent with
      | Some Dir => Ok (<[p := Dir]> fs)
      | Some _ => Raise (IOError 20 "Not a directory" p)
      | None => Raise (FileNotFoundError p)
      end.

(** [os.makedirs(name)], [heads] being the ancestors of [name] from the
    nearest one up: the call first makes the head when it is missing, then
    the leaf.  The file system reached is returned beside the exception. *)
Fixpoint makedirs_from (fs : gmap string node) (name : string) (heads : list string)
  : gmap string node * option exn :=
  match heads with
  | [] =>
      match mkdir fs name with
      | Ok fs' => (fs', None)
      | Raise e => (fs, Some e)
      end
  | head :: rest =>
      if Fs.exists_ fs head then
        match mkdir fs name with
        | Ok fs' => (fs', None)
        | Raise e => (fs, Some e)
        end
      else
        match makedirs_from fs head rest with
        | (fs1, Some e) => (fs1, Some e)
        | (fs1, None) =>
            match mkdir fs1 name with
            | Ok fs' => (fs', None)
            | Raise e => (fs1, Some e)
            end
        end
  end.

Definition makedirs (fs : gmap string node) (name : string)
  : gmap string node * option exn :=
  makedirs_from fs name (rev (ancestors name)).

End Os.

Module Training.

(** [str.lower] on ASCII text. *)
Definition lower_char (c : ascii) : ascii :=
  let n := nat_of_ascii c in
  if (65 <=? n)%nat && (n <=? 90)%nat then ascii_of_nat (n + 32) else c.

Fixpoint lower (s : string) : string :=
  match s with
  | EmptyString => EmptyString
  | String c rest => String (lower_char c) (lower rest)
  end.

(** Dictionaries of [experiment.info]: first entry of a key, and assignment
    in place or at the end. *)
Fixpoint assoc (key : string) (fields : list (string * json)) : option json :=
  match fields with
  | [] => None
  | (k, v) :: rest => if bool_decide (k = key) then Some v else assoc key rest
  end.

Fixpoint put (key : string) (v : json) (fields : list (string * json))
  : list (string * json) :=
  match fields with
  | [] => [(key, v)]
  | (k, v') :: rest =>
      if bool_decide (k = key) then (k, v) :: rest else (k, v') :: put key v rest
  end.

(** [info.setdefault("tensorflow", {}).setdefault("logdirs", []).append(dir)] *)
Definition append_logdir (info : list (string * json)) (dir : string)
  : list (string * json) * option exc :=
  match default (JObj []) (assoc "tensorflow" info) with
  | JObj fields =>
      match default (JList []) (assoc "logdirs" fields) with
      | JList l =>
          (put "tensorflow" (JObj (put "logdirs" (JList (l ++ [JStr dir])) fields)) info,
           None)
      | _ =>
          (info, Some (AttributeError "append"))
      end
  | _ => (info, Some (AttributeError "setdefault"))
  end.

(** The file system and [experiment.info]. *)
Record world : Type := World {
  files : gmap string node;
  info : list (string * json)
}.

Definition root_of (prefix : string) : string :=
  "/tmp/sacred/" +:+ lower prefix +:+ "_train".

Definition output_dir_of (prefix : string) (run_id : Z) : string :=
  root_of prefix +:+ "/" +:+ pretty run_id.

(** [create_directories(prefix, run_id, experiment)]: the world it leaves,
    and the directory it returns or the exception it raises. *)
Definition create_directories (prefix : string) (run_id : Z) (w : world)
  : world * (string + exc) :=
  let root := root_of prefix in
  let '(fs1, failed) :=
    if Fs.exists_ (files w) root then (files w, None) else Os.makedirs (files w) root in
  match failed with
  | Some e => (World fs1 (info w), inr (Builtin e))
  | None =>
      let output_dir := output_dir_of prefix run_id in
      match Os.mkdir fs1 output_dir with
      | Raise e => (World fs1 (info w), inr (Builtin e))
      | Ok fs2 =>
          match append_logdir (info w) output_dir with
          | (info', Some e) => (World fs2 info', inr e)
          | (info', None) => (World fs2 info', inl output_dir)
          end
      end
  end.

(** The list under [info["tensorflow"]["logdirs"]], empty when there is
    none. *)
Definition logdirs (info : list (string * json)) : list json :=
  match assoc "tensorflow" info with
  | Some (JObj fields) =>
      match assoc "logdirs" fields with
      | Some (JList l) => l
      | _ => []
      end
  | _ => []
  end.

(** [info] has no [tensorflow] entry, or a dictionary whose [logdirs]
    entry, when there is one, is a list. *)
Definition logdirs_usable (info : list (string * json)) : Prop :=
  forall tf, assoc "tensorflow" info = Some tf ->
    exists fields, tf = JObj fields /\
      forall ld, assoc "logdirs" fields = Some ld -> exists l, ld = JList l.

End Training.

(** ** Loading starting weights

    [import_startingweights] of [experiments/training.py] and
    [import_weights_into_network] of [experiments/evaluation.py]. *)

Module Weights.

(** What a call leaves: the network, the lines printed and the exception
    raised, if any. *)
Record effect (N : Type) : Type := Effect {
  net_after : N;
  printed : list string;
  raised : option exc
}.
Arguments Effect {N} net_after printed raised.
Arguments net_after {N} e.
Arguments printed {N} e.
Arguments raised {N} e.

(** Run [k] on the network [e] leaves, unless [e] raised. *)
Definition and_then {N : Type} (e : effect N) (k : N -> effect N) : effect N :=
  match raised e with
  | Some _ => e
  | None =>
      let e' := k (net_after e) in
      Effect (net_after e') (printed e ++ printed e') (raised e')
  end.

(** The argument of [net.import_weights]: a path or an artifact. *)
Inductive weights (artifact : Type) : Type :=
  | FromPath (p : string)
  | FromArtifact (a : artifact).
Arguments FromPath {artifact} p.
Arguments FromArtifact {artifact} a.

(** [needle in s] on strings. *)
Fixpoint is_substring (needle s : string) : bool :=
  String.prefix needle s ||
  match s with
  | EmptyString => false
  | String _ rest => is_substring needle rest
  end.

Definition has_key (key : string) (j : json) : bool :=
  match j with
  | JObj fields => bool_decide (Exists (fun kv => fst kv = key) fields)
  | _ => false
  end.

(** ['weights' in name] *)
Definition mentions_weights (name : json) : res bool :=
  match name with
  | JStr s => Ok (is_substring "weights" s)
  | JList l =>
      Ok (existsb (fun x => match x with
                            | JStr s => bool_decide (s = "weights")
                            | _ => false
                            end) l)
  | JObj _ => Ok (has_key "weights" name)
  | _ => Raise TypeError
  end.

(** [(artifact['name'] for artifact in artifacts
      if 'weights' in artifact['name']).next()] *)
Fixpoint first_weights (artifacts : list json) : json + exc :=
  match artifacts with
  | [] => inr StopIteration
  | a :: rest =>
      match Json.getitem a "name" with
      | Raise e => inr (Builtin e)
      | Ok name =>
          match mentions_weights name with
          | Raise e => inr (Builtin e)
          | Ok true => inl name
          | Ok false => first_weights rest
          end
      end
  end.

Section Externals.
Context {net experiment artifact options : Type}.

(** [xview.settings.DATA_BASEPATH] *)
Variable DATA_BASEPATH : string.
(** [ExperimentData(id)] with its methods [get_artifact] and [get_record],
    of [experiments/utils]. *)
Variable ExperimentData : json -> experiment + exc.
Variable get_artifact : experiment -> json -> artifact + exc.
Variable get_record : experiment -> json + exc.
(** [net.import_weights(weights, ...)]: the network it leaves and the
    exception it raises, if any. *)
Variable import_weights : net -> weights artifact -> options -> net * option exc.
(** The keyword argument [chill_mode=True]. *)
Variable chill_mode : options.
(** ['{}'.format(value)] *)
Variable format : json -> string.

Definition import_call (n : net) (w : weights artifact) (o : options)
    (out : list string) : effect net :=
  let '(n', e) := import_weights n w o in Effect n' out e.

(** [import_startingweights(net, starting_weights)] *)
Fixpoint import_startingweights (starting_weights : json) (n : net) : effect net :=
  match starting_weights with
  | JStr s =>
      if bool_decide (s = "washington") then
        import_call n (FromPath (Path.join DATA_BASEPATH ["darnn/FCN_weights_40000.npz"]))
                    chill_mode []
      else Effect n [] None
  | JObj _ =>
      match Json.getitem starting_weights "experiment_id" with
      | Raise e => Effect n [] (Some (Builtin e))
      | Ok id =>
          let line := "INFO: Loading weights from experiment " +:+ format id in
          match ExperimentData id with
          | inr e => Effect n [line] (Some e)
          | inl previous_exp =>
              match Json.getitem starting_weights "filename" with
              | Raise e => Effect n [line] (Some (Builtin e))
              | Ok filename =>
                  match get_artifact previous_exp filename with
                  | inr e => Effect n [line] (Some e)
                  | inl a => import_call n (FromArtifact a) chill_mode [line]
                  end
              end
          end
      end
  | JList l =>
      (fix loop (l : list json) (n : net) : effect net :=
         match l with
         | [] => Effect n [] None
         | weights :: rest => and_then (import_startingweights weights n) (loop rest)
         end) l n
  | _ => Effect n [] None
  end.

(** [import_weights_from_description], the inner function of
    [import_weights_into_network]. *)
Definition import_weights_from_description (kwargs : options)
    (experiment_description : json) (n : net) : effect net :=
  match Json.getitem experiment_description "experiment_id" with
  | Raise e => Effect n [] (Some (Builtin e))
  | Ok id =>
      match ExperimentData id with
      | inr e => Effect n [] (Some e)
      | inl training_experiment =>
          let filename : json + exc :=
            if negb (has_key "filename" experiment_description) then
              match get_record training_experiment with
              | inr e => inr e
              | inl record =>
                  match Json.getitem record "artifacts" with
                  | Raise e => inr (Builtin e)
                  | Ok artifacts =>
                      match Json.iterate artifacts with
                      | Raise e => inr (Builtin e)
                      | Ok l => first_weights l
                      end
                  end
              end
            else
              match Json.getitem experiment_description "filename" with
              | Raise e => inr (Builtin e)
              | Ok f => inl f
              end in
          match filename with
          | inr e => Effect n [] (Some e)
          | inl f =>
              match get_artifact training_experiment f with
              | inr e => Effect n [] (Some e)
              | inl a => import_call n (FromArtifact a) kwargs []
              end
          end
      end
  end.

Fixpoint import_each (kwargs : options) (descriptions : list json) (n : net)
  : effect net :=
  match descriptions with
  | [] => Effect n [] None
  | d :: rest =>
      and_then (import_weights_from_description kwargs d n) (import_each kwargs rest)
  end.

(** [import_weights_into_network(net, starting_weights, **kwargs)] *)
Definition import_weights_into_network (starting_weights : json) (kwargs : options)
    (n : net) : effect net :=
  match starting_weights with
  | JList l => import_each kwargs l n
  | _ => import_weights_from_description kwargs starting_weights n
  end.

End Externals.

(** An artifact whose name is a string without [weights] in it. *)
Definition lacks_weights (a : json) : Prop :=
  exists s, Json.getitem a "name" = Ok (JStr s) /\ is_substring "weights" s = false.

(** A value [import_startingweights] has no branch for. *)
Definition unrecognised (j : json) : Prop :=
  match j with
  | JStr s => s <> "washington"
  | JObj _ | JList _ => False
  | _ => True
  end.

End Weights.

(** ** More concrete data *)

Module Cases.

(** A configuration that crops 32 pixels and does not scale. *)
Definition crop_32 : gmap string pyval :=
  <["crop" := VInt 32]> (<["scale" := VBool false]> (<["vflip" := VBool true]>
  (<["hflip" := VBool true]> (<["gamma" := VBool false]> ∅)))).
Definition crop_driver : SynthiaCityscapes :=
  Demo.driver_with {[ "augmentation" := CDict crop_32 ]}.

(** An evaluation configuration as [split_test_data] receives it, and a
    driver built with the parameters made from it. *)
Definition evaluation_data : gmap string cfgval :=
  <["dataset" := CVal (VInt 0)]> (<["augmentation" := CDict Demo.crop_only]> ∅).
Definition fusion_driver : SynthiaCityscapes :=
  Demo.driver_with (BayesFusion.dataset_params evaluation_data).

(** A sample whose depth image is larger than its colour image and its
    labels. *)
Definition uneven : sample :=
  Sample (Demo.image 16 16) (Demo.plane 32 32) (Demo.plane 16 16).

(** A dataset root without a split, and split files that lack a key. *)
Definition bare_disk : gmap string node :=
  <["/data" := Dir]> (<["/data/RAND_CITYSCAPES" := Dir]> ∅).
Definition disk_with (split : json) : gmap string node :=
  <["/data/RAND_CITYSCAPES/train_test_split.json" := FileJson split]> bare_disk.
Definition split_without_testset : json := JObj [("trainset", JList [JStr "a"])].

(** An experiment that has just started, on an empty file system, and the
    world after its first call of [create_directories]. *)
Definition fresh_world : Training.world :=
  Training.World ∅ [("seed", JNum 3)].
Definition after_first_run : Training.world :=
  fst (Training.create_directories "FCN" 7 fresh_world).

(** A store of experiments to run the weight loaders on: an experiment is
    its number, an artifact the name of a file of that experiment, and the
    network the list of the weights imported so far. *)
Definition open_experiment (id : json) : Z + exc :=
  match id with
  | JNum z => inl z
  | _ => inr (Builtin TypeError)
  end.
Definition artifact_of (experiment : Z) (filename : json) : string + exc :=
  match filename with
  | JStr s => inl (pretty experiment +:+ "/" +:+ s)
  | _ => inr (Builtin TypeError)
  end.
Definition record_of (experiment : Z) : json + exc :=
  inl (JObj [("artifacts",
              JList [JObj [("name", JStr "log.txt")];
                     JObj [("name", JStr "weights.npz")];
                     JObj [("name", JStr "old_weights.npz")]])]).
Definition record_imports (n : list (Weights.weights string))
    (w : Weights.weights string) (o : bool) : list (Weights.weights string) * option exc :=
  (n ++ [w], None).
Definition show (j : json) : string :=
  match j with
  | JNum z => pretty z
  | JStr s => s
  | _ => "?"
  end.

(** A description that names its file and one that does not. *)
Definition named : json := JObj [("experiment_id", JNum 12); ("filename", JStr "w.npz")].
Definition unnamed : json := JObj [("experiment_id", JNum 12)].

End Cases.

(** * Properties *)

(** ** The label remapping *)

Section RemapFacts.
Import Labels.

Lemma codes_cases (P : Z -> Prop) :
  Forall P (map Z.of_nat (seq 0 23)) -> forall x, 0 <= x <= 22 -> P x.
Proof.
  intros HP x Hx. rewrite Forall_forall in HP. apply HP.
  apply list_elem_of_In, in_map_iff. exists (Z.to_nat x). split; [lia|].
  apply in_seq. lia.
Qed.

Lemma assign_where_map a b (l : list (list Z)) (f : Z -> Z) :
  mask_assign a b (map (map f) l) = map (map (fun x => assign_where a b (f x))) l.
Proof.
  unfold mask_assign. rewrite map_map. apply map_ext. intros r.
  now rewrite map_map.
Qed.

Lemma remap_labels_pointwise (l : list (list Z)) :
  remap_labels l = map (map remap_code) l.
Proof.
  unfold remap_labels, remap_code, remap_steps. cbn [fold_left fst snd].
  assert (Hid : l = map (map (fun x => x)) l).
  { rewrite <- (map_id l) at 1. apply map_ext. intros r. now rewrite map_id. }
  rewrite Hid at 1.
  now rewrite !assign_where_map.
Qed.

Lemma remap_code_canonical x : 0 <= x <= 22 -> canonical (remap_code x).
Proof.
  apply (codes_cases (fun x => canonical (remap_code x))).
  repeat constructor; vm_compute; congruence.
Qed.

Lemma remap_code_low x : 0 <= x <= 11 -> remap_code x = x.
Proof.
  intros Hx. unfold remap_code, remap_steps. cbn [fold_left fst snd].
  unfold assign_where.
  repeat match goal with
         | |- context [?a =? ?b] => destruct (Z.eqb_spec a b); [lia|]
         end.
  reflexivity.
Qed.

Lemma remap_code_fixes_below_12 x : 0 <= x <= 11 -> remap_code (remap_code x) = x.
Proof. intros Hx. now rewrite !remap_code_low by (rewrite ?remap_code_low; lia). Qed.

End RemapFacts.

Section RemapInLoader.
Context `{FloatKernels}.
Import Labels.


End RemapInLoader.


(** ** Applying the remapping twice *)

Section RemapTwice.
Import Labels.

(** C2, as stated, fails: 13 goes to 12 and a second application sends
    that 12 on to 11. *)
Lemma remap_twice_differs_at_13 :
  0 <= 13 <= 22 /\
  remap_code 13 = 12 /\ remap_code (remap_code 13) = 11 /\
  remap_code (remap_code 13) <> remap_code 13 /\
  remap_labels (remap_labels [[13]]) <> remap_labels [[13]].
Proof.
  split; [lia|]. split; [reflexivity|]. split; [reflexivity|].
  split; vm_compute; congruence.
Qed.

Lemma remap_code_twice x :
  0 <= x <= 22 -> x <> 13 -> x <> 22 -> remap_code (remap_code x) = remap_code x.
Proof.
  intros Hx.
  apply (codes_cases
           (fun x => x <> 13 -> x <> 22 -> remap_code (remap_code x) = remap_code x));
    [|exact Hx].
  repeat constructor; vm_compute; congruence.
Qed.

(** C2, amended.  A second application of the remapping changes nothing
    on the raw codes other than 13 and 22: for those codes
    [remap (remap x) = remap x], and an array of raw codes 0 to 22 that holds
    neither 13 nor 22 is left alone by the second pass.  The two excluded
    codes are exactly the ones a second pass moves, from 12 to 11. *)
Theorem remap_idempotent_off_lanemarking (a : list (list Z)) (x : Z) :
  0 <= x <= 22 ->
  Forall (Forall (fun v => 0 <= v <= 22 /\ v <> 13 /\ v <> 22)) a ->
  (x <> 13 -> x <> 22 -> remap_code (remap_code x) = remap_code x) /\
  (x = 13 \/ x = 22 -> remap_code x = 12 /\ remap_code (remap_code x) = 11) /\
  remap_labels (remap_labels a) = remap_labels a.
Proof.
  intros Hx Ha. split; [now apply remap_code_twice|].
  split; [intros [-> | ->]; split; reflexivity|].
  rewrite !remap_labels_pointwise, map_map.
  apply map_ext_Forall. eapply Forall_impl; [exact Ha|]. intros r Hr.
  simpl in Hr. rewrite map_map.
  apply map_ext_Forall. eapply Forall_impl; [exact Hr|].
  intros v (Hv & H13 & H22). now apply remap_code_twice.
Qed.

End RemapTwice.

Lemma remap_idempotent_off_lanemarking_witness :
  0 <= 17 <= 22 /\
  Labels.remap_code (Labels.remap_code 17) = Labels.remap_code 17 /\
  Labels.remap_labels (Labels.remap_labels [[12; 17]; [21; 4]]) =
    Labels.remap_labels [[12; 17]; [21; 4]].
Proof.
  assert (Hx : 0 <= 17 <= 22) by lia.
  assert (Ha : Forall (Forall (fun v => 0 <= v <= 22 /\ v <> 13 /\ v <> 22))
                 [[12; 17]; [21; 4]]).
  { repeat constructor; lia. }
  destruct (remap_idempotent_off_lanemarking [[12; 17]; [21; 4]] 17 Hx Ha)
    as (Hone & _ & Harr).
  split; [exact Hx|]. split; [apply Hone; lia|exact Harr].
Defined.

(** ** The constructor *)

Section Constructor.

Lemma exists_true (fs : gmap string node) p : is_Some (fs !! p) -> Fs.exists_ fs p = true.
Proof. intros Hp. unfold Fs.exists_. now apply bool_decide_eq_true. Qed.

Lemma exists_false (fs : gmap string node) p : fs !! p = None -> Fs.exists_ fs p = false.
Proof.
  intros Hp. unfold Fs.exists_. apply bool_decide_eq_false.
  rewrite Hp. intros [v Hv]. discriminate.
Qed.

(** A driver that was built carries the updated configuration. *)
Lemma init_config fs base_path force bs (data_config : gmap string cfgval) drv :
  result (__init__ fs base_path force bs data_config) = Ok drv ->
  config drv = Py.update default_config data_config.
Proof.
  unfold __init__. destruct (negb (Fs.exists_ fs base_path)); [discriminate|].
  cbn [result]. 
  destruct (Fs.json_load fs _) as [split|e]; [|discriminate]. cbn.
  destruct (Json.getitem split "trainset") as [tr|e]; [|discriminate]. cbn.
  destruct (Json.iterate tr) as [trl|e]; [|discriminate]. cbn.
  destruct (Json.getitem split "testset") as [te|e]; [|discriminate]. cbn.
  destruct (Json.iterate te) as [tel|e]; [|discriminate]. cbn.
  intros [= <-]. reflexivity.
Qed.

(** C9.  When the dataset root does not exist the constructor prints its
    message and raises the I/O error that carries the path, whatever else
    the file system holds and whatever the other arguments are; no driver
    is built. *)
Theorem missing_root_raises (fs : gmap string node) (base_path : string)
    (force_preprocessing : bool) (bs : Z) (data_config : gmap string cfgval) :
  fs !! base_path = None ->
  __init__ fs base_path force_preprocessing bs data_config =
    Outcome [root_missing_message]
            (Raise (IOError 1 root_missing_message base_path)).
Proof.
  intros Hp. unfold __init__. now rewrite (exists_false _ _ Hp).
Qed.

(** C7.  With the root in place and a split file whose [trainset] and
    [testset] entries are lists, the constructor succeeds, whatever the
    value of [force_preprocessing], and hands the two lists over in their
    order, one descriptor per identifier.  For the file with trainset
    [a, b] and testset [c] the train part is a, b, the test part is c, the
    two share nothing and together they hold a, b and c and nothing else. *)
Theorem init_loads_split (fs : gmap string node) (base_path : string)
    (force_preprocessing : bool) (bs : Z) (data_config : gmap string cfgval)
    (split : json) (tr te : list json) :
  is_Some (fs !! base_path) ->
  fs !! Path.join (Path.join base_path ["RAND_CITYSCAPES"]) ["train_test_split.json"]
    = Some (FileJson split) ->
  Json.getitem split "trainset" = Ok (JList tr) ->
  Json.getitem split "testset" = Ok (JList te) ->
  exists drv,
    __init__ fs base_path force_preprocessing bs data_config = Outcome [] (Ok drv) /\
    map image_name (trainset (base drv)) = tr /\
    map image_name (testset (base drv)) = te /\
    (tr = [JStr "a"; JStr "b"] -> te = [JStr "c"] ->
     map image_name (trainset (base drv)) = [JStr "a"; JStr "b"] /\
     map image_name (testset (base drv)) = [JStr "c"] /\
     (forall x, x ∈ map image_name (trainset (base drv)) ->
                x ∉ map image_name (testset (base drv))) /\
     (forall x, x ∈ map image_name (trainset (base drv))
                      ++ map image_name (testset (base drv))
                <-> x ∈ [JStr "a"; JStr "b"; JStr "c"])).
Proof.
  intros Hroot Hfile Htr Hte. unfold __init__.
  rewrite (exists_true _ _ Hroot). cbn [negb].
  unfold Fs.json_load. rewrite Hfile. cbn. rewrite Htr. cbn. rewrite Hte. cbn.
  eexists. split; [reflexivity|]. cbn [base trainset testset].
  rewrite !map_map. cbn [image_name]. rewrite !map_id.
  split; [reflexivity|]. split; [reflexivity|].
  intros -> ->. split; [reflexivity|]. split; [reflexivity|]. split.
  - intros x Hx Hx'. apply list_elem_of_singleton in Hx'. subst x.
    apply elem_of_cons in Hx as [Hx|Hx]; [discriminate|].
    apply list_elem_of_singleton in Hx. discriminate.
  - intros x. reflexivity.
Qed.

End Constructor.

Lemma missing_root_raises_witness :
  Demo.disk !! "/nowhere" = None /\
  __init__ Demo.disk "/nowhere" false 1 ∅ =
    Outcome [root_missing_message] (Raise (IOError 1 root_missing_message "/nowhere")).
Proof.
  assert (Hp : Demo.disk !! "/nowhere" = None) by (vm_compute; reflexivity).
  split; [exact Hp|]. exact (missing_root_raises Demo.disk "/nowhere" false 1 ∅ Hp).
Defined.

Lemma init_loads_split_witness :
  exists drv,
    __init__ Demo.disk "/data" false 1 ∅ = Outcome [] (Ok drv) /\
    map image_name (trainset (base drv)) = [JStr "a"; JStr "b"] /\
    map image_name (testset (base drv)) = [JStr "c"].
Proof.
  assert (Hroot : is_Some (Demo.disk !! "/data")) by (eexists; vm_compute; reflexivity).
  assert (Hfile : Demo.disk !! Path.join (Path.join "/data" ["RAND_CITYSCAPES"])
                                ["train_test_split.json"]
                  = Some (FileJson Demo.split_file)) by (vm_compute; reflexivity).
  assert (Htr : Json.getitem Demo.split_file "trainset" = Ok (JList [JStr "a"; JStr "b"]))
    by reflexivity.
  assert (Hte : Json.getitem Demo.split_file "testset" = Ok (JList [JStr "c"]))
    by reflexivity.
  destruct (init_loads_split Demo.disk "/data" false 1 ∅ Demo.split_file
              [JStr "a"; JStr "b"] [JStr "c"] Hroot Hfile Htr Hte)
    as (drv & Hinit & Htrain & Htest & _).
  exists drv. split; [exact Hinit|]. split; [exact Htrain|exact Htest].
Defined.

(** ** A supplied augmentation entry *)

Section SuppliedAugmentation.
Context `{FloatKernels}.

Ltac key_listed :=
  unfold augmentation_keys; rewrite !elem_of_cons; tauto.

Lemma update_lookup_supplied (data_config : gmap string cfgval) key v :
  data_config !! key = Some v ->
  Py.update default_config data_config !! key = Some v.
Proof. intros Hk. unfold Py.update. now apply lookup_union_Some_l. Qed.

Lemma aug_entry_lookup (self : SynthiaCityscapes) (aug : gmap string pyval) key :
  config self !! "augmentation" = Some (CDict aug) ->
  aug_entry self key = Py.getitem aug key.
Proof. intros Hc. unfold aug_entry, Py.getitem at 1. now rewrite Hc. Qed.

(** The five lookups at the head of the training branch stop at the first
    key the dictionary lacks. *)
Lemma augment_missing_key (self : SynthiaCityscapes) (aug : gmap string pyval)
    (d : Rand.draws) (a : arrays) key :
  config self !! "augmentation" = Some (CDict aug) ->
  key ∈ augmentation_keys -> aug !! key = None ->
  exists missing,
    missing ∈ augmentation_keys /\ aug !! missing = None /\
    augment self d a = Raise (KeyError missing).
Proof.
  intros Hc Hin Hnone. unfold augment.
  rewrite !(aug_entry_lookup self aug) by exact Hc.
  unfold Py.getitem, augmentation_keys in *.
  destruct (aug !! "scale") as [v1|] eqn:E1;
    [|exists "scale"; split; [key_listed|split; [exact E1|reflexivity]]].
  destruct (aug !! "crop") as [v2|] eqn:E2;
    [|exists "crop"; split; [key_listed|split; [exact E2|reflexivity]]].
  destruct (aug !! "hflip") as [v3|] eqn:E3;
    [|exists "hflip"; split; [key_listed|split; [exact E3|reflexivity]]].
  destruct (aug !! "vflip") as [v4|] eqn:E4;
    [|exists "vflip"; split; [key_listed|split; [exact E4|reflexivity]]].
  destruct (aug !! "gamma") as [v5|] eqn:E5;
    [|exists "gamma"; split; [key_listed|split; [exact E5|reflexivity]]].
  exfalso. repeat (apply elem_of_cons in Hin as [->|Hin]; [congruence|]).
  now apply elem_of_nil in Hin.
Qed.

(** C10.  An [augmentation] entry passed to the constructor becomes the
    driver's augmentation configuration as it stands, the defaults for the
    keys it leaves out being lost.  If it lacks one of [scale], [crop],
    [hflip], [vflip], [gamma], then for every loaded sample and every draw
    the training format raises the key error of a missing key, and the
    evaluation format returns a blob. *)
Theorem supplied_augmentation_replaces_default
    (fs : gmap string node) (base_path : string) (force_preprocessing : bool)
    (bs : Z) (data_config : gmap string cfgval) (aug : gmap string pyval)
    (drv : SynthiaCityscapes) (key : string) (s : sample) (d : Rand.draws) :
  data_config !! "augmentation" = Some (CDict aug) ->
  result (__init__ fs base_path force_preprocessing bs data_config) = Ok drv ->
  key ∈ augmentation_keys ->
  aug !! key = None ->
  config drv !! "augmentation" = Some (CDict aug) /\
  (exists missing,
     missing ∈ augmentation_keys /\ aug !! missing = None /\
     _get_data drv s true d = Raise (KeyError missing)) /\
  (exists b, _get_data drv s false d = Ok b).
Proof.
  intros Hsup Hinit Hin Hnone.
  assert (Hc : config drv !! "augmentation" = Some (CDict aug)).
  { rewrite (init_config _ _ _ _ _ _ Hinit). now apply update_lookup_supplied. }
  split; [exact Hc|]. split.
  - destruct (augment_missing_key drv aug d
                (s_rgb s, s_depth s, Labels.remap_labels (s_labels s)) key Hc Hin Hnone)
      as (missing & Hm & Hmn & Hraise).
    exists missing. split; [exact Hm|]. split; [exact Hmn|].
    unfold _get_data. rewrite Hraise. reflexivity.
  - eexists. reflexivity.
Qed.

End SuppliedAugmentation.

Lemma supplied_augmentation_replaces_default_witness :
  exists drv,
    result (__init__ Demo.disk "/data" false 1 Demo.crop_only_config) = Ok drv /\
    config drv !! "augmentation" = Some (CDict Demo.crop_only) /\
    (exists missing,
       @_get_data Demo.kernels drv (Demo.frame 2 2) true (Rand.Draws 0 0 0 false false 0)
       = Raise (KeyError missing)) /\
    (exists b,
       @_get_data Demo.kernels drv (Demo.frame 2 2) false (Rand.Draws 0 0 0 false false 0)
       = Ok b).
Proof.
  destruct (result (__init__ Demo.disk "/data" false 1 Demo.crop_only_config))
    as [drv|e] eqn:Hinit; [|vm_compute in Hinit; discriminate].
  exists drv. split; [reflexivity|].
  assert (Hsup : Demo.crop_only_config !! "augmentation" = Some (CDict Demo.crop_only))
    by (vm_compute; reflexivity).
  assert (Hin : "scale" ∈ augmentation_keys) by (apply elem_of_cons; now left).
  assert (Hnone : Demo.crop_only !! "scale" = None) by (vm_compute; reflexivity).
  destruct (@supplied_augmentation_replaces_default Demo.kernels
              Demo.disk "/data" false 1 Demo.crop_only_config Demo.crop_only drv "scale"
              (Demo.frame 2 2) (Rand.Draws 0 0 0 false false 0)
              Hsup Hinit Hin Hnone)
    as (Hc & (missing & _ & _ & Hraise) & Hok).
  split; [exact Hc|]. split; [exists missing; exact Hraise|exact Hok].
Defined.

(** ** Shapes of slices, flips and resized arrays *)

Section ShapeFacts.
Import NdArray Shape.
Context {A : Type}.

Lemma norm_index_range i n : 0 <= n -> 0 <= norm_index i n <= n.
Proof. intros Hn. unfold norm_index. destruct (Z.ltb_spec i 0); lia. Qed.

Lemma length_py_slice {B : Type} lo hi (l : list B) :
  Z.of_nat (length (py_slice lo hi l)) = slice_len lo hi (Z.of_nat (length l)).
Proof.
  unfold py_slice, slice_len. rewrite length_firstn, length_skipn.
  pose proof (norm_index_range lo (Z.of_nat (length l)) ltac:(lia)).
  pose proof (norm_index_range hi (Z.of_nat (length l)) ltac:(lia)).
  lia.
Qed.

Lemma py_slice_sublist {B : Type} lo hi (l : list B) (P : B -> Prop) :
  Forall P l -> Forall P (py_slice lo hi l).
Proof.
  intros Hl. unfold py_slice. apply Forall_take, Forall_drop, Hl.
Qed.

Lemma has_shape_slice2 h w r0 r1 c0 c1 (a : list (list A)) :
  has_shape h w a ->
  has_shape (slice_len r0 r1 h) (slice_len c0 c1 w) (slice2 r0 r1 c0 c1 a).
Proof.
  intros [Hh Hw]. unfold slice2. split.
  - rewrite length_map, length_py_slice. now rewrite Hh.
  - apply Forall_map. apply (py_slice_sublist r0 r1).
    eapply Forall_impl; [exact Hw|]. intros r Hr. simpl in *.
    rewrite length_py_slice. now rewrite Hr.
Qed.

Lemma has_shape_flip0 h w (a : list (list A)) :
  has_shape h w a -> has_shape h w (flip0 a).
Proof.
  intros [Hh Hw]. unfold flip0. split.
  - now rewrite length_rev.
  - apply Forall_forall. intros r Hr. rewrite Forall_forall in Hw.
    apply Hw. apply list_elem_of_In. apply list_elem_of_In in Hr.
    now apply in_rev.
Qed.

Lemma has_shape_flip1 h w (a : list (list A)) :
  has_shape h w a -> has_shape h w (flip1 a).
Proof.
  intros [Hh Hw]. unfold flip1. split.
  - now rewrite length_map.
  - apply Forall_map. eapply Forall_impl; [exact Hw|]. intros r Hr. simpl in *.
    now rewrite length_rev.
Qed.

Lemma has_shape_map {B : Type} h w (f : A -> B) (a : list (list A)) :
  has_shape h w a -> has_shape h w (map (map f) a).
Proof.
  intros [Hh Hw]. split.
  - now rewrite length_map.
  - apply Forall_map. eapply Forall_impl; [exact Hw|]. intros r Hr. simpl in *.
    now rewrite length_map.
Qed.

Lemma has_shape_build h w (f : Z -> Z -> A) :
  0 <= h -> 0 <= w -> has_shape h w (build h w f).
Proof.
  intros Hh Hw. unfold build. split.
  - rewrite length_map, length_seq. lia.
  - apply Forall_map, Forall_forall. intros y _. simpl.
    rewrite length_map, length_seq. lia.
Qed.

Lemma has_shape_height h w (a : list (list A)) : has_shape h w a -> height a = h.
Proof. now intros [Hh _]. Qed.

Lemma has_shape_width h w (a : list (list A)) :
  has_shape h w a -> 0 < h -> width a = w.
Proof.
  intros [Hh Hw] Hpos. destruct a as [|r a]; simpl in *; [lia|].
  now inversion Hw.
Qed.

Lemma has_shape_nonneg h w (a : list (list A)) : has_shape h w a -> 0 <= h.
Proof. intros [Hh _]. lia. Qed.

End ShapeFacts.

(** ** Rounding, scaling and the size after a resize *)

Section ScaleFacts.
Import NdArray Cv2 Rand Shape.

Lemma Qfloor_ge_int (c : Z) (q : Q) : (inject_Z c <= q)%Q -> c <= Qfloor q.
Proof.
  intros Hq. rewrite <- (Qfloor_Z c). now apply Qfloor_resp_le.
Qed.

Lemma cv_round_ge_floor (q : Q) : Qfloor q <= cv_round q.
Proof.
  unfold cv_round. destruct (Qcompare _ _); [destruct (Z.even _)| |]; lia.
Qed.

Lemma cv_round_ge_int (c : Z) (q : Q) : (inject_Z c <= q)%Q -> c <= cv_round q.
Proof.
  intros Hq. pose proof (Qfloor_ge_int c q Hq). pose proof (cv_round_ge_floor q). lia.
Qed.

(** A factor of at least [c / m] takes an axis of [n >= m] pixels to at
    least [c] pixels. *)
Lemma scaled_ge_crop (k : Q) (c m n : Z) :
  0 < m -> m <= n -> 0 <= c ->
  (inject_Z c / inject_Z m <= k)%Q -> c <= scaled k n.
Proof.
  intros Hm Hn Hc Hk. unfold scaled. apply cv_round_ge_int.
  assert (Hm' : (0 < inject_Z m)%Q) by (unfold Qlt; simpl; lia).
  assert (Hmn : (inject_Z m <= inject_Z n)%Q) by (unfold Qle; simpl; lia).
  assert (Hc' : (0 <= inject_Z c)%Q) by (unfold Qle; simpl; lia).
  apply (Qle_trans _ ((inject_Z c / inject_Z m) * inject_Z m)%Q).
  - apply Qle_lteq. right. field. intros Hz. rewrite Hz in Hm'. now apply Qlt_irrefl in Hm'.
  - apply (Qle_trans _ (k * inject_Z m)%Q).
    + apply Qmult_le_compat_r; [exact Hk|now apply Qlt_le_weak].
    + rewrite !(Qmult_comm k). apply Qmult_le_compat_r; [exact Hmn|].
      apply (Qle_trans _ (inject_Z c / inject_Z m)%Q); [|exact Hk].
      apply Qle_shift_div_l; [exact Hm'|]. now rewrite Qmult_0_l.
Qed.

(** [random.uniform(a, b)] stays between its arguments when they come in
    order. *)
Lemma uniform_between (a b u : Q) :
  (a <= b)%Q -> unit_interval u -> (a <= uniform a b u)%Q /\ (uniform a b u <= b)%Q.
Proof.
  intros Hab [Hu0 Hu1]. unfold uniform.
  assert (Hd : (0 <= b - a)%Q) by (now apply (proj1 (Qle_minus_iff a b))).
  assert (Hp : (0 <= (b - a) * u)%Q) by (now apply Qmult_le_0_compat).
  assert (Hq : ((b - a) * u <= (b - a) * 1)%Q).
  { rewrite !(Qmult_comm (b - a)). apply Qmult_le_compat_r; [now apply Qlt_le_weak|exact Hd]. }
  split.
  - rewrite <- (Qplus_0_r a) at 1. now apply Qplus_le_r.
  - apply (Qle_trans _ (a + (b - a) * 1)%Q); [now apply Qplus_le_r|].
    apply Qle_lteq. right. ring.
Qed.

Lemma py_max_ge_l (a b : Q) : (a <= Py.max a b)%Q.
Proof.
  unfold Py.max. destruct (Qlt_le_dec a b); [now apply Qlt_le_weak|apply Qle_refl].
Qed.

Lemma floor16_divides (d : Z) : (16 | floor16 d).
Proof.
  unfold floor16. exists (d / 16). pose proof (Z.div_mod d 16 ltac:(lia)). lia.
Qed.

Lemma floor16_range (d : Z) : 0 <= d -> 0 <= floor16 d <= d.
Proof.
  intros Hd. unfold floor16. pose proof (Z.mod_pos_bound d 16 ltac:(lia)).
  pose proof (Z.mod_le d 16 Hd ltac:(lia)). lia.
Qed.

Section ResizeShape.
Context {A : Type}.

Lemma resize_with_inv (sample : Z -> Z -> A) k (src out : list (list A)) :
  resize_with sample k src = Ok out ->
  0 < height src /\ 0 < width src /\
  0 < scaled k (height src) /\ 0 < scaled k (width src) /\
  out = build (scaled k (height src)) (scaled k (width src)) sample.
Proof.
  unfold resize_with.
  destruct (Z.leb_spec (height src) 0); [discriminate|].
  destruct (Z.leb_spec (width src) 0); [discriminate|]. cbn [orb].
  destruct (Z.leb_spec (scaled k (height src)) 0); [discriminate|].
  destruct (Z.leb_spec (scaled k (width src)) 0); [discriminate|]. cbn [orb].
  intros [= <-]. repeat split; assumption.
Qed.

Lemma resize_with_ok (sample : Z -> Z -> A) k (src : list (list A)) h w :
  has_shape h w src -> 0 < h -> 0 < w -> 0 < scaled k h -> 0 < scaled k w ->
  resize_with sample k src = Ok (build (scaled k h) (scaled k w) sample).
Proof.
  intros Hs Hh Hw Hh' Hw'. unfold resize_with.
  rewrite (has_shape_height _ _ _ Hs), (has_shape_width _ _ _ Hs Hh).
  destruct (Z.leb_spec h 0); [lia|]. destruct (Z.leb_spec w 0); [lia|].
  destruct (Z.leb_spec (scaled k h) 0); [lia|].
  destruct (Z.leb_spec (scaled k w) 0); [lia|]. reflexivity.
Qed.

Lemma resize_with_shape (sample : Z -> Z -> A) k (src out : list (list A)) h w :
  has_shape h w src -> resize_with sample k src = Ok out ->
  0 < h /\ 0 < w /\ has_shape (scaled k h) (scaled k w) out.
Proof.
  intros Hs Hr. apply resize_with_inv in Hr as (Hh & Hw & Hh' & Hw' & ->).
  rewrite (has_shape_height _ _ _ Hs) in *.
  rewrite (has_shape_width _ _ _ Hs Hh) in *.
  split; [exact Hh|]. split; [exact Hw|]. apply has_shape_build; lia.
Qed.
End ResizeShape.

End ScaleFacts.

(** ** The stages of the augmentation *)

Section StageFacts.
Import NdArray Cv2 Rand Py Shape.
Context `{FloatKernels}.

Lemma bind_ok {A B : Type} (m : res A) (k : A -> res B) (b : B) :
  (m ≫= k) = Ok b -> exists a, m = Ok a /\ k a = Ok b.
Proof. destruct m as [a|e]; [|discriminate]. intros Hk. now exists a. Qed.

Lemma scale_stage_inv scale crop d r dp l r' dp' l' :
  scale_stage scale crop d (r, dp, l) = Ok (r', dp', l') ->
  (truthy scale && truthy crop = false /\ (r', dp', l') = (r, dp, l)) \/
  (exists k,
     truthy scale && truthy crop = true /\
     scale_factor scale crop (height r) (width r) (u_scale d) = Ok k /\
     resize_linear k r = Ok r' /\
     resize_nearest k dp = Ok dp' /\
     resize_nearest k l = Ok l').
Proof.
  unfold scale_stage. destruct (truthy scale && truthy crop).
  - intros Hs. right.
    apply bind_ok in Hs as (k & Hk & Hs).
    apply bind_ok in Hs as (r1 & Hr & Hs).
    apply bind_ok in Hs as (dp1 & Hdp & Hs).
    apply bind_ok in Hs as (l1 & Hl & Hs).
    injection Hs as <- <- <-. exists k. repeat split; assumption.
  - intros [= <- <- <-]. left. split; reflexivity.
Qed.

Lemma aligned_intro h w r dp l :
  has_shape h w r -> has_shape h w dp -> has_shape h w l -> aligned h w (r, dp, l).
Proof. intros Hr Hdp Hl. split; [|split]; assumption. Qed.

Lemma aligned_elim h w r dp l :
  aligned h w (r, dp, l) -> has_shape h w r /\ has_shape h w dp /\ has_shape h w l.
Proof. intros Ha. exact Ha. Qed.

Lemma scale_stage_aligned scale crop d a a' h w :
  aligned h w a -> scale_stage scale crop d a = Ok a' ->
  exists h' w', aligned h' w' a'.
Proof.
  destruct a as [[r dp] l], a' as [[r' dp'] l']. intros Ha Hs.
  apply aligned_elim in Ha as (Hr & Hdp & Hl).
  apply scale_stage_inv in Hs as [[_ Heq]|(k & _ & _ & Hr' & Hdp' & Hl')].
  - injection Heq as -> -> ->. exists h, w. now apply aligned_intro.
  - exists (scaled k h), (scaled k w).
    apply (resize_with_shape _ _ _ _ _ _ Hr) in Hr' as (_ & _ & Hr').
    apply (resize_with_shape _ _ _ _ _ _ Hdp) in Hdp' as (_ & _ & Hdp').
    apply (resize_with_shape _ _ _ _ _ _ Hl) in Hl' as (_ & _ & Hl').
    now apply aligned_intro.
Qed.

Lemma crop_stage_window crop d r dp l r' dp' l' :
  crop_stage crop d (r, dp, l) = Ok (r', dp', l') ->
  exists window,
    crop_window crop d r = Ok window /\
    r' = place window false false r /\
    dp' = place window false false dp /\
    l' = place window false false l.
Proof.
  unfold crop_stage, crop_window. destruct (truthy crop).
  - intros Hs.
    apply bind_ok in Hs as (c & Hc & Hs). rewrite Hc. cbn.
    apply bind_ok in Hs as (h_c & Hh & Hs). rewrite Hh. cbn.
    apply bind_ok in Hs as (w_c & Hw & Hs). rewrite Hw. cbn.
    injection Hs as <- <- <-. eexists. split; [reflexivity|].
    repeat split; reflexivity.
  - intros [= <- <- <-]. exists None. repeat split; reflexivity.
Qed.

Lemma gamma_stage_table gamma d r dp l r' dp' l' :
  gamma_stage gamma d (r, dp, l) = Ok (r', dp', l') ->
  exists lut, gamma_table gamma d = Ok lut /\ r' = tone lut r /\ dp' = dp /\ l' = l.
Proof.
  unfold gamma_stage, gamma_table. destruct (truthy gamma).
  - intros Hs.
    apply bind_ok in Hs as (lo & Hlo & Hs). rewrite Hlo. cbn.
    apply bind_ok in Hs as (hi & Hhi & Hs). rewrite Hhi. cbn.
    destruct (Qeq_bool _ 0); [discriminate|].
    injection Hs as <- <- <-. eexists. split; [reflexivity|].
    repeat split; reflexivity.
  - intros [= <- <- <-]. exists None. repeat split; reflexivity.
Qed.

Lemma hflip_stage_place hflip d r dp l :
  hflip_stage hflip d (r, dp, l) =
    (place None (truthy hflip && c_hflip d) false r,
     place None (truthy hflip && c_hflip d) false dp,
     place None (truthy hflip && c_hflip d) false l).
Proof. unfold hflip_stage, place. now destruct (truthy hflip && c_hflip d). Qed.

Lemma vflip_stage_place vflip d r dp l :
  vflip_stage vflip d (r, dp, l) =
    (place None false (truthy vflip && c_vflip d) r,
     place None false (truthy vflip && c_vflip d) dp,
     place None false (truthy vflip && c_vflip d) l).
Proof. unfold vflip_stage, place. now destruct (truthy vflip && c_vflip d). Qed.

Lemma place_flips {A : Type} window rows cols (a : list (list A)) :
  place None false cols (place None rows false (place window false false a)) =
    place window rows cols a.
Proof. unfold place. destruct window as [[[h_c w_c] c]|], rows, cols; reflexivity. Qed.

(** One run of [augment], taken apart: the five entries, the output of the
    scale stage, the window, the two flip decisions and the gamma table, the
    last three applied to each modality by the same [place]. *)
Lemma augment_inv self d r dp l r' dp' l' :
  augment self d (r, dp, l) = Ok (r', dp', l') ->
  exists scale crop hflip vflip gamma r_k dp_k l_k window lut,
    aug_entry self "scale" = Ok scale /\
    aug_entry self "crop" = Ok crop /\
    aug_entry self "hflip" = Ok hflip /\
    aug_entry self "vflip" = Ok vflip /\
    aug_entry self "gamma" = Ok gamma /\
    scale_stage scale crop d (r, dp, l) = Ok (r_k, dp_k, l_k) /\
    crop_window crop d r_k = Ok window /\
    gamma_table gamma d = Ok lut /\
    r' = tone lut (place window (truthy hflip && c_hflip d)
                                (truthy vflip && c_vflip d) r_k) /\
    dp' = place window (truthy hflip && c_hflip d) (truthy vflip && c_vflip d) dp_k /\
    l' = place window (truthy hflip && c_hflip d) (truthy vflip && c_vflip d) l_k.
Proof.
  unfold augment. intros Ha.
  apply bind_ok in Ha as (scale & Hscale & Ha).
  apply bind_ok in Ha as (crop & Hcrop & Ha).
  apply bind_ok in Ha as (hflip & Hhflip & Ha).
  apply bind_ok in Ha as (vflip & Hvflip & Ha).
  apply bind_ok in Ha as (gamma & Hgamma & Ha).
  apply bind_ok in Ha as ([[r_k dp_k] l_k] & Hs & Ha).
  apply bind_ok in Ha as ([[r_c dp_c] l_c] & Hc & Ha).
  apply crop_stage_window in Hc as (window & Hwin & -> & -> & ->).
  rewrite hflip_stage_place, vflip_stage_place, !place_flips in Ha.
  apply gamma_stage_table in Ha as (lut & Hlut & -> & -> & ->).
  exists scale, crop, hflip, vflip, gamma, r_k, dp_k, l_k, window, lut.
  repeat (split; [assumption|]). repeat split; reflexivity.
Qed.

End StageFacts.

(** ** Elements and shapes through [place] and the final crop *)

Section PlaceFacts.
Import NdArray Cv2 Rand Py Shape.

Section Elements.
Context {A : Type} (P : A -> Prop).

Lemma slice2_all r0 r1 c0 c1 (a : list (list A)) :
  Forall (Forall P) a -> Forall (Forall P) (slice2 r0 r1 c0 c1 a).
Proof.
  intros Ha. unfold slice2. apply Forall_map. apply (py_slice_sublist r0 r1).
  eapply Forall_impl; [exact Ha|]. intros r Hr. simpl.
  now apply py_slice_sublist.
Qed.

Lemma flip0_all (a : list (list A)) : Forall (Forall P) a -> Forall (Forall P) (flip0 a).
Proof.
  intros Ha. unfold flip0. rewrite Forall_forall in *. intros r Hr.
  apply Ha. apply list_elem_of_In. apply list_elem_of_In in Hr. now apply in_rev.
Qed.

Lemma flip1_all (a : list (list A)) : Forall (Forall P) a -> Forall (Forall P) (flip1 a).
Proof.
  intros Ha. unfold flip1. apply Forall_map. eapply Forall_impl; [exact Ha|].
  intros r Hr. simpl. rewrite Forall_forall in *. intros x Hx.
  apply Hr. apply list_elem_of_In. apply list_elem_of_In in Hx. now apply in_rev.
Qed.

Lemma place_all window rows cols (a : list (list A)) :
  Forall (Forall P) a -> Forall (Forall P) (place window rows cols a).
Proof.
  intros Ha. unfold place.
  assert (Hw : Forall (Forall P)
                 match window with
                 | Some (h_c, w_c, c) => slice2 h_c (h_c + c) w_c (w_c + c) a
                 | None => a
                 end).
  { destruct window as [[[h_c w_c] c]|]; [now apply slice2_all|exact Ha]. }
  destruct rows, cols; auto using flip0_all, flip1_all.
Qed.

Lemma build_all h w (f : Z -> Z -> A) :
  (forall y x, P (f y x)) -> Forall (Forall P) (build h w f).
Proof.
  intros Hf. unfold build. apply Forall_map, Forall_forall. intros y _. simpl.
  apply Forall_map, Forall_forall. intros x _. apply Hf.
Qed.

Lemma get_all `{Inhabited A} (a : list (list A)) y x :
  P inhabitant -> Forall (Forall P) a -> P (get a y x).
Proof.
  intros Hd Ha. unfold get.
  destruct (nth_in_or_default (Z.to_nat x) (nth (Z.to_nat y) a []) inhabitant)
    as [Hin| ->]; [|exact Hd].
  destruct (nth_in_or_default (Z.to_nat y) a []) as [Hrow|Hrow].
  - rewrite Forall_forall in Ha. apply list_elem_of_In in Hrow.
    specialize (Ha _ Hrow). rewrite Forall_forall in Ha. apply Ha.
    now apply list_elem_of_In.
  - rewrite Hrow in Hin. destruct (Z.to_nat x); contradiction.
Qed.

Lemma resize_nearest_all `{Inhabited A} k (src out : list (list A)) :
  P inhabitant -> Forall (Forall P) src -> resize_nearest k src = Ok out ->
  Forall (Forall P) out.
Proof.
  intros Hd Hsrc Hr. unfold resize_nearest in Hr.
  apply resize_with_inv in Hr as (_ & _ & _ & _ & ->).
  apply build_all. intros y x. now apply get_all.
Qed.
End Elements.

Section PlaceShape.
Context {A : Type}.

Lemma place_shape window rows cols h w (a : list (list A)) :
  has_shape h w a ->
  has_shape (window_rows window h) (window_cols window w) (place window rows cols a).
Proof.
  intros Ha. unfold place.
  assert (Hw : has_shape (window_rows window h) (window_cols window w)
                 match window with
                 | Some (h_c, w_c, c) => slice2 h_c (h_c + c) w_c (w_c + c) a
                 | None => a
                 end).
  { destruct window as [[[h_c w_c] c]|]; [now apply has_shape_slice2|exact Ha]. }
  destruct rows, cols; auto using has_shape_flip0, has_shape_flip1.
Qed.

Lemma slice_len_window (offset c n : Z) :
  0 <= offset -> 0 <= c -> offset + c <= n -> slice_len offset (offset + c) n = c.
Proof.
  intros Ho Hc Hn. unfold slice_len, norm_index.
  destruct (Z.ltb_spec offset 0), (Z.ltb_spec (offset + c) 0); lia.
Qed.

Lemma py_slice_full {B : Type} (l : list B) n :
  Z.of_nat (length l) = n -> py_slice 0 n l = l.
Proof.
  intros Hn. unfold py_slice, norm_index. rewrite Hn.
  destruct (Z.ltb_spec 0 0); [lia|]. destruct (Z.ltb_spec n 0); [lia|].
  rewrite Z.min_id, Z.min_l by lia. cbn [Z.to_nat skipn].
  replace (Z.to_nat (n - 0)) with (length l) by lia. apply firstn_all.
Qed.

Lemma leading_full h w (a : list (list A)) : has_shape h w a -> leading h w a = a.
Proof.
  intros [Hh Hw]. unfold leading, slice2. rewrite (py_slice_full a h Hh).
  rewrite <- (map_id a) at 2. apply map_ext_Forall.
  eapply Forall_impl; [exact Hw|]. intros r Hr. simpl in *. now apply py_slice_full.
Qed.

Lemma leading_shape h w h_c w_c (a : list (list A)) :
  has_shape h w a -> 0 <= h_c <= h -> 0 <= w_c <= w ->
  has_shape h_c w_c (leading h_c w_c a).
Proof.
  intros Ha Hh Hw. unfold leading.
  pose proof (has_shape_slice2 h w 0 h_c 0 w_c a Ha) as Hs.
  replace (slice_len 0 h_c h) with h_c in Hs; [replace (slice_len 0 w_c w) with w_c in Hs|].
  - exact Hs.
  - symmetry. apply (slice_len_window 0 w_c w); lia.
  - symmetry. apply (slice_len_window 0 h_c h); lia.
Qed.

Lemma slice2_map {B : Type} (f : A -> B) r0 r1 c0 c1 (a : list (list A)) :
  slice2 r0 r1 c0 c1 (map (map f) a) = map (map f) (slice2 r0 r1 c0 c1 a).
Proof.
  unfold slice2, py_slice. rewrite length_map, skipn_map, firstn_map, !map_map.
  apply map_ext. intros r. now rewrite length_map, skipn_map, firstn_map.
Qed.
End PlaceShape.

End PlaceFacts.

(** ** The final crop and the shape of the blob *)

Section BlobFacts.
Import NdArray Cv2 Rand Py Shape.
Context `{FloatKernels}.

Lemma expand_dims_shape h w (a : list (list Z)) :
  has_shape h w a -> has_shape h w (expand_dims a) /\ depth_of 1 (expand_dims a).
Proof.
  intros Ha. split; [now apply has_shape_map|].
  unfold depth_of, expand_dims. apply Forall_map, Forall_forall. intros r _. simpl.
  apply Forall_map, Forall_forall. now intros v _.
Qed.

Lemma channels_depth (a : list (list bgr)) : depth_of 3 (map (map channels) a).
Proof.
  unfold depth_of. apply Forall_map, Forall_forall. intros r _. simpl.
  apply Forall_map, Forall_forall. now intros p _.
Qed.

Lemma has_shape_zero {A : Type} w (a : list (list A)) : has_shape 0 w a -> a = [].
Proof. intros [Hh _]. destruct a; [reflexivity|simpl in Hh; lia]. Qed.

(** On modalities of one common shape the last block is the leading
    [floor16 h] rows and [floor16 w] columns of each. *)
Lemma force_multiple_of_16_leading h w (b : blob) :
  has_shape h w (rgb b) -> has_shape h w (depth b) -> labels_shape h w (labels b) ->
  force_multiple_of_16 b =
    Blob (leading (floor16 h) (floor16 w) (rgb b))
         (leading (floor16 h) (floor16 w) (depth b))
         (leading_labels (floor16 h) (floor16 w) (labels b)).
Proof.
  intros Hr Hd Hl. destruct b as [r dp l]. cbn [rgb depth labels] in *.
  unfold force_multiple_of_16. cbn [rgb depth labels].
  rewrite (has_shape_height _ _ _ Hr).
  pose proof (has_shape_nonneg _ _ _ Hr) as Hh.
  destruct (Z.eq_dec h 0) as [-> | Hpos].
  - apply has_shape_zero in Hr as ->. apply has_shape_zero in Hd as ->.
    assert (Hl' : leading_labels (floor16 0) (floor16 w) l = l).
    { destruct l as [a|a]; simpl in Hl; apply has_shape_zero in Hl as ->; reflexivity. }
    rewrite Hl'. reflexivity.
  - rewrite (has_shape_width _ _ _ Hr) by lia.
    destruct (Z.eqb_spec (floor16 h) h) as [Eh|Eh];
      destruct (Z.eqb_spec (floor16 w) w) as [Ew|Ew]; cbn [negb orb]; try reflexivity.
    rewrite Eh, Ew. rewrite (leading_full _ _ _ Hr), (leading_full _ _ _ Hd).
    destruct l as [a|a]; simpl in Hl |- *; now rewrite (leading_full _ _ _ Hl).
Qed.

End BlobFacts.

Section BlobShape.
Import NdArray Cv2 Rand Py Shape.
Context `{FloatKernels}.

Lemma leading_floor16_shape {A : Type} h w (a : list (list A)) :
  has_shape h w a ->
  has_shape (floor16 h) (floor16 w) (leading (floor16 h) (floor16 w) a).
Proof.
  intros Ha. pose proof (has_shape_nonneg _ _ _ Ha) as Hh.
  destruct (Z.eq_dec h 0) as [-> | Hpos].
  - apply has_shape_zero in Ha as ->. split; [reflexivity|constructor].
  - assert (Hw : 0 <= w).
    { destruct Ha as [Hlen Hrows]. destruct a as [|r a]; [simpl in Hlen; lia|].
      inversion Hrows; subst. lia. }
    apply (leading_shape h w); [exact Ha| |]; now apply floor16_range.
Qed.

(** The blob assembled from modalities of one shape. *)
Lemma assembled_blob_shape h w r dp (lab : label_array) :
  has_shape h w r -> has_shape h w dp -> labels_shape h w lab ->
  match lab with
  | Labels2 _ => True
  | Labels3 a => depth_of (Z.of_nat Labels.num_classes) a
  end ->
  blob_shape (floor16 h) (floor16 w)
             (force_multiple_of_16 (Blob r (expand_dims dp) lab)).
Proof.
  intros Hr Hdp Hlab Hdepth.
  destruct (expand_dims_shape h w dp Hdp) as [Hd1 Hd2].
  rewrite (force_multiple_of_16_leading h w); [|exact Hr|exact Hd1|exact Hlab].
  cbn [rgb depth labels]. unfold blob_shape. cbn [rgb depth labels].
  split; [now apply leading_floor16_shape|].
  split; [apply channels_depth|].
  split; [now apply leading_floor16_shape|].
  split; [now apply slice2_all|].
  destruct lab as [a|a]; simpl in *.
  - now apply leading_floor16_shape.
  - split; [now apply leading_floor16_shape|now apply slice2_all].
Qed.

Lemma tone_shape h w lut (a : list (list bgr)) :
  has_shape h w a -> has_shape h w (tone lut a).
Proof. intros Ha. destruct lut; [now apply has_shape_map|exact Ha]. Qed.

(** The augmentation keeps the three modalities in one common shape. *)
Lemma augment_aligned self d a a' h w :
  aligned h w a -> augment self d a = Ok a' -> exists h' w', aligned h' w' a'.
Proof.
  destruct a as [[r dp] l], a' as [[r' dp'] l']. intros Ha Haug.
  apply augment_inv in Haug
    as (scale & crop & hflip & vflip & gamma & r_k & dp_k & l_k & window & lut
        & _ & _ & _ & _ & _ & Hs & _ & _ & -> & -> & ->).
  destruct (scale_stage_aligned _ _ _ _ _ _ _ Ha Hs) as (h1 & w1 & Hk).
  apply aligned_elim in Hk as (Hr & Hdp & Hl).
  exists (window_rows window h1), (window_cols window w1).
  apply aligned_intro; [apply tone_shape| |]; now apply place_shape.
Qed.

End BlobShape.

(** ** When the augmentation returns *)

Section TrainingReturns.
Import NdArray Cv2 Rand Py Shape.
Context `{FloatKernels}.

Lemma truthy_pair lo hi rest : truthy (VList (lo :: hi :: rest)) = true.
Proof. reflexivity. Qed.

Lemma truthy_positive c : 0 < c -> truthy (VInt c) = true.
Proof. intros Hc. simpl. destruct (Z.eqb_spec c 0); [lia|reflexivity]. Qed.

Lemma scale_factor_value lo hi rest c h w u :
  0 < h -> 0 < w ->
  scale_factor (VList (lo :: hi :: rest)) (VInt c) h w u =
    Ok (uniform (Py.max (inject_Z c / inject_Z (Z.min h w)) lo) hi u).
Proof.
  intros Hh Hw. unfold scale_factor, min_scale. cbn.
  destruct (Z.eqb_spec (Z.min h w) 0); [lia|]. reflexivity.
Qed.

Lemma scale_stage_returns lo hi rest c d h w r dp l :
  0 < c -> 0 < h -> 0 < w ->
  (Py.max (inject_Z c / inject_Z (Z.min h w)) lo <= hi)%Q ->
  unit_interval (u_scale d) ->
  aligned h w (r, dp, l) ->
  exists k r_k dp_k l_k,
    scale_factor (VList (lo :: hi :: rest)) (VInt c) h w (u_scale d) = Ok k /\
    scale_stage (VList (lo :: hi :: rest)) (VInt c) d (r, dp, l) = Ok (r_k, dp_k, l_k) /\
    aligned (scaled k h) (scaled k w) (r_k, dp_k, l_k) /\
    c <= scaled k h /\ c <= scaled k w.
Proof.
  intros Hc Hh Hw Hrange Hu Ha. apply aligned_elim in Ha as (Hr & Hdp & Hl).
  set (m := (inject_Z c / inject_Z (Z.min h w))%Q) in *.
  set (k := uniform (Py.max m lo) hi (u_scale d)).
  assert (Hk : (m <= k)%Q).
  { apply (Qle_trans _ (Py.max m lo)); [apply py_max_ge_l|].
    now apply uniform_between. }
  assert (Hkh : c <= scaled k h) by (apply (scaled_ge_crop k c (Z.min h w) h); lia || exact Hk).
  assert (Hkw : c <= scaled k w) by (apply (scaled_ge_crop k c (Z.min h w) w); lia || exact Hk).
  exists k, (build (scaled k h) (scaled k w) (linear_sample k r)),
    (build (scaled k h) (scaled k w)
       (fun y x => get dp (nearest_src k (height dp) y) (nearest_src k (width dp) x))),
    (build (scaled k h) (scaled k w)
       (fun y x => get l (nearest_src k (height l) y) (nearest_src k (width l) x))).
  split; [now apply scale_factor_value|].
  split.
  - unfold scale_stage. rewrite truthy_pair, (truthy_positive c Hc). cbn [andb].
    rewrite (has_shape_height _ _ _ Hr), (has_shape_width _ _ _ Hr Hh).
    rewrite (scale_factor_value lo hi rest c h w _ Hh Hw). fold m. fold k. cbn.
    unfold resize_linear, resize_nearest.
    rewrite (resize_with_ok _ k r h w Hr) by lia. cbn.
    rewrite (resize_with_ok _ k dp h w Hdp) by lia. cbn.
    rewrite (resize_with_ok _ k l h w Hl) by lia. cbn. reflexivity.
  - split; [|split; assumption].
    apply aligned_intro; apply has_shape_build; lia.
Qed.

Lemma randint_in_range (b n : Z) :
  0 <= b -> exists v, randint 0 b n = Ok v /\ 0 <= v <= b.
Proof.
  intros Hb. unfold randint. destruct (Z.ltb_spec b 0); [lia|].
  eexists. split; [reflexivity|].
  pose proof (Z.mod_pos_bound n (b - 0 + 1) ltac:(lia)). lia.
Qed.

Lemma crop_stage_returns c d h w r dp l :
  0 < c -> c <= h -> c <= w -> aligned h w (r, dp, l) ->
  exists h_c w_c,
    0 <= h_c <= h - c /\ 0 <= w_c <= w - c /\
    crop_window (VInt c) d r = Ok (Some (h_c, w_c, c)) /\
    crop_stage (VInt c) d (r, dp, l) =
      Ok (place (Some (h_c, w_c, c)) false false r,
          place (Some (h_c, w_c, c)) false false dp,
          place (Some (h_c, w_c, c)) false false l) /\
    aligned c c (place (Some (h_c, w_c, c)) false false r,
                 place (Some (h_c, w_c, c)) false false dp,
                 place (Some (h_c, w_c, c)) false false l).
Proof.
  intros Hc Hh Hw Ha. apply aligned_elim in Ha as (Hr & Hdp & Hl).
  destruct (randint_in_range (h - c) (n_row d) ltac:(lia)) as (h_c & Hrow & Hhc).
  destruct (randint_in_range (w - c) (n_col d) ltac:(lia)) as (w_c & Hcol & Hwc).
  exists h_c, w_c. split; [exact Hhc|]. split; [exact Hwc|].
  assert (Hheight : height r = h) by now apply has_shape_height with (w := w).
  assert (Hwidth : width r = w) by (apply has_shape_width with (h := h); [exact Hr|lia]).
  split; [|split].
  - unfold crop_window. rewrite (truthy_positive c Hc). cbn.
    rewrite Hheight, Hwidth, Hrow. cbn. rewrite Hcol. reflexivity.
  - unfold crop_stage. rewrite (truthy_positive c Hc). cbn.
    rewrite Hheight, Hwidth, Hrow. cbn. rewrite Hcol. reflexivity.
  - assert (Hrows : window_rows (Some (h_c, w_c, c)) h = c)
      by (apply slice_len_window; lia).
    assert (Hcols : window_cols (Some (h_c, w_c, c)) w = c)
      by (apply slice_len_window; lia).
    apply aligned_intro; rewrite <- Hrows at 1; rewrite <- Hcols at 2;
      now apply place_shape.
Qed.

Lemma gamma_stage_returns gamma d r dp l :
  gamma_ready gamma d ->
  exists lut, gamma_table gamma d = Ok lut /\
              gamma_stage gamma d (r, dp, l) = Ok (tone lut r, dp, l).
Proof.
  intros [Hoff|(lo & hi & rest & -> & Hk)].
  - exists None. unfold gamma_table, gamma_stage. rewrite Hoff. split; reflexivity.
  - exists (Some (gamma_lut (uniform lo hi (u_gamma d)))).
    unfold gamma_table, gamma_stage. rewrite truthy_pair. cbn.
    destruct (Qeq_bool _ 0) eqn:E; [apply Qeq_bool_eq in E; contradiction|].
    split; reflexivity.
Qed.

End TrainingReturns.

Section TrainingBlob.
Import NdArray Cv2 Rand Py Shape.
Context `{FloatKernels}.

(** With a crop of [c] pixels and a scale range that reaches the needed
    factor, the augmentation returns three arrays of [c] rows and [c]
    columns. *)
Lemma augment_returns self d h w c r dp l :
  training_ready self h w d c -> aligned h w (r, dp, l) ->
  exists a', augment self d (r, dp, l) = Ok a' /\ aligned c c a'.
Proof.
  intros (aug & lo & hi & rest & hflip & vflip & gamma & Hcfg & Hscale & Hcrop
          & Hhflip & Hvflip & Hgamma & Hc & Hh & Hw & Hrange & Hu & Hg) Ha.
  destruct (scale_stage_returns lo hi rest c d h w r dp l Hc Hh Hw Hrange Hu Ha)
    as (k & r_k & dp_k & l_k & _ & Hs & Hk & Hkh & Hkw).
  destruct (crop_stage_returns c d _ _ r_k dp_k l_k Hc Hkh Hkw Hk)
    as (h_c & w_c & _ & _ & _ & Hcs & Hca).
  unfold augment. rewrite !(aug_entry_lookup self aug) by exact Hcfg.
  unfold getitem. rewrite Hscale, Hcrop, Hhflip, Hvflip, Hgamma.
  cbn [mbind res_bind]. rewrite Hs. cbn [mbind res_bind]. rewrite Hcs.
  cbn [mbind res_bind].
  rewrite hflip_stage_place, vflip_stage_place, !place_flips.
  destruct (gamma_stage_returns gamma d
              (place (Some (h_c, w_c, c)) (truthy hflip && c_hflip d)
                     (truthy vflip && c_vflip d) r_k)
              (place (Some (h_c, w_c, c)) (truthy hflip && c_hflip d)
                     (truthy vflip && c_vflip d) dp_k)
              (place (Some (h_c, w_c, c)) (truthy hflip && c_hflip d)
                     (truthy vflip && c_vflip d) l_k) Hg)
    as (lut & _ & Hgs).
  eexists. split; [exact Hgs|].
  apply aligned_elim in Hca as (Hr1 & Hdp1 & Hl1).
  apply aligned_elim in Hk as (Hr0 & Hdp0 & Hl0).
  assert (Hrows : window_rows (Some (h_c, w_c, c)) (scaled k h) = c).
  { apply has_shape_height in Hr1.
    pose proof (place_shape (Some (h_c, w_c, c)) false false _ _ r_k Hr0) as Hp.
    apply has_shape_height in Hp. congruence. }
  assert (Hcols : window_cols (Some (h_c, w_c, c)) (scaled k w) = c).
  { pose proof (place_shape (Some (h_c, w_c, c)) false false _ _ r_k Hr0) as Hp.
    rewrite Hrows in Hp.
    apply has_shape_width in Hr1; [|lia]. apply has_shape_width in Hp; [|lia].
    congruence. }
  apply aligned_intro; [apply tone_shape| |];
    rewrite <- Hrows at 1; rewrite <- Hcols at 2; now apply place_shape.
Qed.

End TrainingBlob.

(** ** Reading one position *)

Section Positions.
Import NdArray Cv2 Shape.
Context {A : Type} `{Inhabited A}.

Lemma row_length h w (a : list (list A)) y :
  has_shape h w a -> 0 <= y < h -> Z.of_nat (length (nth (Z.to_nat y) a [])) = w.
Proof.
  intros [Hh Hw] Hy. rewrite Forall_forall in Hw. apply Hw.
  apply list_elem_of_In, nth_In. lia.
Qed.

Lemma nth_py_slice {B : Type} lo c (l : list B) (d : B) i :
  0 <= lo -> 0 <= c -> lo + c <= Z.of_nat (length l) -> 0 <= i < c ->
  nth (Z.to_nat i) (py_slice lo (lo + c) l) d = nth (Z.to_nat (lo + i)) l d.
Proof.
  intros Hlo Hc Hn Hi. unfold py_slice, norm_index.
  destruct (Z.ltb_spec lo 0); [lia|]. destruct (Z.ltb_spec (lo + c) 0); [lia|].
  rewrite !Z.min_l by lia. rewrite nth_firstn.
  destruct (Nat.ltb_spec (Z.to_nat i) (Z.to_nat (lo + c - lo))); [|lia].
  rewrite nth_skipn. f_equal. lia.
Qed.

Lemma get_slice2 h w r0 c0 ch cw (a : list (list A)) i j :
  has_shape h w a ->
  0 <= r0 -> 0 <= ch -> r0 + ch <= h -> 0 <= c0 -> 0 <= cw -> c0 + cw <= w ->
  0 <= i < ch -> 0 <= j < cw ->
  get (slice2 r0 (r0 + ch) c0 (c0 + cw) a) i j = get a (r0 + i) (c0 + j).
Proof.
  intros Ha Hr0 Hch Hrh Hc0 Hcw Hcwid Hi Hj. unfold get, slice2.
  pose proof Ha as [Hh _].
  assert (Hlen : Z.of_nat (length (py_slice r0 (r0 + ch) a)) = ch).
  { rewrite length_py_slice, Hh. apply slice_len_window; lia. }
  rewrite (nth_indep _ [] (py_slice c0 (c0 + cw) [])) by (rewrite length_map; lia).
  rewrite map_nth. rewrite (nth_py_slice r0 ch a []) by lia.
  apply nth_py_slice; try lia.
  rewrite (row_length h w a (r0 + i) Ha) by lia. lia.
Qed.





End Positions.

Section MorePositions.
Import NdArray Cv2 Shape.

Lemma get_leading {A : Type} `{Inhabited A} h w h_c w_c (a : list (list A)) i j :
  has_shape h w a -> 0 <= h_c <= h -> 0 <= w_c <= w ->
  0 <= i < h_c -> 0 <= j < w_c ->
  get (leading h_c w_c a) i j = get a i j.
Proof.
  intros Ha Hh Hw Hi Hj. unfold leading.
  pose proof (get_slice2 h w 0 0 h_c w_c a i j Ha) as Hg.
  rewrite !Z.add_0_l in Hg. apply Hg; lia.
Qed.




End MorePositions.

(** ** The one-hot step of the training format *)

Section OneHotClaim.
Import NdArray Cv2 Rand Py Shape OneHot Labels.
Context `{FloatKernels}.

Lemma canonical_inhabitant : canonical (inhabitant : Z).
Proof. vm_compute. split; discriminate. Qed.

Lemma scale_stage_labels (P : Z -> Prop) scale crop d r dp l r' dp' l' :
  P inhabitant -> Forall (Forall P) l ->
  scale_stage scale crop d (r, dp, l) = Ok (r', dp', l') -> Forall (Forall P) l'.
Proof.
  intros Hd Hl Hs.
  apply scale_stage_inv in Hs as [[_ Heq]|(k & _ & _ & _ & _ & Hl')].
  - now injection Heq as -> -> ->.
  - now apply (resize_nearest_all P k l l').
Qed.

(** The labels the augmentation returns are drawn from the labels it
    receives. *)
Lemma augment_labels (P : Z -> Prop) self d r dp l r' dp' l' :
  P inhabitant -> Forall (Forall P) l ->
  augment self d (r, dp, l) = Ok (r', dp', l') -> Forall (Forall P) l'.
Proof.
  intros Hd Hl Haug.
  apply augment_inv in Haug
    as (scale & crop & hflip & vflip & gamma & r_k & dp_k & l_k & window & lut
        & _ & _ & _ & _ & _ & Hs & _ & _ & _ & _ & ->).
  apply place_all. now apply (scale_stage_labels P) in Hs.
Qed.

Lemma remapped_canonical (l : list (list Z)) :
  Forall (Forall (fun v => 0 <= v <= 22)) l ->
  Forall (Forall canonical) (remap_labels l).
Proof.
  intros Hl. rewrite remap_labels_pointwise. apply Forall_map.
  eapply Forall_impl; [exact Hl|]. intros r Hr. simpl. apply Forall_map.
  eapply Forall_impl; [exact Hr|]. intros v Hv. now apply remap_code_canonical.
Qed.

(** C3.  The one-hot step compares the labels with the global
    [one_hot_lookup], a name the module never binds.  Whenever the
    augmentation of the training format succeeds, the labels that reach the
    step are canonical if the stored ones are raw codes 0 to 22, and the call
    raises [NameError] at the step: no one-hot array is built and no blob is
    returned.  Whatever the driver, the sample and the draws, the training
    format ends in an exception. *)
Theorem one_hot_step_raises_name_error (self : SynthiaCityscapes) (s : sample)
    (d : draws) (r : list (list bgr)) (dp l : list (list Z)) :
  augment self d (s_rgb s, s_depth s, remap_labels (s_labels s)) = Ok (r, dp, l) ->
  (Forall (Forall (fun v => 0 <= v <= 22)) (s_labels s) -> Forall (Forall canonical) l) /\
  _get_data self s true d = Raise (NameError "one_hot_lookup") /\
  (forall (self' : SynthiaCityscapes) (s' : sample) (d' : draws),
     exists e, _get_data self' s' true d' = Raise e).
Proof.
  intros Haug. split; [|split].
  - intros Hraw.
    apply (augment_labels canonical _ _ _ _ _ _ _ _ canonical_inhabitant
             (remapped_canonical _ Hraw) Haug).
  - unfold _get_data. rewrite Haug. reflexivity.
  - intros self' s' d'. unfold _get_data.
    destruct (augment self' d' _) as [[[r' dp'] l']|e]; eexists; reflexivity.
Qed.

End OneHotClaim.

(** ** The demonstration frame *)

Section DemoFacts.
Import NdArray Shape.

Lemma demo_frame_shape h w : 0 <= h -> 0 <= w -> sample_shape h w (Demo.frame h w).
Proof.
  intros Hh Hw. unfold sample_shape, Demo.frame. cbn [s_rgb s_depth s_labels].
  apply aligned_intro; now apply has_shape_build.
Qed.

Lemma demo_frame_raw h w :
  Forall (Forall (fun v => 0 <= v <= 22)) (s_labels (Demo.frame h w)).
Proof.
  cbn [Demo.frame s_labels]. unfold Demo.plane. apply build_all. intros y x.
  pose proof (Z.mod_pos_bound (y * w + x) 23 ltac:(lia)). lia.
Qed.


End DemoFacts.

Lemma one_hot_step_raises_name_error_witness :
  @_get_data Demo.kernels Cases.fusion_driver (Demo.frame 20 24) true Demo.dice
    = Raise (NameError "one_hot_lookup").
Proof.
  assert (Haug : @augment Demo.kernels Cases.fusion_driver Demo.dice
                   (s_rgb (Demo.frame 20 24), s_depth (Demo.frame 20 24),
                    Labels.remap_labels (s_labels (Demo.frame 20 24)))
                 = Ok (s_rgb (Demo.frame 20 24), s_depth (Demo.frame 20 24),
                       Labels.remap_labels (s_labels (Demo.frame 20 24))))
    by (vm_compute; reflexivity).
  destruct (@one_hot_step_raises_name_error Demo.kernels Cases.fusion_driver
              (Demo.frame 20 24) Demo.dice _ _ _ Haug) as (_ & Hraise & _).
  exact Hraise.
Defined.

(** ** Shapes of the returned blob *)

Section DimensionClaim.
Import NdArray Cv2 Rand Py Shape OneHot Labels.
Context `{FloatKernels}.

(** C4, amended.  For modalities of one common height [h] and width [w]
    the evaluation format returns a blob of shapes [(H, W, 3)], [(H, W, 1)]
    and [(H, W)] with [H = h - h mod 16] and [W = w - w mod 16], both
    multiples of 16 and the same for the three modalities.  Each array is the
    leading [H] rows and [W] columns of what was loaded, the labels remapped:
    the cut keeps every position where it was and removes fewer than 16
    trailing rows and columns. *)
Theorem blob_dimensions (self : SynthiaCityscapes) (s : sample) (d : draws)
    (h w : Z) :
  sample_shape h w s ->
  (exists b,
     _get_data self s false d = Ok b /\
     blob_shape (floor16 h) (floor16 w) b /\
     rgb b = leading (floor16 h) (floor16 w) (s_rgb s) /\
     depth b = leading (floor16 h) (floor16 w) (expand_dims (s_depth s)) /\
     labels b = Labels2 (leading (floor16 h) (floor16 w) (remap_labels (s_labels s)))) /\
  (forall n, (16 | floor16 n) /\ (0 <= n -> 0 <= floor16 n <= n /\ n - floor16 n < 16)) /\
  (forall (a : list (list Z)) h' w' i j,
     has_shape h' w' a -> 0 <= i < floor16 h' -> 0 <= j < floor16 w' ->
     get (leading (floor16 h') (floor16 w') a) i j = get a i j).
Proof.
  intros Hs.
  assert (Ha : aligned h w (s_rgb s, s_depth s, remap_labels (s_labels s))).
  { apply aligned_elim in Hs as (Hr & Hdp & Hl).
    apply aligned_intro; [exact Hr|exact Hdp|].
    rewrite remap_labels_pointwise. now apply has_shape_map. }
  apply aligned_elim in Ha as (Hr & Hdp & Hl).
  split; [|split].
  - eexists. split; [reflexivity|].
    split; [now apply assembled_blob_shape|].
    rewrite (force_multiple_of_16_leading h w); cbn [rgb depth labels];
      [|exact Hr|now apply expand_dims_shape|exact Hl].
    repeat split; reflexivity.
  - intros n. split; [apply floor16_divides|]. intros Hn.
    split; [now apply floor16_range|].
    unfold floor16. pose proof (Z.mod_pos_bound n 16 ltac:(lia)). lia.
  - intros a h' w' i j Hsh Hi Hj.
    pose proof (has_shape_nonneg _ _ _ Hsh) as Hh'.
    pose proof (floor16_range h' Hh') as Hfh.
    assert (Hw' : 0 <= w').
    { destruct Hsh as [Hlen Hrows]. destruct a as [|r a]; [simpl in Hlen; lia|].
      inversion Hrows; subst. lia. }
    pose proof (floor16_range w' Hw') as Hfw.
    apply (get_leading h' w'); [exact Hsh|lia|lia|exact Hi|exact Hj].
Qed.

End DimensionClaim.

(** The claim as it stands fails on both formats.  For a colour image and
    labels of 16 by 16 pixels stored with a depth image of 32 by 32 pixels,
    the evaluation format returns the colour image with 16 rows and the depth
    image with 32 rows, so the blob has no common height; and the training
    format of the same sample, every augmentation stage off, returns no blob
    at all. *)
Lemma blob_without_common_shape :
  (exists b,
     @_get_data Demo.kernels Cases.fusion_driver Cases.uneven false Demo.dice = Ok b /\
     NdArray.height (rgb b) = 16 /\ NdArray.height (depth b) = 32 /\
     forall H W, ~ Shape.blob_shape H W b) /\
  @_get_data Demo.kernels Cases.fusion_driver Cases.uneven true Demo.dice
    = Raise (NameError "one_hot_lookup").
Proof.
  split.
  - eexists. split; [reflexivity|].
    split; [vm_compute; reflexivity|]. split; [vm_compute; reflexivity|].
    intros H0 W0 (Hr & _ & Hdp & _).
    apply has_shape_height in Hr. apply has_shape_height in Hdp.
    assert (E1 : NdArray.height (rgb (force_multiple_of_16
                   (Blob (s_rgb Cases.uneven) (expand_dims (s_depth Cases.uneven))
                         (Labels2 (Labels.remap_labels (s_labels Cases.uneven)))))) = 16)
      by (vm_compute; reflexivity).
    assert (E2 : NdArray.height (depth (force_multiple_of_16
                   (Blob (s_rgb Cases.uneven) (expand_dims (s_depth Cases.uneven))
                         (Labels2 (Labels.remap_labels (s_labels Cases.uneven)))))) = 32)
      by (vm_compute; reflexivity).
    cbn [mbind res_bind] in Hr, Hdp. lia.
  - vm_compute. reflexivity.
Qed.

Lemma blob_dimensions_witness :
  Shape.sample_shape 20 24 (Demo.frame 20 24) /\
  (exists b,
     @_get_data Demo.kernels Demo.training_driver (Demo.frame 20 24) false Demo.dice = Ok b /\
     Shape.blob_shape 16 16 b).
Proof.
  pose proof (demo_frame_shape 20 24 ltac:(lia) ltac:(lia)) as Hs.
  destruct (@blob_dimensions Demo.kernels Demo.training_driver (Demo.frame 20 24)
              Demo.dice 20 24 Hs)
    as ((b & Hb & Hshape & _) & _).
  split; [exact Hs|].
  exists b. split; [exact Hb|exact Hshape].
Defined.

(** ** One draw for the three modalities *)

Section AlignmentClaim.
Import NdArray Cv2 Rand Py Shape.
Context `{FloatKernels}.



End AlignmentClaim.


(** ** The scale factor and the crop size *)

Section ScaleClaim.
Import NdArray Cv2 Rand Py Shape.
Context `{FloatKernels}.

Lemma crop_stage_too_small c d r dp l :
  0 < c -> height r < c -> crop_stage (VInt c) d (r, dp, l) = Raise ValueError.
Proof.
  intros Hc Hh. unfold crop_stage. rewrite (truthy_positive c Hc).
  cbn [mbind res_bind as_int]. unfold randint.
  destruct (Z.ltb_spec (height r - c) 0); [reflexivity|lia].
Qed.

(** The scale stage with a two-element range and an integer crop, as long
    as the resized image is not empty. *)
Lemma scale_stage_value lo hi rest c d h w r dp l :
  0 < c -> 0 < h -> 0 < w -> aligned h w (r, dp, l) ->
  0 < scaled (uniform (Py.max (inject_Z c / inject_Z (Z.min h w)) lo) hi (u_scale d)) h ->
  0 < scaled (uniform (Py.max (inject_Z c / inject_Z (Z.min h w)) lo) hi (u_scale d)) w ->
  exists r_k dp_k l_k,
    scale_stage (VList (lo :: hi :: rest)) (VInt c) d (r, dp, l) = Ok (r_k, dp_k, l_k) /\
    height r_k =
      scaled (uniform (Py.max (inject_Z c / inject_Z (Z.min h w)) lo) hi (u_scale d)) h.
Proof.
  intros Hc Hh Hw Ha Hkh Hkw. apply aligned_elim in Ha as (Hr & Hdp & Hl).
  set (k := uniform (Py.max (inject_Z c / inject_Z (Z.min h w)) lo) hi (u_scale d)) in *.
  exists (build (scaled k h) (scaled k w) (linear_sample k r)),
    (build (scaled k h) (scaled k w)
       (fun y x => get dp (nearest_src k (height dp) y) (nearest_src k (width dp) x))),
    (build (scaled k h) (scaled k w)
       (fun y x => get l (nearest_src k (height l) y) (nearest_src k (width l) x))).
  split.
  - unfold scale_stage. rewrite truthy_pair, (truthy_positive c Hc). cbn [andb].
    rewrite (has_shape_height _ _ _ Hr), (has_shape_width _ _ _ Hr Hh).
    rewrite (scale_factor_value lo hi rest c h w _ Hh Hw). fold k. cbn [mbind res_bind].
    unfold resize_linear, resize_nearest.
    rewrite (resize_with_ok _ k r h w Hr) by lia. cbn [mbind res_bind].
    rewrite (resize_with_ok _ k dp h w Hdp) by lia. cbn [mbind res_bind].
    rewrite (resize_with_ok _ k l h w Hl) by lia. reflexivity.
  - apply (has_shape_height _ (scaled k w)). apply has_shape_build; lia.
Qed.

(** With the default augmentation, a drawn factor that leaves fewer than
    480 rows makes the training format raise [ValueError] at the crop. *)
Lemma default_scaled_below_crop_raises self s d h w :
  config self !! "augmentation" = Some (CDict default_augmentation) ->
  sample_shape h w s -> 0 < h -> 0 < w ->
  0 < scaled (uniform (Py.max (inject_Z 480 / inject_Z (Z.min h w)) (7 # 10))
                      (15 # 10) (u_scale d)) h < 480 ->
  0 < scaled (uniform (Py.max (inject_Z 480 / inject_Z (Z.min h w)) (7 # 10))
                      (15 # 10) (u_scale d)) w ->
  _get_data self s true d = Raise ValueError.
Proof.
  intros Hcfg Hs Hh Hw Hkh Hkw.
  assert (Ha : aligned h w (s_rgb s, s_depth s, Labels.remap_labels (s_labels s))).
  { apply aligned_elim in Hs as (Hr & Hdp & Hl).
    apply aligned_intro; [exact Hr|exact Hdp|].
    rewrite remap_labels_pointwise. now apply has_shape_map. }
  destruct (scale_stage_value (7 # 10) (15 # 10) [] 480 d h w _ _ _
              ltac:(lia) Hh Hw Ha ltac:(lia) Hkw)
    as (r_k & dp_k & l_k & Hscale & Hheight).
  unfold _get_data, augment. rewrite !(aug_entry_lookup self default_augmentation) by exact Hcfg.
  assert (E1 : getitem default_augmentation "scale" = Ok (VList [7 # 10; 15 # 10]%Q))
    by (vm_compute; reflexivity).
  assert (E2 : getitem default_augmentation "crop" = Ok (VInt 480))
    by (vm_compute; reflexivity).
  assert (E3 : getitem default_augmentation "hflip" = Ok (VBool false))
    by (vm_compute; reflexivity).
  assert (E4 : getitem default_augmentation "vflip" = Ok (VBool true))
    by (vm_compute; reflexivity).
  assert (E5 : getitem default_augmentation "gamma" = Ok (VList [3 # 10; 2 # 1]%Q))
    by (vm_compute; reflexivity).
  rewrite E1, E2, E3, E4, E5. cbn [mbind res_bind].
  rewrite Hscale. cbn [mbind res_bind].
  rewrite crop_stage_too_small by lia. reflexivity.
Qed.

(** C6, at the input of the claim.  For an image of 300 rows and 400
    columns, a crop of 480 and the range from 0.7 to 1.5, the first argument
    of the draw is 1.6 and the second is 1.5; with [random()] at one half
    the factor is 1.55, below 1.6, the resized image has 465 rows and 620
    columns, fewer rows than the crop, and the call raises [ValueError]. *)
Theorem scale_draw_below_floor :
  exists m k,
    min_scale (VInt 480) 300 400 = Ok m /\ (m == 16 # 10)%Q /\
    (Py.max m (7 # 10) == 16 # 10)%Q /\
    scale_factor (VList [7 # 10; 15 # 10]%Q) (VInt 480) 300 400 (1 # 2) = Ok k /\
    (k == 31 # 20)%Q /\ (k < 16 # 10)%Q /\
    scaled k 300 = 465 /\ scaled k 400 = 620 /\ scaled k 300 < 480 /\
    _get_data Demo.default_driver (Demo.frame 300 400) true Demo.halves
      = Raise ValueError.
Proof.
  eexists. eexists.
  split; [reflexivity|]. split; [vm_compute; reflexivity|].
  split; [vm_compute; reflexivity|].
  split; [reflexivity|]. split; [vm_compute; reflexivity|].
  split; [vm_compute; reflexivity|].
  split; [vm_compute; reflexivity|]. split; [vm_compute; reflexivity|].
  split; [vm_compute; reflexivity|].
  apply (default_scaled_below_crop_raises _ _ _ 300 400).
  - vm_compute. reflexivity.
  - apply demo_frame_shape; lia.
  - lia.
  - lia.
  - vm_compute. split; reflexivity.
  - vm_compute. reflexivity.
Qed.

End ScaleClaim.

(** ** Where the split is written *)

Section SplitClaim.
Import Path Fs.

(** The path [_preprocessing] opens for writing: its last component starts
    with a slash, so [path.join] drops the dataset root and the sequence. *)
Lemma split_write_path (base_path sequence : string) :
  join base_path [sequence; "/train_test_split.json"] = "/train_test_split.json".
Proof. reflexivity. Qed.

Lemma write_inserts (fs fs' : gmap string node) p content :
  write fs p content = Ok fs' -> fs' = <[p := content]> fs.
Proof.
  unfold write. destruct (_ || _); [now intros [= <-]|].
  destruct (fs !! dirname p) as [[| | |]|]; try discriminate. now intros [= <-].
Qed.

(** Whenever [_preprocessing] creates a split, the place it looked at
    still holds no split afterwards, unless that place is the root of the
    file system itself. *)
Lemma split_not_persisted_under_base base_path (fs fs' : gmap string node)
    sequence perm :
  _preprocessing base_path fs sequence perm
    = Outcome ["INFO: Creating Train-Test-Split"] (Ok fs') ->
  join base_path [sequence; "train_test_split.json"] <> "/train_test_split.json" ->
  fs' !! join base_path [sequence; "train_test_split.json"] = None /\
  is_Some (fs' !! "/train_test_split.json").
Proof.
  unfold _preprocessing. intros Hrun Hne.
  destruct (convert_directions _ _ _ _) as [fs1|e]; [|discriminate].
  destruct (exists_ fs1 (join base_path [sequence; "train_test_split.json"])) eqn:Ex;
    [discriminate|].
  injection Hrun as Hrun.
  apply bind_ok in Hrun as (names & _ & Hrun).
  apply bind_ok in Hrun as ([trainset testset] & _ & Hrun).
  apply write_inserts in Hrun. subst fs'.
  split.
  - rewrite lookup_insert_ne by (intros E; apply Hne; symmetry; exact E).
    unfold exists_ in Ex. apply bool_decide_eq_false in Ex.
    destruct (fs1 !! _) eqn:E; [|reflexivity]. exfalso. apply Ex. now eexists.
  - rewrite lookup_insert_eq. now eexists.
Qed.

(** C8, at a dataset root with five label images and no split.  The call
    converts the images, splits the five identifiers four to one, and writes
    the JSON object with the keys [trainset] and [testset] to
    [/train_test_split.json], at the root of the file system: the path
    [/data/RAND_CITYSCAPES/train_test_split.json] that it tested, and that
    the constructor reads, still does not exist afterwards. *)
Theorem split_written_outside_dataset :
  (forall base_path sequence,
     join base_path [sequence; "/train_test_split.json"] = "/train_test_split.json") /\
  join "/data" ["RAND_CITYSCAPES"; "train_test_split.json"]
    = "/data/RAND_CITYSCAPES/train_test_split.json" /\
  Demo.raw_disk !! "/data/RAND_CITYSCAPES/train_test_split.json" = None /\
  _preprocessing "/data" Demo.raw_disk "RAND_CITYSCAPES" Demo.shuffle
    = Outcome ["INFO: Creating Train-Test-Split"] (Ok Demo.preprocessed) /\
  Demo.preprocessed !! "/data/RAND_CITYSCAPES/train_test_split.json" = None /\
  Demo.preprocessed !! "/train_test_split.json"
    = Some (FileJson (split_document ["0000001"; "0000003"; "0000000"; "0000002"]
                                     ["0000004"])) /\
  Demo.preprocessed !! "/data/RAND_CITYSCAPES/GT/LABELS_NPY/Stereo_Right/Omni_F/0000000.npy"
    = Some (FileNpy [[3; 13]]) /\
  result (__init__ Demo.preprocessed "/data" false 1 ∅)
    = Raise (FileNotFoundError "/data/RAND_CITYSCAPES/train_test_split.json").
Proof.
  split; [intros; apply split_write_path|]. split; [reflexivity|].
  repeat split; vm_compute; reflexivity.
Qed.

End SplitClaim.

(** * Further properties of the driver *)

(** ** Codes outside the table *)

Section OtherCodes.
Import Labels.

(** X1.  The loader neither rejects nor clamps a stored code outside the
    table: a code below 0 or above 22 goes through the eleven assignments
    unchanged, so it is no canonical code afterwards, and a label array that
    holds such a code is not canonical after the remapping. *)
Theorem code_outside_table_stays (x : Z) (l : list (list Z)) :
  ~ 0 <= x <= 22 ->
  remap_code x = x /\
  ~ canonical (remap_code x) /\
  (Exists (Exists (eq x)) l -> ~ Forall (Forall canonical) (remap_labels l)).
Proof.
  intros Hx.
  assert (Hid : remap_code x = x).
  { unfold remap_code, remap_steps. cbn [fold_left fst snd]. unfold assign_where.
    repeat match goal with
           | |- context [?a =? ?b] => destruct (Z.eqb_spec a b); [lia|]
           end.
    reflexivity. }
  assert (Hnc : ~ canonical (remap_code x)) by (rewrite Hid; unfold canonical; lia).
  split; [exact Hid|]. split; [exact Hnc|].
  intros Hex Hall. rewrite remap_labels_pointwise in Hall.
  apply Exists_exists in Hex as (row & Hrow & Hex).
  apply Exists_exists in Hex as (y & Hy & <-).
  rewrite Forall_forall in Hall.
  specialize (Hall (map remap_code row) (list_elem_of_fmap_2 _ _ _ Hrow)).
  rewrite Forall_forall in Hall.
  exact (Hnc (Hall (remap_code x) (list_elem_of_fmap_2 _ _ _ Hy))).
Qed.

End OtherCodes.

Lemma code_outside_table_stays_witness :
  Labels.remap_code 200 = 200 /\
  ~ Forall (Forall Labels.canonical) (Labels.remap_labels [[3; 200]]).
Proof.
  assert (Hx : ~ 0 <= 200 <= 22) by lia.
  destruct (code_outside_table_stays 200 [[3; 200]] Hx) as (Hid & _ & Harray).
  split; [exact Hid|]. apply Harray.
  constructor. apply Exists_cons_tl. now constructor.
Defined.

(** ** The scale floor and the crop *)

Section ScaleAndCrop.
Import NdArray Cv2 Rand Py Shape.
Context `{FloatKernels}.

(** X3.  When the floor [max(crop / min(h, w), scale[0])] does not exceed
    [scale[1]], the drawn factor lies between the two, the resize succeeds
    on the three modalities with one common size, and that size is at least
    the crop in both directions. *)
Theorem scale_floor_keeps_crop_inside (lo hi : Q) (rest : list Q) (c : Z) (d : draws)
    (h w : Z) (r : list (list bgr)) (dp l : list (list Z)) :
  0 < c -> 0 < h -> 0 < w ->
  (Py.max (inject_Z c / inject_Z (Z.min h w)) lo <= hi)%Q ->
  unit_interval (u_scale d) ->
  aligned h w (r, dp, l) ->
  exists k r_k dp_k l_k,
    scale_factor (VList (lo :: hi :: rest)) (VInt c) h w (u_scale d) = Ok k /\
    (Py.max (inject_Z c / inject_Z (Z.min h w)) lo <= k)%Q /\ (k <= hi)%Q /\
    (inject_Z c / inject_Z (Z.min h w) <= k)%Q /\
    scale_stage (VList (lo :: hi :: rest)) (VInt c) d (r, dp, l) = Ok (r_k, dp_k, l_k) /\
    aligned (scaled k h) (scaled k w) (r_k, dp_k, l_k) /\
    c <= scaled k h /\ c <= scaled k w.
Proof.
  intros Hc Hh Hw Hrange Hu Ha.
  destruct (scale_stage_returns lo hi rest c d h w r dp l Hc Hh Hw Hrange Hu Ha)
    as (k & r_k & dp_k & l_k & Hk & Hs & Hal & Hkh & Hkw).
  exists k, r_k, dp_k, l_k.
  rewrite (scale_factor_value lo hi rest c h w _ Hh Hw) in Hk. injection Hk as <-.
  destruct (uniform_between _ _ _ Hrange Hu) as [Hlow Hup].
  split; [now apply scale_factor_value|]. split; [exact Hlow|]. split; [exact Hup|].
  split; [eapply Qle_trans; [apply py_max_ge_l|exact Hlow]|].
  repeat (split; [assumption|]). exact Hkw.
Qed.

Lemma crop_stage_exceeds c d h w r dp l :
  0 < c -> aligned h w (r, dp, l) -> h < c \/ w < c ->
  crop_stage (VInt c) d (r, dp, l) = Raise ValueError.
Proof.
  intros Hc Ha Hsmall. apply aligned_elim in Ha as (Hr & _ & _).
  pose proof (has_shape_height _ _ _ Hr) as Hheight.
  destruct (Z.lt_ge_cases h c) as [Hlt|Hge].
  - apply crop_stage_too_small; lia.
  - destruct Hsmall as [Hlt|Hlt]; [lia|].
    assert (Hwidth : width r = w) by (apply has_shape_width with (h := h); [exact Hr|lia]).
    unfold crop_stage. rewrite (truthy_positive c Hc). cbn [mbind res_bind as_int].
    rewrite Hheight, Hwidth. unfold randint.
    destruct (Z.ltb_spec (h - c) 0); [lia|]. cbn [mbind res_bind].
    destruct (Z.ltb_spec (w - c) 0); [reflexivity|lia].
Qed.

(** X4.  With a crop configured and the scale stage switched off, an image
    with fewer rows or fewer columns than the crop makes the training format
    raise [ValueError]; no smaller crop is returned in its place. *)
Theorem crop_larger_than_image_raises (self : SynthiaCityscapes)
    (aug : gmap string pyval) (scale hflip vflip gamma : pyval) (c : Z)
    (s : sample) (d : draws) (h w : Z) :
  config self !! "augmentation" = Some (CDict aug) ->
  aug !! "scale" = Some scale -> truthy scale = false ->
  aug !! "crop" = Some (VInt c) -> 0 < c ->
  aug !! "hflip" = Some hflip -> aug !! "vflip" = Some vflip ->
  aug !! "gamma" = Some gamma ->
  sample_shape h w s -> h < c \/ w < c ->
  _get_data self s true d = Raise ValueError.
Proof.
  intros Hcfg Hscale Hoff Hcrop Hc Hhflip Hvflip Hgamma Hs Hsmall.
  assert (Ha : aligned h w (s_rgb s, s_depth s, Labels.remap_labels (s_labels s))).
  { apply aligned_elim in Hs as (Hr & Hdp & Hl).
    apply aligned_intro; [exact Hr|exact Hdp|].
    rewrite remap_labels_pointwise. now apply has_shape_map. }
  unfold _get_data, augment. rewrite !(aug_entry_lookup self aug) by exact Hcfg.
  unfold getitem. rewrite Hscale, Hcrop, Hhflip, Hvflip, Hgamma. cbn [mbind res_bind].
  unfold scale_stage. rewrite Hoff. cbn [andb mbind res_bind].
  now rewrite (crop_stage_exceeds c d h w).
Qed.

End ScaleAndCrop.

Lemma scale_floor_keeps_crop_inside_witness :
  exists k r_k dp_k l_k,
    scale_factor (VList [1; 2]%Q) (VInt 16) 20 24 (1 # 2) = Ok k /\
    @scale_stage Demo.kernels (VList [1; 2]%Q) (VInt 16) Demo.dice
       (s_rgb (Demo.frame 20 24), s_depth (Demo.frame 20 24), s_labels (Demo.frame 20 24))
      = Ok (r_k, dp_k, l_k) /\
    16 <= Cv2.scaled k 20 /\ 16 <= Cv2.scaled k 24.
Proof.
  assert (Hrange : (Py.max (inject_Z 16 / inject_Z (Z.min 20 24)) 1 <= 2)%Q)
    by (vm_compute; discriminate).
  assert (Hu : Rand.unit_interval (Rand.u_scale Demo.dice))
    by (split; vm_compute; [discriminate|reflexivity]).
  destruct (@scale_floor_keeps_crop_inside Demo.kernels 1%Q 2%Q [] 16 Demo.dice 20 24
              _ _ _ ltac:(lia) ltac:(lia) ltac:(lia) Hrange Hu
              (demo_frame_shape 20 24 ltac:(lia) ltac:(lia)))
    as (k & r_k & dp_k & l_k & Hk & _ & _ & _ & Hs & _ & Hkh & Hkw).
  exists k, r_k, dp_k, l_k.
  split; [exact Hk|]. split; [exact Hs|]. split; [exact Hkh|exact Hkw].
Defined.

Lemma crop_larger_than_image_raises_witness :
  @_get_data Demo.kernels Cases.crop_driver (Demo.frame 20 24) true Demo.dice
    = Raise ValueError.
Proof.
  apply (@crop_larger_than_image_raises Demo.kernels Cases.crop_driver Cases.crop_32
           (VBool false) (VBool true) (VBool true) (VBool false) 32
           (Demo.frame 20 24) Demo.dice 20 24).
  - vm_compute. reflexivity.
  - vm_compute. reflexivity.
  - reflexivity.
  - vm_compute. reflexivity.
  - lia.
  - vm_compute. reflexivity.
  - vm_compute. reflexivity.
  - vm_compute. reflexivity.
  - apply demo_frame_shape; lia.
  - left. lia.
Defined.

(** ** Augmentation switched off *)

Section AugmentationOff.
Import NdArray Cv2 Rand Py Shape.
Context `{FloatKernels}.

Lemma dataset_params_augmentation (data_config : gmap string cfgval) :
  BayesFusion.dataset_params data_config !! "augmentation"
    = Some (CDict BayesFusion.augmentation_off).
Proof. unfold BayesFusion.dataset_params. apply lookup_insert_eq. Qed.

Lemma augment_off self d a :
  config self !! "augmentation" = Some (CDict BayesFusion.augmentation_off) ->
  augment self d a = Ok a.
Proof.
  intros Hcfg. destruct a as [[r dp] l]. unfold augment.
  rewrite !(aug_entry_lookup self BayesFusion.augmentation_off) by exact Hcfg.
  assert (E : forall key, key ∈ augmentation_keys ->
                getitem BayesFusion.augmentation_off key = Ok (VBool false)).
  { intros key Hkey. unfold augmentation_keys in Hkey.
    repeat (apply elem_of_cons in Hkey as [->|Hkey]; [vm_compute; reflexivity|]).
    now apply elem_of_nil in Hkey. }
  rewrite !E by (unfold augmentation_keys; rewrite !elem_of_cons; tauto).
  reflexivity.
Qed.

(** X5.  The parameters [split_test_data] builds carry an augmentation
    entry with every stage off, whatever the evaluation configuration says,
    and no [dataset] key; its other keys are kept.  In a driver with that
    entry the augmentation block of the training format hands on the three
    arrays as it received them, for every draw: nothing is resized, cropped,
    flipped or recoloured. *)
Theorem split_test_data_switches_augmentation_off
    (data_config : gmap string cfgval) (self : SynthiaCityscapes)
    (d : draws) (a : arrays) :
  config self !! "augmentation" = BayesFusion.dataset_params data_config !! "augmentation" ->
  BayesFusion.dataset_params data_config !! "augmentation"
    = Some (CDict BayesFusion.augmentation_off) /\
  BayesFusion.dataset_params data_config !! "dataset" = None /\
  (forall key, key <> "augmentation" -> key <> "dataset" ->
     BayesFusion.dataset_params data_config !! key = data_config !! key) /\
  augment self d a = Ok a.
Proof.
  intros Hcfg. rewrite dataset_params_augmentation in Hcfg.
  split; [apply dataset_params_augmentation|].
  split.
  { unfold BayesFusion.dataset_params. rewrite lookup_insert_ne by discriminate.
    apply lookup_delete_eq. }
  split.
  { intros key Ha Hd. unfold BayesFusion.dataset_params.
    rewrite lookup_insert_ne by congruence. apply lookup_delete_ne. congruence. }
  now apply augment_off.
Qed.

End AugmentationOff.

Lemma split_test_data_switches_augmentation_off_witness :
  BayesFusion.dataset_params Cases.evaluation_data !! "augmentation"
    = Some (CDict BayesFusion.augmentation_off) /\
  @augment Demo.kernels Cases.fusion_driver Demo.dice
     (s_rgb (Demo.frame 20 24), s_depth (Demo.frame 20 24), s_labels (Demo.frame 20 24))
    = Ok (s_rgb (Demo.frame 20 24), s_depth (Demo.frame 20 24), s_labels (Demo.frame 20 24)).
Proof.
  assert (Hcfg : config Cases.fusion_driver !! "augmentation"
                 = BayesFusion.dataset_params Cases.evaluation_data !! "augmentation")
    by reflexivity.
  destruct (@split_test_data_switches_augmentation_off Demo.kernels Cases.evaluation_data
              Cases.fusion_driver Demo.dice
              (s_rgb (Demo.frame 20 24), s_depth (Demo.frame 20 24),
               s_labels (Demo.frame 20 24)) Hcfg)
    as (Haug & _ & _ & Hsame).
  split; [exact Haug|exact Hsame].
Defined.

(** ** The default configuration *)

Section DefaultConfiguration.
Import NdArray Cv2 Rand Py Shape.
Context `{FloatKernels}.

Lemma init_keeps_default_augmentation fs base_path force bs
    (data_config : gmap string cfgval) drv :
  data_config !! "augmentation" = None ->
  result (__init__ fs base_path force bs data_config) = Ok drv ->
  config drv !! "augmentation" = Some (CDict default_augmentation).
Proof.
  intros Hnone Hinit. rewrite (init_config _ _ _ _ _ _ Hinit). unfold Py.update.
  rewrite lookup_union_r by exact Hnone. reflexivity.
Qed.

Lemma default_floor_reached (h w : Z) :
  320 <= h -> 320 <= w ->
  (Py.max (inject_Z 480 / inject_Z (Z.min h w)) (7 # 10) <= 15 # 10)%Q.
Proof.
  intros Hh Hw. unfold Py.max.
  destruct (Qlt_le_dec _ _); [unfold Qle; simpl; lia|].
  apply Qle_shift_div_r; [unfold Qlt; simpl; lia|].
  unfold Qle. simpl. lia.
Qed.

Lemma default_gamma_ready (d : draws) :
  unit_interval (u_gamma d) -> gamma_ready (VList [3 # 10; 2 # 1]%Q) d.
Proof.
  intros Hu. right. exists (3 # 10)%Q, (2 # 1)%Q, []. split; [reflexivity|].
  intros Hz.
  destruct (uniform_between (3 # 10) (2 # 1) (u_gamma d)) as [Hlow _];
    [unfold Qle; simpl; lia|exact Hu|].
  rewrite Hz in Hlow. revert Hlow. unfold Qle. simpl. lia.
Qed.

(** X6.  A driver constructed without an [augmentation] argument keeps the
    default entry, and for every image of at least 320 rows and 320 columns,
    with the two [random()] values below one as the generator gives them,
    the augmentation of the training format succeeds and hands on three
    arrays of 480 rows and 480 columns. *)
Theorem default_augmentation_yields_480 (fs : gmap string node) (base_path : string)
    (force_preprocessing : bool) (bs : Z) (data_config : gmap string cfgval)
    (drv : SynthiaCityscapes) (s : sample) (d : draws) (h w : Z) :
  data_config !! "augmentation" = None ->
  result (__init__ fs base_path force_preprocessing bs data_config) = Ok drv ->
  sample_shape h w s -> 320 <= h -> 320 <= w ->
  unit_interval (u_scale d) -> unit_interval (u_gamma d) ->
  config drv !! "augmentation" = Some (CDict default_augmentation) /\
  exists a',
    augment drv d (s_rgb s, s_depth s, Labels.remap_labels (s_labels s)) = Ok a' /\
    aligned 480 480 a'.
Proof.
  intros Hnone Hinit Hs Hh Hw Hus Hug.
  pose proof (init_keeps_default_augmentation _ _ _ _ _ _ Hnone Hinit) as Hcfg.
  split; [exact Hcfg|].
  apply (augment_returns drv d h w 480).
  - exists default_augmentation, (7 # 10)%Q, (15 # 10)%Q, [],
      (VBool false), (VBool true), (VList [3 # 10; 2 # 1]%Q).
    split; [exact Hcfg|].
    do 5 (split; [vm_compute; reflexivity|]).
    do 3 (split; [lia|]).
    split; [now apply default_floor_reached|].
    split; [exact Hus|]. now apply default_gamma_ready.
  - apply aligned_elim in Hs as (Hr & Hdp & Hl).
    apply aligned_intro; [exact Hr|exact Hdp|].
    rewrite remap_labels_pointwise. now apply has_shape_map.
Qed.

End DefaultConfiguration.

Lemma default_augmentation_yields_480_witness :
  exists drv a',
    result (__init__ Demo.disk "/data" false 1 ∅) = Ok drv /\
    @augment Demo.kernels drv Demo.halves
       (s_rgb (Demo.frame 320 400), s_depth (Demo.frame 320 400),
        Labels.remap_labels (s_labels (Demo.frame 320 400))) = Ok a' /\
    Shape.aligned 480 480 a'.
Proof.
  destruct (result (__init__ Demo.disk "/data" false 1 ∅)) as [drv|e] eqn:Hinit;
    [|vm_compute in Hinit; discriminate].
  assert (Hu : Rand.unit_interval (1 # 2)) by (split; vm_compute; [discriminate|reflexivity]).
  destruct (@default_augmentation_yields_480 Demo.kernels Demo.disk "/data" false 1 ∅ drv
              (Demo.frame 320 400) Demo.halves 320 400
              (lookup_empty _) Hinit (demo_frame_shape 320 400 ltac:(lia) ltac:(lia))
              ltac:(lia) ltac:(lia) Hu Hu)
    as (_ & a' & Ha & Hshape).
  exists drv, a'. split; [reflexivity|]. split; [exact Ha|exact Hshape].
Defined.

(** ** The final crop on its own *)

Section FinalCrop.
Import NdArray Cv2 Rand Py Shape.
Context `{FloatKernels}.

Lemma floor16_of_multiple (n : Z) : (16 | n) -> floor16 n = n.
Proof. intros [q ->]. unfold floor16. rewrite Z.mod_mul by lia. lia. Qed.

Lemma floor16_small (n : Z) : 0 <= n < 16 -> floor16 n = 0.
Proof. intros Hn. unfold floor16. rewrite Z.mod_small by lia. lia. Qed.

Lemma leading_no_rows {A : Type} (w_c : Z) (a : list (list A)) : leading 0 w_c a = [].
Proof.
  unfold leading, slice2, py_slice, norm_index. cbn [Z.ltb Z.compare].
  rewrite Z.min_l by lia. reflexivity.
Qed.

(** X7.  In the evaluation format an image whose height and width are
    multiples of 16 comes back whole, labels remapped and depth with its
    channel axis; an image of fewer than 16 rows comes back with no rows at
    all in any modality, without an error. *)
Theorem final_crop_keeps_multiples_and_empties_small
    (self : SynthiaCityscapes) (s : sample) (d : draws) (h w : Z) :
  sample_shape h w s ->
  ((16 | h) -> (16 | w) ->
   _get_data self s false d =
     Ok (Blob (s_rgb s) (expand_dims (s_depth s))
              (Labels2 (Labels.remap_labels (s_labels s))))) /\
  (h < 16 ->
   _get_data self s false d = Ok (Blob [] [] (Labels2 []))).
Proof.
  intros Hs. apply aligned_elim in Hs as (Hr & Hdp & Hl).
  assert (Hl' : has_shape h w (Labels.remap_labels (s_labels s))).
  { rewrite remap_labels_pointwise. now apply has_shape_map. }
  destruct (expand_dims_shape h w _ Hdp) as [Hd _].
  assert (Hforce : _get_data self s false d =
            Ok (Blob (leading (floor16 h) (floor16 w) (s_rgb s))
                     (leading (floor16 h) (floor16 w) (expand_dims (s_depth s)))
                     (Labels2 (leading (floor16 h) (floor16 w)
                                 (Labels.remap_labels (s_labels s)))))).
  { unfold _get_data. cbn [mbind res_bind].
    now rewrite (force_multiple_of_16_leading h w). }
  split.
  - intros Hh Hw. rewrite Hforce.
    rewrite (floor16_of_multiple h Hh), (floor16_of_multiple w Hw).
    now rewrite !(leading_full h w).
  - intros Hsmall. rewrite Hforce.
    pose proof (has_shape_nonneg _ _ _ Hr) as Hpos.
    rewrite (floor16_small h) by lia. now rewrite !leading_no_rows.
Qed.

End FinalCrop.

Lemma final_crop_keeps_multiples_and_empties_small_witness :
  @_get_data Demo.kernels Demo.default_driver (Demo.frame 32 48) false Demo.halves
    = Ok (Blob (s_rgb (Demo.frame 32 48))
               (expand_dims (s_depth (Demo.frame 32 48)))
               (Labels2 (Labels.remap_labels (s_labels (Demo.frame 32 48))))) /\
  @_get_data Demo.kernels Demo.default_driver (Demo.frame 15 48) false Demo.halves
    = Ok (Blob [] [] (Labels2 [])).
Proof.
  split.
  - apply (@final_crop_keeps_multiples_and_empties_small Demo.kernels Demo.default_driver
             (Demo.frame 32 48) Demo.halves 32 48
             (demo_frame_shape 32 48 ltac:(lia) ltac:(lia))).
    + exists 2. lia.
    + exists 3. lia.
  - apply (@final_crop_keeps_multiples_and_empties_small Demo.kernels Demo.default_driver
             (Demo.frame 15 48) Demo.halves 15 48
             (demo_frame_shape 15 48 ltac:(lia) ltac:(lia))).
    lia.
Defined.

(** ** The constructor and a split file that is missing or incomplete *)

Section ConstructorErrors.

Lemma getitem_absent (fields : list (string * json)) key :
  Forall (fun kv => fst kv <> key) fields ->
  Json.getitem (JObj fields) key = Raise (KeyError key).
Proof.
  intros Hno. unfold Json.getitem.
  assert (Hfind : list_find (fun kv : string * json => fst kv = key) fields = None)
    by now apply list_find_None.
  now rewrite Hfind.
Qed.


(** X9.  A split file that holds a JSON object without the key [trainset]
    makes the constructor raise the key error of [trainset]; one that has a
    list under [trainset] and no [testset] raises the key error of
    [testset]; a split file that holds a JSON list raises a type error. *)
Theorem init_incomplete_split_raises (fs : gmap string node) (base_path : string)
    (force_preprocessing : bool) (bs : Z) (data_config : gmap string cfgval)
    (split : json) :
  is_Some (fs !! base_path) ->
  fs !! Path.join (Path.join base_path ["RAND_CITYSCAPES"]) ["train_test_split.json"]
    = Some (FileJson split) ->
  (forall fields, split = JObj fields ->
     Forall (fun kv => fst kv <> "trainset") fields ->
     result (__init__ fs base_path force_preprocessing bs data_config)
       = Raise (KeyError "trainset")) /\
  (forall fields tr, split = JObj fields ->
     Json.getitem split "trainset" = Ok (JList tr) ->
     Forall (fun kv => fst kv <> "testset") fields ->
     result (__init__ fs base_path force_preprocessing bs data_config)
       = Raise (KeyError "testset")) /\
  (forall l, split = JList l ->
     result (__init__ fs base_path force_preprocessing bs data_config) = Raise TypeError).
Proof.
  intros Hroot Hfile.
  assert (Hrun : result (__init__ fs base_path force_preprocessing bs data_config) =
            (tr ← Json.getitem split "trainset";
             tr ← Json.iterate tr;
             te ← Json.getitem split "testset";
             te ← Json.iterate te;
             Ok (Driver (Py.update default_config data_config)
                   (Path.join base_path ["RAND_CITYSCAPES"])
                   (DataBaseclass__init__ (map Descriptor tr) (map Descriptor te) bs
                      ["rgb"; "depth"; "labels"] Labels.LABELINFO)))).
  { unfold __init__. rewrite (exists_true _ _ Hroot). cbn [negb result].
    unfold Fs.json_load. now rewrite Hfile. }
  rewrite Hrun. split; [|split].
  - intros fields -> Hno. now rewrite (getitem_absent fields "trainset" Hno).
  - intros fields tr -> Htr Hno. rewrite Htr. cbn [mbind res_bind Json.iterate].
    now rewrite (getitem_absent fields "testset" Hno).
  - intros l ->. reflexivity.
Qed.

End ConstructorErrors.


Lemma init_incomplete_split_raises_witness :
  result (__init__ (Cases.disk_with Cases.split_without_testset) "/data" false 1 ∅)
    = Raise (KeyError "testset").
Proof.
  assert (Hroot : is_Some (Cases.disk_with Cases.split_without_testset !! "/data"))
    by (eexists; vm_compute; reflexivity).
  assert (Hfile : Cases.disk_with Cases.split_without_testset
                    !! Path.join (Path.join "/data" ["RAND_CITYSCAPES"])
                                 ["train_test_split.json"]
                  = Some (FileJson Cases.split_without_testset))
    by (vm_compute; reflexivity).
  destruct (init_incomplete_split_raises (Cases.disk_with Cases.split_without_testset)
              "/data" false 1 ∅ Cases.split_without_testset Hroot Hfile)
    as (_ & Htest & _).
  apply (Htest [("trainset", JList [JStr "a"])] [JStr "a"]); [reflexivity|reflexivity|].
  repeat constructor. discriminate.
Defined.

(** ** A split that is created *)

Section CreatedSplit.
Import Path Fs.

(** X10.  Whenever [_preprocessing] reports that it creates a split and
    returns, the JSON object with the keys [trainset] and [testset] is at
    [/train_test_split.json] whatever the dataset root and the sequence are,
    and the path under the root that the method tested still holds nothing,
    unless that path is [/train_test_split.json] itself. *)
Theorem created_split_lands_at_root (base_path : string) (fs fs' : gmap string node)
    (sequence : string) (perm : list nat) :
  _preprocessing base_path fs sequence perm
    = Outcome ["INFO: Creating Train-Test-Split"] (Ok fs') ->
  join base_path [sequence; "train_test_split.json"] <> "/train_test_split.json" ->
  (exists trainset testset,
     fs' !! "/train_test_split.json"
       = Some (FileJson (split_document trainset testset))) /\
  fs' !! join base_path [sequence; "train_test_split.json"] = None.
Proof.
  unfold _preprocessing. intros Hrun Hne.
  destruct (convert_directions _ _ _ _) as [fs1|e]; [|discriminate].
  destruct (exists_ fs1 (join base_path [sequence; "train_test_split.json"])) eqn:Ex;
    [discriminate|].
  injection Hrun as Hrun.
  apply bind_ok in Hrun as (names & _ & Hrun).
  apply bind_ok in Hrun as ([trainset testset] & _ & Hrun).
  apply write_inserts in Hrun. subst fs'. split.
  - exists trainset, testset. apply lookup_insert_eq.
  - rewrite lookup_insert_ne by (intros E; apply Hne; symmetry; exact E).
    unfold exists_ in Ex. apply bool_decide_eq_false in Ex.
    destruct (fs1 !! _) eqn:E; [|reflexivity]. exfalso. apply Ex. now eexists.
Qed.

End CreatedSplit.

Lemma created_split_lands_at_root_witness :
  (exists trainset testset,
     Demo.preprocessed !! "/train_test_split.json"
       = Some (FileJson (split_document trainset testset))) /\
  Demo.preprocessed !! Path.join "/data" ["RAND_CITYSCAPES"; "train_test_split.json"] = None.
Proof.
  assert (Hrun : _preprocessing "/data" Demo.raw_disk "RAND_CITYSCAPES" Demo.shuffle
                 = Outcome ["INFO: Creating Train-Test-Split"] (Ok Demo.preprocessed))
    by exact eq_refl.
  assert (Hne : Path.join "/data" ["RAND_CITYSCAPES"; "train_test_split.json"]
                <> "/train_test_split.json") by (vm_compute; discriminate).
  exact (created_split_lands_at_root "/data" Demo.raw_disk Demo.preprocessed
           "RAND_CITYSCAPES" Demo.shuffle Hrun Hne).
Defined.

(** * The training script *)

(** ** Strings and paths *)

Section StringFacts.
Import Path.

Lemma append_cons (x : ascii) (a b : string) : String x a +:+ b = String x (a +:+ b).
Proof. reflexivity. Qed.

Lemma append_assoc_string (a b c : string) : (a +:+ b) +:+ c = a +:+ (b +:+ c).
Proof.
  induction a as [|x a IH]; [reflexivity|]. rewrite !append_cons. now rewrite IH.
Qed.

Lemma append_empty_r (a : string) : a +:+ "" = a.
Proof. induction a as [|x a IH]; [reflexivity|]. rewrite append_cons. now rewrite IH. Qed.

Lemma append_inv_head (a b c : string) : a +:+ b = a +:+ c -> b = c.
Proof.
  induction a as [|x a IH]; [auto|]. rewrite !append_cons. intros [= E]. auto.
Qed.

Lemma no_slash_no_ancestors seen t :
  has_char slash t = false -> ancestors_from seen t = [].
Proof.
  revert seen. induction t as [|c t IH]; intros seen Ht; [reflexivity|].
  simpl in *. apply orb_false_iff in Ht as [Hc Ht].
  rewrite Hc. cbn [andb]. now apply IH.
Qed.

Lemma last_ancestor seen q t :
  seen +:+ q <> "" -> has_char slash t = false ->
  last (ancestors_from seen (q +:+ "/" +:+ t)) = Some (seen +:+ q).
Proof.
  revert seen. induction q as [|c q IH]; intros seen Hne Ht.
  - rewrite append_empty_r in *.
    change ("" +:+ "/" +:+ t) with (String slash t). cbn [ancestors_from].
    change (Ascii.eqb slash slash) with true. cbn [andb].
    rewrite (no_slash_no_ancestors _ t Ht).
    destruct (bool_decide (seen = "")) eqn:E; [apply bool_decide_eq_true in E; contradiction|].
    reflexivity.
  - rewrite append_cons. cbn [ancestors_from].
    assert (Hrec : last (ancestors_from (seen +:+ String c "") (q +:+ "/" +:+ t))
                   = Some (seen +:+ String c q)).
    { rewrite (IH (seen +:+ String c "")); [| |exact Ht].
      - now rewrite append_assoc_string.
      - rewrite append_assoc_string. destruct seen; discriminate. }
    destruct (Ascii.eqb c slash && negb (bool_decide (seen = ""))); [|exact Hrec].
    destruct (ancestors_from (seen +:+ String c "") (q +:+ "/" +:+ t)) as [|x l];
      [discriminate|].
    now rewrite last_cons_cons.
Qed.

(** [path.dirname] of a path that ends in a slash-free last component. *)
Lemma dirname_append (p t : string) :
  p <> "" -> has_char slash t = false -> dirname (p +:+ "/" +:+ t) = p.
Proof.
  intros Hp Ht. unfold dirname, ancestors.
  now rewrite (last_ancestor "" p t Hp Ht).
Qed.

Lemma has_char_append c (a b : string) :
  has_char c (a +:+ b) = has_char c a || has_char c b.
Proof.
  induction a as [|x a IH]; [reflexivity|]. rewrite append_cons. cbn [has_char].
  rewrite IH. now rewrite orb_assoc.
Qed.

Lemma pretty_N_go_no_slash (x : N) (s : string) :
  has_char slash s = false -> has_char slash (pretty_N_go x s) = false.
Proof.
  revert s. induction (N.lt_wf_0 x) as [x _ IH]. intros s Hs.
  assert (Hx : (x = 0 \/ 0 < x)%N) by lia. destruct Hx as [->|Hx].
  - now rewrite pretty_N_go_0.
  - rewrite pretty_N_go_step by exact Hx. apply IH; [now apply N.div_lt|].
    cbn [has_char]. rewrite Hs. unfold pretty_N_char.
    repeat case_match; reflexivity.
Qed.

(** A decimal numeral holds no slash. *)
Lemma pretty_Z_no_slash (z : Z) : has_char slash (pretty z) = false.
Proof.
  assert (HN : forall n : N, has_char slash (pretty n) = false).
  { intros n. unfold pretty, pretty_N. case_decide; [reflexivity|].
    now apply pretty_N_go_no_slash. }
  destruct z as [|p|p]; [reflexivity|apply (HN (Npos p))|].
  unfold pretty, pretty_Z. rewrite has_char_append. cbn [has_char].
  change (has_char slash (pretty (Npos p)) = false). apply HN.
Qed.

End StringFacts.

(** ** Output directories *)

Section CreateDirectories.
Import Path Training.

Lemma lower_char_idempotent (c : ascii) : lower_char (lower_char c) = lower_char c.
Proof. destruct c as [[] [] [] [] [] [] [] []]; reflexivity. Qed.

Lemma lower_idempotent (s : string) : lower (lower s) = lower s.
Proof.
  induction s as [|c s IH]; [reflexivity|]. cbn [lower].
  now rewrite lower_char_idempotent, IH.
Qed.

Lemma root_of_lower (prefix prefix' : string) :
  lower prefix' = lower prefix -> root_of prefix' = root_of prefix.
Proof. intros E. unfold root_of. now rewrite E. Qed.

Lemma root_of_proper (prefix : string) : root_of prefix <> "" /\ root_of prefix <> "/".
Proof. unfold root_of. split; intros E; vm_compute in E; discriminate E. Qed.

Lemma output_dir_parent prefix run_id :
  dirname (output_dir_of prefix run_id) = root_of prefix.
Proof.
  unfold output_dir_of. apply dirname_append; [apply root_of_proper|].
  apply pretty_Z_no_slash.
Qed.

Lemma output_dir_not_root prefix run_id : output_dir_of prefix run_id <> root_of prefix.
Proof.
  unfold output_dir_of. intros E.
  rewrite <- (append_empty_r (root_of prefix)) in E at 2.
  apply append_inv_head in E. discriminate E.
Qed.

Lemma assoc_put_eq key v fields : assoc key (put key v fields) = Some v.
Proof.
  induction fields as [|[k v'] rest IH]; cbn [put assoc].
  - now rewrite bool_decide_eq_true_2.
  - destruct (bool_decide (k = key)) eqn:E; cbn [assoc]; rewrite E; [reflexivity|exact IH].
Qed.

Lemma assoc_put_ne key key' v fields :
  key' <> key -> assoc key' (put key v fields) = assoc key' fields.
Proof.
  intros Hne. induction fields as [|[k v'] rest IH]; cbn [put assoc].
  - now rewrite bool_decide_eq_false_2 by congruence.
  - destruct (bool_decide (k = key)) eqn:E; cbn [assoc].
    + apply bool_decide_eq_true in E. subst k.
      now rewrite !bool_decide_eq_false_2 by congruence.
    + destruct (bool_decide (k = key')); [reflexivity|exact IH].
Qed.

Lemma mkdir_inv (fs fs' : gmap string node) p :
  Os.mkdir fs p = Ok fs' ->
  fs !! p = None /\ fs' = <[p := Dir]> fs /\
  (dirname p <> "" -> dirname p <> "/" -> fs !! dirname p = Some Dir).
Proof.
  unfold Os.mkdir. destruct (Fs.exists_ fs p) eqn:Ex; [discriminate|].
  assert (Hnone : fs !! p = None).
  { unfold Fs.exists_ in Ex. apply bool_decide_eq_false in Ex.
    destruct (fs !! p); [exfalso; apply Ex; now eexists|reflexivity]. }
  destruct (bool_decide (dirname p = "")) eqn:E1.
  { apply bool_decide_eq_true in E1. cbn [orb]. intros [= <-].
    split; [exact Hnone|]. split; [reflexivity|]. intros Hne. contradiction. }
  destruct (bool_decide (dirname p = "/")) eqn:E2.
  { apply bool_decide_eq_true in E2. cbn [orb]. intros [= <-].
    split; [exact Hnone|]. split; [reflexivity|]. intros _ Hne. contradiction. }
  cbn [orb]. destruct (fs !! dirname p) as [[| | |]|]; try discriminate.
  intros [= <-]. split; [exact Hnone|]. split; [reflexivity|]. reflexivity.
Qed.

Lemma mkdir_in_directory (fs : gmap string node) p :
  fs !! p = None -> dirname p <> "" -> dirname p <> "/" -> fs !! dirname p = Some Dir ->
  Os.mkdir fs p = Ok (<[p := Dir]> fs).
Proof.
  intros Hnone H1 H2 Hparent. unfold Os.mkdir.
  rewrite (exists_false _ _ Hnone).
  rewrite !bool_decide_eq_false_2 by assumption. cbn [orb]. now rewrite Hparent.
Qed.

(** X11.  With its root directory in place, a run directory that does not
    exist yet and an [info] whose [tensorflow] and [logdirs] entries, if
    any, are a dictionary and a list, [create_directories] returns
    [/tmp/sacred/<prefix in lower case>_train/<run id>], creates that
    directory and nothing else, appends it to [logdirs] behind the entries
    already there, and leaves every other key of [info] alone. *)
Theorem create_directories_appends_logdir (prefix : string) (run_id : Z) (w : world) :
  files w !! root_of prefix = Some Dir ->
  files w !! output_dir_of prefix run_id = None ->
  logdirs_usable (info w) ->
  exists info',
    create_directories prefix run_id w =
      (World (<[output_dir_of prefix run_id := Dir]> (files w)) info',
       inl (output_dir_of prefix run_id)) /\
    output_dir_of prefix run_id
      = "/tmp/sacred/" +:+ lower prefix +:+ "_train" +:+ "/" +:+ pretty run_id /\
    logdirs info' = logdirs (info w) ++ [JStr (output_dir_of prefix run_id)] /\
    (forall key, key <> "tensorflow" -> assoc key info' = assoc key (info w)).
Proof.
  intros Hroot Hnew Husable.
  destruct (root_of_proper prefix) as [Hr1 Hr2].
  assert (Hmk : Os.mkdir (files w) (output_dir_of prefix run_id)
                = Ok (<[output_dir_of prefix run_id := Dir]> (files w))).
  { apply mkdir_in_directory; rewrite ?output_dir_parent; assumption. }
  unfold create_directories.
  rewrite (exists_true _ _ (ex_intro _ Dir Hroot)). rewrite Hmk.
  unfold append_logdir, logdirs. unfold logdirs_usable in Husable.
  destruct (assoc "tensorflow" (info w)) as [tf|] eqn:Etf; cbn [default from_option id].
  - destruct (Husable tf eq_refl) as (fields & -> & Hld).
    destruct (assoc "logdirs" fields) as [ld|] eqn:Eld; cbn [default from_option id].
    + destruct (Hld ld eq_refl) as (l & ->).
      eexists. split; [reflexivity|]. split.
      { unfold output_dir_of, root_of. now rewrite !append_assoc_string. }
      split; [now rewrite !assoc_put_eq|].
      intros key Hkey. now apply assoc_put_ne.
    + eexists. split; [reflexivity|]. split.
      { unfold output_dir_of, root_of. now rewrite !append_assoc_string. }
      split; [now rewrite !assoc_put_eq|].
      intros key Hkey. now apply assoc_put_ne.
  - eexists. split; [reflexivity|]. split.
    { unfold output_dir_of, root_of. now rewrite !append_assoc_string. }
    split; [now rewrite !assoc_put_eq|].
    intros key Hkey. now apply assoc_put_ne.
Qed.

(** X12.  [create_directories] never hands out a directory twice.  After
    a call that returned, a second call with the same run id and a prefix
    that differs at most in the case of its letters raises the file-exists
    error of the run directory and leaves the file system and [info] as the
    first call left them; and two run ids of one prefix never share a
    directory. *)
Theorem create_directories_never_reuses (prefix prefix' : string) (run_id : Z)
    (w w1 : world) (dir : string) :
  create_directories prefix run_id w = (w1, inl dir) ->
  lower prefix' = lower prefix ->
  dir = output_dir_of prefix run_id /\
  files w1 !! dir = Some Dir /\
  create_directories prefix' run_id w1 = (w1, inr (Builtin (IOError 17 "File exists" dir))) /\
  (forall other, output_dir_of prefix other = dir -> other = run_id).
Proof.
  intros Hrun Hcase. unfold create_directories in Hrun.
  destruct (if Fs.exists_ (files w) (root_of prefix) then (files w, None)
            else Os.makedirs (files w) (root_of prefix)) as [fs1 [e|]]; [discriminate|].
  destruct (Os.mkdir fs1 (output_dir_of prefix run_id)) as [fs2|e] eqn:Hmk; [|discriminate].
  destruct (append_logdir (info w) (output_dir_of prefix run_id)) as [info' [e|]];
    [discriminate|].
  injection Hrun as <- <-.
  destruct (root_of_proper prefix) as [Hr1 Hr2].
  apply mkdir_inv in Hmk as (_ & -> & Hparent).
  rewrite output_dir_parent in Hparent. specialize (Hparent Hr1 Hr2).
  split; [reflexivity|]. cbn [files info].
  split; [apply lookup_insert_eq|]. split.
  - unfold create_directories. cbn [files info].
    rewrite (root_of_lower prefix prefix' Hcase).
    assert (Hroot : (<[output_dir_of prefix run_id := Dir]> fs1) !! root_of prefix = Some Dir).
    { rewrite lookup_insert_ne by apply output_dir_not_root. exact Hparent. }
    rewrite (exists_true _ _ (ex_intro _ Dir Hroot)).
    assert (Hout : output_dir_of prefix' run_id = output_dir_of prefix run_id).
    { unfold output_dir_of. now rewrite (root_of_lower prefix prefix' Hcase). }
    rewrite Hout. unfold Os.mkdir.
    rewrite (exists_true _ (output_dir_of prefix run_id));
      [reflexivity|eexists; apply lookup_insert_eq].
  - intros other Hother. unfold output_dir_of in Hother.
    apply append_inv_head in Hother. apply append_inv_head in Hother.
    now apply (inj pretty) in Hother.
Qed.

End CreateDirectories.

Lemma create_directories_appends_logdir_witness :
  exists info',
    Training.create_directories "FCN" 8 Cases.after_first_run =
      (Training.World (<["/tmp/sacred/fcn_train/8" := Dir]>
                         (Training.files Cases.after_first_run)) info',
       inl "/tmp/sacred/fcn_train/8") /\
    Training.logdirs info'
      = [JStr "/tmp/sacred/fcn_train/7"; JStr "/tmp/sacred/fcn_train/8"].
Proof.
  assert (Hroot : Training.files Cases.after_first_run !! Training.root_of "FCN" = Some Dir)
    by (vm_compute; reflexivity).
  assert (Hnew : Training.files Cases.after_first_run !! Training.output_dir_of "FCN" 8 = None)
    by (vm_compute; reflexivity).
  assert (Husable : Training.logdirs_usable (Training.info Cases.after_first_run)).
  { intros tf Htf. vm_compute in Htf. injection Htf as <-.
    eexists. split; [reflexivity|]. intros ld Hld.
    cbn in Hld. injection Hld as <-. eexists. reflexivity. }
  destruct (create_directories_appends_logdir "FCN" 8 Cases.after_first_run
              Hroot Hnew Husable) as (info' & Hrun & _ & Hlog & _).
  exists info'. split; [exact Hrun|exact Hlog].
Defined.

Lemma create_directories_never_reuses_witness :
  Training.create_directories "fcn" 7 Cases.after_first_run
    = (Cases.after_first_run,
       inr (Builtin (IOError 17 "File exists" "/tmp/sacred/fcn_train/7"))).
Proof.
  assert (Hrun : Training.create_directories "FCN" 7 Cases.fresh_world
                 = (Cases.after_first_run, inl "/tmp/sacred/fcn_train/7"))
    by exact eq_refl.
  assert (Hcase : Training.lower "fcn" = Training.lower "FCN") by reflexivity.
  destruct (create_directories_never_reuses "FCN" "fcn" 7 Cases.fresh_world
              Cases.after_first_run "/tmp/sacred/fcn_train/7" Hrun Hcase)
    as (_ & _ & Hagain & _).
  exact Hagain.
Defined.

(** * Loading starting weights *)

Section WeightLoading.
Import Weights.
Context {net experiment artifact options : Type}.
Variable DATA_BASEPATH : string.
Variable ExperimentData : json -> experiment + exc.
Variable get_artifact : experiment -> json -> artifact + exc.
Variable get_record : experiment -> json + exc.
Variable import_weights : net -> weights artifact -> options -> net * option exc.
Variable chill_mode : options.
Variable format : json -> string.

#[local] Abbreviation train :=
  (import_startingweights DATA_BASEPATH ExperimentData get_artifact import_weights
                          chill_mode format).
#[local] Abbreviation evaluate_one :=
  (import_weights_from_description ExperimentData get_artifact get_record import_weights).
#[local] Abbreviation evaluate_all :=
  (import_weights_into_network ExperimentData get_artifact get_record import_weights).

Lemma and_then_done (n : net) (k : net -> effect net) :
  and_then (Effect n [] None) k = k n.
Proof. unfold and_then. cbn [raised net_after printed app]. now destruct (k n). Qed.

Lemma and_then_assoc (e : effect net) (k1 k2 : net -> effect net) :
  and_then (and_then e k1) k2 = and_then e (fun n => and_then (k1 n) k2).
Proof.
  destruct e as [n out [e|]]; [reflexivity|].
  unfold and_then at 2 3. cbn [raised net_after printed].
  destruct (k1 n) as [n1 out1 [e1|]]; [reflexivity|].
  unfold and_then. cbn [raised net_after printed].
  now rewrite app_assoc.
Qed.

Lemma and_then_ext (e : effect net) (k1 k2 : net -> effect net) :
  (forall n, k1 n = k2 n) -> and_then e k1 = and_then e k2.
Proof. intros Hk. unfold and_then. destruct (raised e); [reflexivity|]. now rewrite Hk. Qed.

Lemma train_cons (x : json) (rest : list json) (n : net) :
  train (JList (x :: rest)) n = and_then (train x n) (train (JList rest)).
Proof. reflexivity. Qed.

Lemma train_app (l1 l2 : list json) (n : net) :
  train (JList (l1 ++ l2)) n = and_then (train (JList l1) n) (train (JList l2)).
Proof.
  revert n. induction l1 as [|x l1 IH]; intros n.
  - change (train (JList []) n) with (Effect n [] None : effect net).
    now rewrite and_then_done.
  - cbn [app]. rewrite !train_cons, and_then_assoc.
    apply and_then_ext. intros n'. apply IH.
Qed.

(** X13.  [import_startingweights] has no branch for a string other than
    ['washington'], a number, a boolean or [None]: it returns without
    importing anything, printing anything or raising, and so does a list made
    of such values, the empty list included. *)
Theorem unrecognised_weights_are_ignored (starting_weights : json) (l : list json)
    (n : net) :
  unrecognised starting_weights -> Forall unrecognised l ->
  train starting_weights n = Effect n [] None /\
  train (JList l) n = Effect n [] None.
Proof.
  intros Hsw Hl.
  assert (Hone : forall j m, unrecognised j -> train j m = Effect m [] None).
  { intros j m Hj. destruct j as [| | |s| |]; try reflexivity; try contradiction.
    cbn [import_startingweights]. simpl in Hj.
    now rewrite bool_decide_eq_false_2. }
  split; [now apply Hone|].
  induction Hl as [|x l Hx Hl IH]; [reflexivity|].
  now rewrite train_cons, (Hone x n Hx), and_then_done.
Qed.

(** X14.  A list of starting weights is loaded element by element in its
    order, stopping at the first exception, and lists inside the list are
    flattened: loading [l1 ++ l2] is loading [l1] and then [l2], and a list
    that starts with the list [l1] and goes on with [l2] is loaded as
    [l1 ++ l2]. *)
Theorem starting_weight_lists_flatten (l1 l2 : list json) (n : net) :
  train (JList (l1 ++ l2)) n = and_then (train (JList l1) n) (train (JList l2)) /\
  train (JList (JList l1 :: l2)) n = train (JList (l1 ++ l2)) n /\
  train (JList [JList l1; JList l2]) n = train (JList (l1 ++ l2)) n /\
  (forall e, raised (train (JList l1) n) = Some e ->
     train (JList (l1 ++ l2)) n = train (JList l1) n).
Proof.
  split; [apply train_app|]. split; [now rewrite train_cons, train_app|]. split.
  - rewrite train_cons, train_app. apply and_then_ext. intros m.
    rewrite train_cons. change (train (JList [])) with (fun m : net => Effect m [] None).
    unfold and_then. destruct (train (JList l2) m) as [m' out [e|]]; [reflexivity|].
    cbn [raised net_after printed]. now rewrite app_nil_r.
  - intros e He. rewrite train_app. unfold and_then. now rewrite He.
Qed.

Lemma has_key_absent (fields : list (string * json)) key :
  Forall (fun kv => fst kv <> key) fields -> has_key key (JObj fields) = false.
Proof.
  intros Hno. unfold has_key. apply bool_decide_eq_false.
  intros Hex. apply Exists_exists in Hex as (kv & Hin & Hkey).
  rewrite Forall_forall in Hno. now apply (Hno kv Hin).
Qed.

(** X15.  For one description that gives an experiment and no file name,
    the two loaders differ.  The training script prints its line, raises the
    key error of [filename] and imports nothing.  The evaluation script
    takes the first artifact of the experiment's record whose name contains
    [weights] and imports it with the keyword arguments it was given. *)
Theorem description_without_filename (fields : list (string * json)) (id : json)
    (previous : experiment) (record artifacts name : json) (l : list json)
    (a : artifact) (kwargs : options) (n : net) :
  Json.getitem (JObj fields) "experiment_id" = Ok id ->
  Forall (fun kv => fst kv <> "filename") fields ->
  ExperimentData id = inl previous ->
  get_record previous = inl record ->
  Json.getitem record "artifacts" = Ok artifacts ->
  Json.iterate artifacts = Ok l ->
  first_weights l = inl name ->
  get_artifact previous name = inl a ->
  train (JObj fields) n =
    Effect n ["INFO: Loading weights from experiment " +:+ format id]
           (Some (Builtin (KeyError "filename"))) /\
  evaluate_all (JObj fields) kwargs n =
    Effect (fst (import_weights n (FromArtifact a) kwargs)) []
           (snd (import_weights n (FromArtifact a) kwargs)).
Proof.
  intros Hid Hno Hexp Hrec Harts Hiter Hfirst Hart. split.
  - cbn [import_startingweights]. rewrite Hid, Hexp.
    now rewrite (getitem_absent fields "filename" Hno).
  - cbn [import_weights_into_network]. unfold import_weights_from_description.
    rewrite Hid, Hexp, (has_key_absent fields "filename" Hno). cbn [negb].
    rewrite Hrec, Harts, Hiter, Hfirst, Hart. unfold import_call.
    now destruct (import_weights n (FromArtifact a) kwargs).
Qed.

(** X16.  The search for the weights file stops at the first artifact
    whose name contains [weights]: the artifacts behind it are not looked
    at, whatever they are.  When every artifact has a name without
    [weights], and also when there is no artifact, the search ends in
    [StopIteration] and the evaluation script imports nothing. *)
Theorem first_weights_artifact_wins (before behind : list json) (a : json)
    (name : string) (fields : list (string * json)) (id : json)
    (previous : experiment) (record artifacts : json) (kwargs : options) (n : net) :
  Forall lacks_weights before ->
  Json.getitem a "name" = Ok (JStr name) ->
  is_substring "weights" name = true ->
  Json.getitem (JObj fields) "experiment_id" = Ok id ->
  Forall (fun kv => fst kv <> "filename") fields ->
  ExperimentData id = inl previous ->
  get_record previous = inl record ->
  Json.getitem record "artifacts" = Ok artifacts ->
  first_weights (before ++ a :: behind) = inl (JStr name) /\
  first_weights before = inr StopIteration /\
  (Json.iterate artifacts = Ok before ->
   evaluate_all (JObj fields) kwargs n = Effect n [] (Some StopIteration)).
Proof.
  intros Hbefore Hname Hsub Hid Hno Hexp Hrec Harts.
  assert (Hskip : forall rest, first_weights (before ++ rest) = first_weights rest).
  { intros rest. induction Hbefore as [|x before (s & Hx & Hs) _ IH]; [reflexivity|].
    cbn [app first_weights]. rewrite Hx. cbn [mentions_weights]. now rewrite Hs. }
  split.
  - rewrite Hskip. cbn [first_weights]. rewrite Hname. cbn [mentions_weights].
    now rewrite Hsub.
  - assert (Hnone : first_weights before = inr StopIteration).
    { rewrite <- (app_nil_r before). now rewrite Hskip. }
    split; [exact Hnone|]. intros Hiter.
    cbn [import_weights_into_network]. unfold import_weights_from_description.
    rewrite Hid, Hexp, (has_key_absent fields "filename" Hno). cbn [negb].
    now rewrite Hrec, Harts, Hiter, Hnone.
Qed.

(** X17.  The evaluation script does not flatten: a list inside the list
    of descriptions raises a type error before anything is imported, where
    the training script would load its elements.  A description that raises
    ends the loop: the descriptions behind it are not imported. *)
Theorem evaluation_list_is_flat (inner rest : list json) (d : json) (kwargs : options)
    (n : net) (e : exc) :
  raised (evaluate_one kwargs d n) = Some e ->
  evaluate_all (JList (JList inner :: rest)) kwargs n
    = Effect n [] (Some (Builtin TypeError)) /\
  train (JList (JList inner :: rest)) n = train (JList (inner ++ rest)) n /\
  evaluate_all (JList (d :: rest)) kwargs n = evaluate_one kwargs d n.
Proof.
  intros He. split; [reflexivity|]. split.
  - now rewrite train_cons, train_app.
  - cbn [import_weights_into_network import_each]. unfold and_then. now rewrite He.
Qed.

End WeightLoading.

Lemma unrecognised_weights_are_ignored_witness :
  Weights.import_startingweights "/data" Cases.open_experiment Cases.artifact_of
    Cases.record_imports true Cases.show (JStr "washingtn") []
    = Weights.Effect [] [] None /\
  Weights.import_startingweights "/data" Cases.open_experiment Cases.artifact_of
    Cases.record_imports true Cases.show (JList [JNum 3; JNull]) []
    = Weights.Effect [] [] None.
Proof.
  apply (unrecognised_weights_are_ignored "/data" Cases.open_experiment Cases.artifact_of
           Cases.record_imports true Cases.show (JStr "washingtn") [JNum 3; JNull] []).
  - simpl. discriminate.
  - repeat constructor.
Defined.

Lemma description_without_filename_witness :
  Weights.import_startingweights "/data" Cases.open_experiment Cases.artifact_of
    Cases.record_imports true Cases.show Cases.unnamed []
    = Weights.Effect [] ["INFO: Loading weights from experiment 12"]
        (Some (Builtin (KeyError "filename"))) /\
  Weights.import_weights_into_network Cases.open_experiment Cases.artifact_of
    Cases.record_of Cases.record_imports Cases.unnamed false []
    = Weights.Effect [Weights.FromArtifact "12/weights.npz"] [] None.
Proof.
  assert (Hno : Forall (fun kv : string * json => fst kv <> "filename")
                  [("experiment_id", JNum 12)]).
  { repeat constructor. discriminate. }
  exact (description_without_filename "/data" Cases.open_experiment Cases.artifact_of
           Cases.record_of Cases.record_imports true Cases.show
           [("experiment_id", JNum 12)] (JNum 12) 12
           (JObj [("artifacts",
                   JList [JObj [("name", JStr "log.txt")];
                          JObj [("name", JStr "weights.npz")];
                          JObj [("name", JStr "old_weights.npz")]])])
           (JList [JObj [("name", JStr "log.txt")];
                   JObj [("name", JStr "weights.npz")];
                   JObj [("name", JStr "old_weights.npz")]])
           (JStr "weights.npz")
           [JObj [("name", JStr "log.txt")];
            JObj [("name", JStr "weights.npz")];
            JObj [("name", JStr "old_weights.npz")]]
           "12/weights.npz" false []
           eq_refl Hno eq_refl eq_refl eq_refl eq_refl eq_refl eq_refl).
Defined.

Lemma first_weights_artifact_wins_witness :
  Weights.first_weights
    ([JObj [("name", JStr "log.txt")]]
       ++ JObj [("name", JStr "weights.npz")] :: [JNum 0])
    = inl (JStr "weights.npz") /\
  Weights.first_weights [JObj [("name", JStr "log.txt")]] = inr StopIteration.
Proof.
  assert (Hbefore : Forall Weights.lacks_weights [JObj [("name", JStr "log.txt")]]).
  { repeat constructor. exists "log.txt". split; reflexivity. }
  assert (Hno : Forall (fun kv : string * json => fst kv <> "filename")
                  [("experiment_id", JNum 12)]).
  { repeat constructor. discriminate. }
  destruct (first_weights_artifact_wins Cases.open_experiment Cases.artifact_of
              Cases.record_of Cases.record_imports
              [JObj [("name", JStr "log.txt")]] [JNum 0]
              (JObj [("name", JStr "weights.npz")]) "weights.npz"
              [("experiment_id", JNum 12)] (JNum 12) 12
              (JObj [("artifacts",
                      JList [JObj [("name", JStr "log.txt")];
                             JObj [("name", JStr "weights.npz")];
                             JObj [("name", JStr "old_weights.npz")]])])
              (JList [JObj [("name", JStr "log.txt")];
                      JObj [("name", JStr "weights.npz")];
                      JObj [("name", JStr "old_weights.npz")]])
              false []
              Hbefore eq_refl eq_refl eq_refl Hno eq_refl eq_refl eq_refl)
    as (Hfirst & Hnone & _).
  split; [exact Hfirst|exact Hnone].
Defined.

Lemma evaluation_list_is_flat_witness :
  Weights.import_weights_into_network Cases.open_experiment Cases.artifact_of
    Cases.record_of Cases.record_imports (JList [JList [Cases.named]; Cases.named]) false []
    = Weights.Effect [] [] (Some (Builtin TypeError)) /\
  Weights.import_startingweights "/data" Cases.open_experiment Cases.artifact_of
    Cases.record_imports true Cases.show (JList [JList [Cases.named]; Cases.named]) []
    = Weights.import_startingweights "/data" Cases.open_experiment Cases.artifact_of
        Cases.record_imports true Cases.show (JList ([Cases.named] ++ [Cases.named])) [].
Proof.
  assert (He : Weights.raised
                 (Weights.import_weights_from_description Cases.open_experiment
                    Cases.artifact_of Cases.record_of Cases.record_imports false
                    (JStr "x") []) = Some (Builtin TypeError)) by reflexivity.
  destruct (evaluation_list_is_flat "/data" Cases.open_experiment Cases.artifact_of
              Cases.record_of Cases.record_imports true Cases.show
              [Cases.named] [Cases.named] (JStr "x") false [] (Builtin TypeError) He)
    as (Hflat & Htrain & _).
  split; [exact Hflat|exact Htrain].
Defined.

(** * Converted labels and the loader *)

Section ConvertedLabels.
Import Path Fs SampleFiles.

Lemma ends_with_slash_append (p s : string) :
  s <> "" -> ends_with_slash (p +:+ s) = ends_with_slash s.
Proof.
  intros Hs. induction p as [|c p IH]; [reflexivity|].
  rewrite append_cons. cbn [ends_with_slash].
  destruct (p +:+ s) as [|c' r] eqn:E; [|exact IH].
  destruct p; [|discriminate]. simpl in E. contradiction.
Qed.

Lemma no_slash_no_end (s : string) : has_char slash s = false -> ends_with_slash s = false.
Proof.
  induction s as [|c s IH]; [reflexivity|]. cbn [has_char ends_with_slash].
  intros Hc. apply orb_false_iff in Hc as [Hc Hs].
  destruct s; [exact Hc|now apply IH].
Qed.

Lemma no_slash_no_start (s : string) :
  has_char slash s = false -> starts_with_slash s = false.
Proof.
  destruct s as [|c s]; [reflexivity|]. cbn [has_char starts_with_slash].
  intros Hc. now apply orb_false_iff in Hc as [Hc _].
Qed.

(** [path.join] of a non-empty path that does not end in a slash with a
    relative component puts one slash between the two. *)
Lemma join2_plain (p b : string) :
  p <> "" -> ends_with_slash p = false -> starts_with_slash b = false ->
  join2 p b = p +:+ "/" +:+ b.
Proof.
  intros Hp He Hb. unfold join2. rewrite Hb, He.
  now rewrite bool_decide_eq_false_2.
Qed.

Lemma sequence_root (base_path : string) :
  join base_path ["RAND_CITYSCAPES"] <> "" /\
  ends_with_slash (join base_path ["RAND_CITYSCAPES"]) = false.
Proof.
  unfold join. cbn [fold_left]. unfold join2.
  change (starts_with_slash "RAND_CITYSCAPES") with false. cbv iota.
  destruct (bool_decide (base_path = "") || ends_with_slash base_path).
  - split; [destruct base_path; discriminate|].
    now rewrite ends_with_slash_append.
  - split; [destruct base_path; discriminate|].
    now rewrite ends_with_slash_append.
Qed.

Lemma rev_app_append (a acc : string) : String.rev_app a acc = String.rev a +:+ acc.
Proof.
  unfold String.rev. revert acc. induction a as [|c a IH]; intros acc; [reflexivity|].
  cbn [String.rev_app]. rewrite (IH (String c acc)), (IH (String c "")).
  now rewrite append_assoc_string.
Qed.

Lemma rev_append (a b : string) : String.rev (a +:+ b) = String.rev b +:+ String.rev a.
Proof.
  induction a as [|c a IH].
  - now rewrite append_empty_r.
  - rewrite append_cons. unfold String.rev at 1 3. cbn [String.rev_app].
    rewrite !rev_app_append. fold (String.rev (a +:+ b)). rewrite IH.
    now rewrite append_assoc_string.
Qed.

Lemma has_char_rev c (s : string) : has_char c (String.rev s) = has_char c s.
Proof.
  induction s as [|x s IH]; [reflexivity|].
  change (String x s) with (String x "" +:+ s). rewrite rev_append.
  rewrite !has_char_append, IH. apply orb_comm.
Qed.

(** A string without a dot, followed by a slash, does not start with the
    reversed extension. *)
Lemma no_dot_no_extension (s t : string) :
  has_char "."%char s = false -> strip_prefix "ypn." (s +:+ String slash t) = None.
Proof.
  intros Hs.
  destruct s as [|c1 [|c2 [|c3 [|c4 s]]]]; cbn [has_char] in Hs;
    repeat (apply orb_false_iff in Hs as [? Hs]);
    rewrite ?append_cons; change ("" +:+ String slash t) with (String slash t);
    cbn [strip_prefix];
    repeat match goal with
           | |- context [Ascii.eqb ?a ?b] =>
               destruct (Ascii.eqb_spec a b); [subst|]; try reflexivity; try discriminate
           end.
Qed.

Lemma no_extension_after_slash (p stem : string) :
  has_char "."%char stem = false ->
  strip_prefix "ypn." (String.rev (p +:+ "/" +:+ stem)) = None.
Proof.
  intros Hdot. rewrite rev_append.
  change ("/" +:+ stem) with (String slash "" +:+ stem). rewrite rev_append.
  change (String.rev (String slash "")) with (String slash "").
  rewrite append_assoc_string.
  change (String slash "" +:+ String.rev p) with (String slash (String.rev p)).
  apply no_dot_no_extension. now rewrite has_char_rev.
Qed.

Lemma strip_prefix_append (a b c : string) :
  strip_prefix (a +:+ b) (a +:+ c) = strip_prefix b c.
Proof.
  induction a as [|x a IH]; [reflexivity|].
  rewrite !append_cons. cbn [strip_prefix]. now rewrite Ascii.eqb_refl.
Qed.

Lemma strip_prefix_self (a r : string) : strip_prefix a (a +:+ r) = Some r.
Proof.
  rewrite <- (append_empty_r a) at 1. rewrite strip_prefix_append.
  now destruct r.
Qed.

Lemma strip_prefix_inv (a s r : string) : strip_prefix a s = Some r -> s = a +:+ r.
Proof.
  revert s. induction a as [|x a IH]; intros s Hs.
  - simpl in Hs. now injection Hs as ->.
  - destruct s as [|y s]; [discriminate|]. cbn [strip_prefix] in Hs.
    destruct (Ascii.eqb_spec x y) as [->|]; [|discriminate].
    rewrite append_cons. f_equal. now apply IH.
Qed.

Lemma rev_involutive (s : string) : String.rev (String.rev s) = s.
Proof.
  induction s as [|x s IH]; [reflexivity|].
  change (String x s) with (String x "" +:+ s) at 1.
  rewrite rev_append, rev_append, IH. reflexivity.
Qed.

Lemma append_inv_tail (a b c : string) : a +:+ c = b +:+ c -> a = b.
Proof.
  intros E. apply (f_equal String.rev) in E. rewrite !rev_append in E.
  apply append_inv_head in E. apply (f_equal String.rev) in E.
  now rewrite !rev_involutive in E.
Qed.

Lemma stem_no_dot (filename : string) :
  has_char "."%char (before_first "."%char filename) = false.
Proof.
  induction filename as [|c f IH]; [reflexivity|].
  cbn [before_first]. destruct (Ascii.eqb c ".") eqn:E; [reflexivity|].
  cbn [has_char]. now rewrite E.
Qed.

Lemma stem_no_slash (filename : string) :
  has_char slash filename = false ->
  has_char slash (before_first "."%char filename) = false.
Proof.
  induction filename as [|c f IH]; [reflexivity|].
  cbn [has_char before_first]. intros Hs. apply orb_false_iff in Hs as [Hc Hf].
  destruct (Ascii.eqb c "."); [reflexivity|]. cbn [has_char]. now rewrite Hc, IH.
Qed.

End ConvertedLabels.

(** ** The conversion loop *)

Section ConversionLoop.
Import Path Fs SampleFiles.

Variables inpath outpath : string.
Hypothesis outpath_proper : outpath <> "" /\ ends_with_slash outpath = false.

#[local] Abbreviation stem := (before_first "."%char).
#[local] Abbreviation saved s := (outpath +:+ "/" +:+ s +:+ ".npy").

Lemma reader_inv (fs : gmap string node) p a :
  one_channel_image_reader fs p = Ok a -> fs !! p = Some (FileImage a).
Proof.
  unfold one_channel_image_reader.
  destruct (fs !! p) as [[| | |]|]; try discriminate. now intros [= ->].
Qed.

Lemma np_save_stem (fs fs' : gmap string node) s a :
  has_char slash s = false -> has_char "."%char s = false ->
  np_save fs (join outpath [s]) a = Ok fs' -> fs' = <[saved s := FileNpy a]> fs.
Proof.
  intros Hslash Hdot Hsave. destruct outpath_proper as [Hne Hend].
  unfold join in Hsave. cbn [fold_left] in Hsave.
  rewrite join2_plain in Hsave by (try assumption; now apply no_slash_no_start).
  unfold np_save in Hsave.
  rewrite (no_extension_after_slash outpath s Hdot) in Hsave.
  rewrite bool_decide_eq_false_2 in Hsave by (intros [x Hx]; discriminate).
  apply write_inserts in Hsave. subst fs'. now rewrite !append_assoc_string.
Qed.

Lemma saved_inj (s t : string) : saved s = saved t -> s = t.
Proof.
  intros E. apply append_inv_head in E. apply append_inv_head in E.
  now apply append_inv_tail in E.
Qed.

Lemma convert_files_spec (names : list string) :
  forall fsA fs3 : gmap string node,
  Forall (fun g => has_char slash g = false) names ->
  convert_files fsA inpath outpath names = Ok fs3 ->
  (forall p a, fs3 !! p = Some (FileImage a) -> fsA !! p = Some (FileImage a)) /\
  (forall q, (forall g, g ∈ names -> saved (stem g) <> q) -> fs3 !! q = fsA !! q) /\
  (forall g, g ∈ names ->
     exists src arr,
       src ∈ names /\ stem src = stem g /\
       fsA !! join inpath [src] = Some (FileImage arr) /\
       fs3 !! saved (stem g) = Some (FileNpy arr)).
Proof.
  induction names as [|f rest IH]; intros fsA fs3 Hnames Hrun.
  - simpl in Hrun. injection Hrun as <-.
    split; [auto|]. split; [auto|]. intros g Hg. now apply elem_of_nil in Hg.
  - apply Forall_cons in Hnames as [Hf Hrest].
    cbn [convert_files] in Hrun.
    apply bind_ok in Hrun as (arr_f & Hread & Hrun).
    apply bind_ok in Hrun as (fsB & Hsave & Hrun).
    apply reader_inv in Hread.
    apply np_save_stem in Hsave; [|now apply stem_no_slash|apply stem_no_dot].
    destruct (IH fsB fs3 Hrest Hrun) as (Hback & Hkeep & Hall).
    assert (Hstep : forall p a, fsB !! p = Some (FileImage a) -> fsA !! p = Some (FileImage a)).
    { intros p a Hp. subst fsB.
      destruct (decide (saved (stem f) = p)) as [<-|Hne].
      - rewrite lookup_insert_eq in Hp. discriminate.
      - now rewrite lookup_insert_ne in Hp. }
    split; [|split].
    + intros p a Hp. apply Hstep, Hback, Hp.
    + intros q Hq. rewrite Hkeep.
      * subst fsB. apply lookup_insert_ne. apply Hq. now left.
      * intros g Hg. apply Hq. now right.
    + intros g Hg.
      assert (Hlater : forall g', g' ∈ rest -> stem g' = stem g ->
                exists src arr,
                  src ∈ f :: rest /\ stem src = stem g /\
                  fsA !! join inpath [src] = Some (FileImage arr) /\
                  fs3 !! saved (stem g) = Some (FileNpy arr)).
      { intros g' Hg' Hsame. destruct (Hall g' Hg') as (src & arr & Hsrc & Hstem & Hin & Hout).
        exists src, arr. split; [now right|]. split; [congruence|].
        split; [now apply Hstep|]. now rewrite <- Hsame. }
      destruct (decide (Exists (fun g' => stem g' = stem f) rest)) as [Hex|Hno].
      * apply Exists_exists in Hex as (g' & Hg' & Hsame).
        apply elem_of_cons in Hg as [->|Hg]; [now apply (Hlater g')|].
        now apply (Hlater g).
      * apply elem_of_cons in Hg as [->|Hg]; [|now apply (Hlater g)].
        exists f, arr_f. split; [now left|]. split; [reflexivity|].
        split; [exact Hread|].
        rewrite Hkeep.
        -- subst fsB. apply lookup_insert_eq.
        -- intros g' Hg' E. apply saved_inj in E. apply Hno.
           apply Exists_exists. now exists g'.
Qed.

End ConversionLoop.

(** ** Directories around the loop *)

Section ConversionOfADirection.
Import Path Fs SampleFiles.

#[local] Abbreviation stem := (before_first "."%char).

Lemma rmtree_keeps (fs : gmap string node) dir p :
  below dir p = false -> rmtree fs dir !! p = fs !! p.
Proof.
  intros Hp. unfold rmtree. destruct (fs !! p) as [n|] eqn:E.
  - apply map_lookup_filter_Some. split; [exact E|exact Hp].
  - apply map_lookup_filter_None. left. exact E.
Qed.

Lemma rmtree_back (fs : gmap string node) dir p n :
  rmtree fs dir !! p = Some n -> fs !! p = Some n.
Proof. unfold rmtree. intros Hp. now apply map_lookup_filter_Some in Hp as [Hp _]. Qed.

Lemma makedirs_inv (fs fs' : gmap string node) dir :
  makedirs fs dir = Ok fs' ->
  (forall p n, fs !! p = Some n -> fs' !! p = Some n) /\
  (forall p a, fs' !! p = Some (FileImage a) -> fs !! p = Some (FileImage a)).
Proof.
  unfold makedirs. destruct (exists_ fs dir) eqn:Ex; [discriminate|]. intros [= <-].
  unfold exists_ in Ex. apply bool_decide_eq_false in Ex.
  assert (Hfold : forall l,
            (forall p n, fs !! p = Some n ->
               fold_right (fun d acc => if exists_ acc d then acc else <[d := Dir]> acc)
                          fs l !! p = Some n) /\
            (forall p a,
               fold_right (fun d acc => if exists_ acc d then acc else <[d := Dir]> acc)
                          fs l !! p = Some (FileImage a) -> fs !! p = Some (FileImage a))).
  { induction l as [|d l [IH1 IH2]]; [split; auto|]. cbn [fold_right].
    destruct (exists_ _ d) eqn:Ed; [split; assumption|].
    unfold exists_ in Ed. apply bool_decide_eq_false in Ed. split.
    - intros p n Hp. rewrite lookup_insert_ne; [now apply IH1|].
      intros ->. apply Ed. exists n. now apply IH1.
    - intros p a Hp. destruct (decide (d = p)) as [->|Hne].
      + rewrite lookup_insert_eq in Hp. discriminate.
      + rewrite lookup_insert_ne in Hp by exact Hne. now apply IH2. }
  destruct (Hfold (ancestors dir)) as [H1 H2]. split.
  - intros p n Hp. rewrite lookup_insert_ne; [now apply H1|].
    intros ->. apply Ex. now exists n.
  - intros p a Hp. destruct (decide (dir = p)) as [->|Hne].
    + rewrite lookup_insert_eq in Hp. discriminate.
    + rewrite lookup_insert_ne in Hp by exact Hne. now apply H2.
Qed.

Lemma listdir_spec (fs : gmap string node) dir names :
  listdir fs dir = Ok names ->
  forall g, g ∈ names <->
    g <> "" /\ has_char slash g = false /\ is_Some (fs !! (dir +:+ "/" +:+ g)).
Proof.
  unfold listdir. destruct (fs !! dir) as [[| | |]|]; try discriminate.
  intros [= <-] g. rewrite list_elem_of_omap. split.
  - intros ([p n] & Hin & Hchild). apply elem_of_map_to_list in Hin.
    cbn [fst] in Hchild. unfold child_of in Hchild.
    destruct (strip_prefix (dir +:+ "/") p) as [name|] eqn:Es; [|discriminate].
    destruct (bool_decide (name = "") || has_char slash name) eqn:Eb; [discriminate|].
    injection Hchild as ->. apply orb_false_iff in Eb as [Hne Hslash].
    apply bool_decide_eq_false in Hne. apply strip_prefix_inv in Es.
    rewrite append_assoc_string in Es. subst p.
    split; [exact Hne|]. split; [exact Hslash|]. now exists n.
  - intros (Hne & Hslash & [n Hn]). exists (dir +:+ "/" +:+ g, n).
    split; [now apply elem_of_map_to_list|]. cbn [fst]. unfold child_of.
    rewrite <- append_assoc_string, strip_prefix_self.
    rewrite bool_decide_eq_false_2 by exact Hne. now rewrite Hslash.
Qed.

End ConversionOfADirection.

(** ** The conversion of [RAND_CITYSCAPES] *)

Section ConvertedSequence.
Import Path Fs SampleFiles.

#[local] Abbreviation stem := (before_first "."%char).

Lemma join2_after (X t b : string) :
  t <> "" -> ends_with_slash t = false -> starts_with_slash b = false ->
  join2 (X +:+ t) b = X +:+ (t +:+ "/" +:+ b).
Proof.
  intros Ht He Hb. rewrite join2_plain.
  - now rewrite !append_assoc_string.
  - destruct X; [exact Ht|discriminate].
  - now rewrite ends_with_slash_append.
  - exact Hb.
Qed.

Variable X : string.
Hypothesis X_proper : X <> "" /\ ends_with_slash X = false.

#[local] Abbreviation label_dir := (X +:+ "/GT/LABELS/Stereo_Right/Omni_F").
#[local] Abbreviation array_dir := (X +:+ "/GT/LABELS_NPY/Stereo_Right/Omni_F").

Lemma label_dir_join :
  join (join2 X "GT") ["LABELS"; "Stereo_Right/Omni_" +:+ "F"] = label_dir.
Proof.
  destruct X_proper as [Hne Hend].
  unfold join. cbn [fold_left]. rewrite (join2_plain X "GT") by (assumption || reflexivity).
  rewrite (join2_after X ("/" +:+ "GT") "LABELS")
    by (vm_compute; (discriminate || reflexivity)).
  rewrite (join2_after X _ _) by (vm_compute; (discriminate || reflexivity)).
  reflexivity.
Qed.

Lemma array_dir_join :
  join (join2 X "GT") ["LABELS_NPY"; "Stereo_Right/Omni_" +:+ "F"] = array_dir.
Proof.
  destruct X_proper as [Hne Hend].
  unfold join. cbn [fold_left]. rewrite (join2_plain X "GT") by (assumption || reflexivity).
  rewrite (join2_after X ("/" +:+ "GT") "LABELS_NPY")
    by (vm_compute; (discriminate || reflexivity)).
  rewrite (join2_after X _ _) by (vm_compute; (discriminate || reflexivity)).
  reflexivity.
Qed.

Lemma label_file_join (g : string) :
  has_char slash g = false -> join label_dir [g] = label_dir +:+ "/" +:+ g.
Proof.
  intros Hg. unfold join. cbn [fold_left].
  rewrite (join2_after X _ g);
    [|discriminate|reflexivity|now apply no_slash_no_start].
  now rewrite !append_assoc_string.
Qed.

Lemma array_dir_proper : array_dir <> "" /\ ends_with_slash array_dir = false.
Proof.
  split; [destruct X; discriminate|]. now rewrite ends_with_slash_append.
Qed.

Lemma label_file_outside (g : string) : below array_dir (label_dir +:+ "/" +:+ g) = false.
Proof.
  unfold below. apply orb_false_iff. split.
  - apply bool_decide_eq_false. rewrite append_assoc_string. intros E.
    apply append_inv_head in E. vm_compute in E. discriminate.
  - apply bool_decide_eq_false. rewrite !append_assoc_string, strip_prefix_append.
    intros [x Hx]. vm_compute in Hx. discriminate.
Qed.

Lemma groundtruth_in_array_dir (s : string) :
  groundtruth_filename X s = array_dir +:+ "/" +:+ s +:+ ".npy".
Proof.
  destruct X_proper as [Hne Hend].
  unfold groundtruth_filename, modality_filename, join. cbn [fold_left].
  rewrite join2_plain by (assumption || reflexivity).
  rewrite !append_assoc_string. reflexivity.
Qed.

Lemma groundtruth_not_split (s : string) :
  "/train_test_split.json" <> groundtruth_filename X s.
Proof.
  rewrite groundtruth_in_array_dir. intros E.
  apply (f_equal String.rev) in E.
  rewrite <- !append_assoc_string, rev_append in E. vm_compute in E. discriminate.
Qed.

(** The conversion of the direction [F]: every entry of the label directory
    has its array file afterwards, with the image of an entry of the same
    identifier in it. *)
Lemma convert_direction_F (fs fs3 : gmap string node) (filename : string) :
  convert_direction fs (join2 X "GT") "F" = Ok fs3 ->
  filename <> "" -> has_char slash filename = false ->
  is_Some (fs !! (label_dir +:+ "/" +:+ filename)) ->
  exists src arr,
    has_char slash src = false /\ stem src = stem filename /\
    fs !! (label_dir +:+ "/" +:+ src) = Some (FileImage arr) /\
    fs3 !! (array_dir +:+ "/" +:+ stem filename +:+ ".npy") = Some (FileNpy arr).
Proof.
  intros Hrun Hne Hslash [n Hn]. unfold convert_direction in Hrun.
  rewrite label_dir_join, array_dir_join in Hrun.
  set (fs1 := if exists_ fs array_dir then rmtree fs array_dir else fs) in Hrun.
  assert (Hfs1 : (forall g, fs1 !! (label_dir +:+ "/" +:+ g) = fs !! (label_dir +:+ "/" +:+ g))).
  { intros g. subst fs1. destruct (exists_ fs array_dir); [|reflexivity].
    apply rmtree_keeps, label_file_outside. }
  apply bind_ok in Hrun as (fs2 & Hmk & Hrun).
  apply bind_ok in Hrun as (names & Hls & Hrun).
  destruct (makedirs_inv _ _ _ Hmk) as [Hkeep Hback].
  pose proof (listdir_spec _ _ _ Hls) as Hlisted.
  assert (Hnames : Forall (fun g => has_char slash g = false) names).
  { apply Forall_forall. intros g Hg. now apply Hlisted in Hg as (_ & Hg & _). }
  assert (Hin : filename ∈ names).
  { apply Hlisted. split; [exact Hne|]. split; [exact Hslash|].
    exists n. apply Hkeep. now rewrite Hfs1. }
  destruct (convert_files_spec label_dir array_dir array_dir_proper names fs2 fs3 Hnames Hrun)
    as (_ & _ & Hall).
  destruct (Hall filename Hin) as (src & arr & Hsrc & Hstem & Himg & Hnpy).
  rewrite Forall_forall in Hnames. specialize (Hnames src Hsrc).
  exists src, arr. split; [exact Hnames|]. split; [exact Hstem|]. split; [|exact Hnpy].
  rewrite label_file_join in Himg by exact Hnames.
  apply Hback in Himg. now rewrite Hfs1 in Himg.
Qed.

End ConvertedSequence.

Section ConvertedLabelsClaim.
Import Path Fs SampleFiles.

(** X18.  [_preprocessing] leaves the array of every label image where
    [_get_data] reads the labels of its identifier.  For a driver whose
    [basepath] is the directory [RAND_CITYSCAPES] under the [base_path] the
    conversion works on, and an entry [filename] of the label directory of the
    direction [F], a call of [_preprocessing] for [RAND_CITYSCAPES] that
    returns leaves an array file at the path [_get_data] builds for the part
    of [filename] before its first dot; the array is the image of an entry
    with that identifier, and of [filename] itself when no other entry
    shares the identifier. *)
Theorem converted_labels_are_where_the_loader_reads
    (self : SynthiaCityscapes) (base_path filename : string)
    (fs fs' : gmap string node) (perm : list nat) (out : list string) :
  _preprocessing base_path fs "RAND_CITYSCAPES" perm = Outcome out (Ok fs') ->
  basepath self = join base_path ["RAND_CITYSCAPES"] ->
  filename <> "" -> has_char slash filename = false ->
  is_Some (fs !! join (join (join base_path ["RAND_CITYSCAPES"; "GT"])
                            ["LABELS"; "Stereo_Right/Omni_F"]) [filename]) ->
  exists source array,
    before_first "."%char source = before_first "."%char filename /\
    fs !! join (join (join base_path ["RAND_CITYSCAPES"; "GT"])
                     ["LABELS"; "Stereo_Right/Omni_F"]) [source]
      = Some (FileImage array) /\
    fs' !! groundtruth_filename (basepath self) (before_first "."%char filename)
      = Some (FileNpy array) /\
    ((forall other a,
        fs !! join (join (join base_path ["RAND_CITYSCAPES"; "GT"])
                         ["LABELS"; "Stereo_Right/Omni_F"]) [other]
          = Some (FileImage a) ->
        before_first "."%char other = before_first "."%char filename ->
        other = filename) ->
     source = filename).
Proof.
  intros Hrun -> Hne Hslash Hentry.
  pose proof (sequence_root base_path) as HX.
  set (X := join base_path ["RAND_CITYSCAPES"]) in *.
  change (join base_path ["RAND_CITYSCAPES"; "GT"]) with (join2 X "GT") in *.
  change "Stereo_Right/Omni_F" with ("Stereo_Right/Omni_" +:+ "F") in Hentry |- *.
  rewrite (label_dir_join X HX) in Hentry |- *.
  rewrite (label_file_join X filename Hslash) in Hentry.
  unfold _preprocessing in Hrun.
  change (join base_path ["RAND_CITYSCAPES"; "GT"]) with (join2 X "GT") in Hrun.
  cbn [convert_directions] in Hrun.
  destruct (convert_direction fs (join2 X "GT") "F") as [fs3|e] eqn:Hconv;
    [|cbn in Hrun; discriminate].
  cbn [mbind res_bind] in Hrun.
  rewrite bool_decide_eq_true_2 in Hrun by reflexivity.
  destruct (convert_direction_F X HX fs fs3 filename Hconv Hne Hslash Hentry)
    as (src & arr & Hsrc & Hstem & Himg & Hnpy).
  exists src, arr. split; [exact Hstem|].
  rewrite (label_file_join X src Hsrc). split; [exact Himg|].
  split.
  - rewrite (groundtruth_in_array_dir X HX).
    destruct (exists_ fs3 _); [now injection Hrun as _ <-|].
    injection Hrun as _ Hrun.
    apply bind_ok in Hrun as (names & _ & Hrun).
    apply bind_ok in Hrun as ([trainset testset] & _ & Hrun).
    apply write_inserts in Hrun. subst fs'.
    rewrite lookup_insert_ne; [exact Hnpy|].
    rewrite <- (groundtruth_in_array_dir X HX). apply groundtruth_not_split, HX.
  - intros Huniq. apply (Huniq src arr); [|exact Hstem].
    now rewrite (label_file_join X src Hsrc).
Qed.

End ConvertedLabelsClaim.

Lemma converted_labels_are_where_the_loader_reads_witness :
  exists source array,
    Path.before_first "."%char source = "0000000" /\
    Demo.raw_disk !! Path.join (Path.join (Path.join "/data" ["RAND_CITYSCAPES"; "GT"])
                                          ["LABELS"; "Stereo_Right/Omni_F"]) [source]
      = Some (FileImage array) /\
    Demo.preprocessed !! "/data/RAND_CITYSCAPES/GT/LABELS_NPY/Stereo_Right/Omni_F/0000000.npy"
      = Some (FileNpy array).
Proof.
  assert (Hrun : _preprocessing "/data" Demo.raw_disk "RAND_CITYSCAPES" Demo.shuffle
                 = Outcome ["INFO: Creating Train-Test-Split"] (Ok Demo.preprocessed))
    by exact eq_refl.
  assert (Hentry : is_Some (Demo.raw_disk !!
            Path.join (Path.join (Path.join "/data" ["RAND_CITYSCAPES"; "GT"])
                                 ["LABELS"; "Stereo_Right/Omni_F"]) ["0000000.png"]))
    by (exists (FileImage [[3; 13]]); vm_compute; reflexivity).
  destruct (converted_labels_are_where_the_loader_reads Demo.default_driver "/data"
              "0000000.png" Demo.raw_disk Demo.preprocessed Demo.shuffle _ Hrun eq_refl
              ltac:(discriminate) eq_refl Hentry)
    as (source & array & Hstem & Himg & Hnpy & _).
  exists source, array. split; [exact Hstem|]. split; [exact Himg|exact Hnpy].
Defined.

Lemma starting_weight_lists_flatten_witness :
  Weights.import_startingweights "/data" Cases.open_experiment Cases.artifact_of
    Cases.record_imports true Cases.show
    (JList [JList [JStr "washington"]; JList [Cases.named]]) []
  = Weights.import_startingweights "/data" Cases.open_experiment Cases.artifact_of
      Cases.record_imports true Cases.show
      (JList ([JStr "washington"] ++ [Cases.named])) [].
Proof.
  destruct (starting_weight_lists_flatten "/data" Cases.open_experiment Cases.artifact_of
              Cases.record_imports true Cases.show [JStr "washington"] [Cases.named] [])
    as (_ & _ & Hnested & _).
  exact Hnested.
Defined.
